(** * The pull-request review agent, embedded in Rocq

    The repository carries three revisions of the review-agent script:

    - [.github/scripts/review-agent.mjs]            (module [ReviewAgent]),
    - the first document of [unnamed/part_000]      (module [Part000a]),
    - the second document of [unnamed/part_000]     (module [Part000b]).

    Each is a linear sequence of guarded steps over three collaborators (the
    host API, local command execution and the completion API).  The
    collaborators are an explicit [World]; a script is a function from the
    script's mutable variables to the list of collaborator calls it issued
    and the way it ended.

    Modelling boundaries, stated once:
    - a JavaScript string is the list of its UTF-16 code units;
    - [toLowerCase] is embedded for the Basic Latin and Latin-1 blocks and
      leaves every other code unit unchanged;
    - values read from JSON are typed (strings where the script expects
      strings), and [path.join] is concatenation with a separator;
    - the event file is read and parsed, and calls to the host API and to
      the completion API return; a command, [fs.stat], [fs.readFile] of a
      changed file and the reading of package.json may throw. *)

From Stdlib Require Import ZArith NArith List Ascii String Bool Lia DecimalString.
From stdpp Require Import gmap.
Import ListNotations.

Local Open Scope N_scope.

(** ** Strings *)

Definition jsstring := list N.

Definition lit (s : string) : jsstring :=
  List.map N_of_ascii (list_ascii_of_string s).

Arguments lit : simpl never.

(** The escape [\n] of a JavaScript literal. *)
Definition NL : jsstring := [10].

(** The double quote. *)
Definition QUOTE : jsstring := [34].

(** [!s] is true of the empty string only. *)
Definition truthy (s : jsstring) : bool :=
  match s with [] => false | _ :: _ => true end.

(** [a || b] on strings. *)
Definition orElse (a b : jsstring) : jsstring := if truthy a then a else b.

(** [o || b] where [o] may be undefined or null. *)
Definition orDefault (o : option jsstring) (b : jsstring) : jsstring :=
  match o with Some a => orElse a b | None => b end.

Definition truthyOpt (o : option jsstring) : bool :=
  match o with Some a => truthy a | None => false end.

(** Number-to-string conversion of an integer, as a template literal does. *)
Definition numToString (z : Z) : jsstring :=
  lit (NilZero.string_of_int (Z.to_int z)).

Fixpoint startsWith (p s : jsstring) : bool :=
  match p, s with
  | [], _ => true
  | _ :: _, [] => false
  | a :: p', b :: s' => (a =? b) && startsWith p' s'
  end.

(** [s.includes(p)] *)
Fixpoint includes (s p : jsstring) : bool :=
  startsWith p s ||
  match s with
  | [] => false
  | _ :: s' => includes s' p
  end.

(** [parts.join(sep)] *)
Fixpoint join (sep : jsstring) (parts : list jsstring) : jsstring :=
  match parts with
  | [] => []
  | [p] => p
  | p :: rest => p ++ sep ++ join sep rest
  end.

(** [s.slice(0, m)]: a negative end counts from the end of the string. *)
Definition slice0 (s : jsstring) (m : Z) : jsstring :=
  if (m <? 0)%Z
  then firstn (Z.to_nat (Z.max 0 (Z.of_nat (length s) + m))) s
  else firstn (Z.to_nat m) s.

(** White space and line terminators: the class [\s], which is also what
    [trim] strips. *)
Definition isSpace (c : N) : bool :=
  (9 <=? c) && (c <=? 13) || (c =? 32) || (c =? 160) || (c =? 5760) ||
  (8192 <=? c) && (c <=? 8202) || (c =? 8232) || (c =? 8233) ||
  (c =? 8239) || (c =? 8287) || (c =? 12288) || (c =? 65279).

Fixpoint trimStart (s : jsstring) : jsstring :=
  match s with
  | [] => []
  | c :: s' => if isSpace c then trimStart s' else s
  end.

Definition trimEnd (s : jsstring) : jsstring := rev (trimStart (rev s)).

Definition trim (s : jsstring) : jsstring := trimEnd (trimStart s).

Definition lowerUnit (c : N) : N :=
  if (65 <=? c) && (c <=? 90) then c + 32
  else if (192 <=? c) && (c <=? 222) && negb (c =? 215) then c + 32
  else c.

Definition toLowerCase (s : jsstring) : jsstring := List.map lowerUnit s.

(** Canonicalisation of a code unit under the [i] flag (without the [u]
    flag): the upper-case form, except that a unit outside Basic Latin never
    folds into it.  Against a pattern of Basic Latin characters only the
    folding of [a]-[z] is observable. *)
Definition canonicalize (c : N) : N :=
  if (97 <=? c) && (c <=? 122) then c - 32 else c.

(** [/pattern/i.test(text)] for a pattern that is a plain sequence of
    characters. *)
Definition testIgnoreCase (pattern text : jsstring) : bool :=
  includes (List.map canonicalize text) (List.map canonicalize pattern).

(** ** Global replacement with the script's regular expressions *)

(** [x*?closing] tried at the head of [s], [x] ranging over the class [cls]:
    the lazy star first tries [closing], and consumes one more unit of the
    class only when that fails.  The result is the number of units matched
    before [closing]. *)
Fixpoint lazyStar (cls : N -> bool) (closing s : jsstring) : option nat :=
  if startsWith closing s then Some 0%nat
  else match s with
       | [] => None
       | c :: s' =>
           if cls c then option_map S (lazyStar cls closing s') else None
       end.

Definition TICKS : jsstring := lit "```".

(** [opening x*? closing] with both delimiters three backticks: the length
    of the match at the head of [s]. *)
Definition fenceAt (cls : N -> bool) (s : jsstring) : option nat :=
  if startsWith TICKS s
  then option_map (fun k => (6 + k)%nat) (lazyStar cls TICKS (skipn 3 s))
  else None.

(** The number of leading units of [s] in the class: a greedy [x+]. *)
Fixpoint runLength (cls : N -> bool) (s : jsstring) : nat :=
  match s with
  | [] => 0%nat
  | c :: s' => if cls c then S (runLength cls s') else 0%nat
  end.

(** [s.replace(re, by)] for a global [re] that never matches the empty
    string.  [matchAt] gives the length of the match at the head of its
    argument; [skip] counts the units of the current match still to be
    dropped. *)
Fixpoint replaceGo (matchAt : jsstring -> option nat) (by_ : jsstring)
    (skip : nat) (s : jsstring) : jsstring :=
  match s with
  | [] => []
  | c :: s' =>
      match skip with
      | S k => replaceGo matchAt by_ k s'
      | O =>
          match matchAt s with
          | Some (S k) => by_ ++ replaceGo matchAt by_ k s'
          | _ => c :: replaceGo matchAt by_ 0 s'
          end
      end
  end.

Definition replaceAll (matchAt : jsstring -> option nat) (by_ s : jsstring)
  : jsstring := replaceGo matchAt by_ 0 s.

Definition TRIGGER : jsstring := lit "@review-agent: please review this PR".
Definition MARKER_PREFIX : jsstring := lit "<!-- review-agent commit:".

(** ** Collaborators *)

(** What a child process left behind.  [execFile] rejects when the command
    exits non-zero or cannot be started; the rejection carries the captured
    streams when there are any, and its message. *)
Inductive ExecResult :=
| ExecOk (stdout stderr : jsstring)
| ExecFail (stdout stderr : option jsstring) (message : jsstring).

Record Event := {
  comment_body : option jsstring;
  issue_number : option N;
  repository_name : option jsstring;
  repository_owner_login : option jsstring }.

Record Pull := {
  pr_title : jsstring;
  pr_body : option jsstring;
  head_sha : jsstring;
  base_sha : jsstring;
  head_repo_full_name : jsstring;
  base_repo_full_name : jsstring }.

Record Review := { review_body : option jsstring }.

(** The parsed package.json, as far as the scripts look at it. *)
Record Package := {
  scripts_test : option jsstring;
  dependencies : option (gmap jsstring jsstring);
  devDependencies : option (gmap jsstring jsstring);
  optionalDependencies : option (gmap jsstring jsstring) }.

(** A completion response, in either of its two shapes. *)
Record Content := { content_type : option jsstring; content_text : option jsstring }.
Record Item := { item_content : option (list Content) }.
Record Response := {
  output_text : option jsstring;
  output : option (list Item) }.

Record World := {
  GITHUB_TOKEN : option jsstring;
  OPENAI_API_KEY : option jsstring;
  GITHUB_EVENT_PATH : option jsstring;
  GITHUB_WORKSPACE : option jsstring;
  OPENAI_MODEL : option jsstring;
  cwd : jsstring;
  (** [JSON.parse(await fs.readFile(eventPath))] *)
  event : Event;
  (** [(await octokit.pulls.get(..)).data] *)
  pulls_get : option Pull;
  (** [(await octokit.pulls.listReviews(..)).data] *)
  pulls_listReviews : list Review;
  (** command, arguments, working directory *)
  execFile : jsstring -> list jsstring -> jsstring -> ExecResult;
  (** [fs.stat(p)]: [None] when it rejects, else the value of [isFile()] *)
  fs_stat : jsstring -> option bool;
  (** [fs.readFile(p, 'utf8')]: [None] when it rejects *)
  fs_readFile : jsstring -> option jsstring;
  (** [JSON.parse(await fs.readFile(p, 'utf8'))] for package.json:
      [None] when either step throws *)
  read_package : jsstring -> option Package;
  (** [openai.responses.create({ input, .. })] *)
  responses_create : jsstring -> Response }.

(** A call issued to a collaborator. *)
Inductive Action :=
| ConsoleError (msg : jsstring)
| ConsoleLog (msg : jsstring)
| ReadEvent (path : jsstring)
| PullsGet (owner repo : jsstring) (number : N)
| ListReviews (owner repo : jsstring) (number : N)
| CreateComment (owner repo : jsstring) (number : N) (body : jsstring)
| CreateReview (owner repo : jsstring) (number : N) (body : jsstring)
| FsRm (path : jsstring)
| FsMkdir (path : jsstring)
| FsStat (path : jsstring)
| FsReadFile (path : jsstring)
| ExecFile (cmd : jsstring) (args : list jsstring) (dir : jsstring)
| ResponsesCreate (model input : jsstring) (max_output_tokens : N).

(** ** Scripts *)

(** A thrown value: [String(error)], and the [output] property that
    [runCapture] attaches before it rethrows. *)
Record Error := {
  err_string : jsstring;
  err_output : option jsstring }.

(** The one variable of the scripts that is assigned inside a [try] and read
    in its [catch]. *)
Record Vars := { testOutput : jsstring }.

Inductive Res (A : Type) :=
| Val (a : A) (vs : Vars)
| Throw (e : Error) (vs : Vars)
| Exit (code : N).
Arguments Val {A} a vs.
Arguments Throw {A} e vs.
Arguments Exit {A} code.

Definition Script (A : Type) := Vars -> list Action * Res A.

Definition ret {A} (a : A) : Script A := fun vs => ([], Val a vs).

Definition bind {A B} (m : Script A) (k : A -> Script B) : Script B :=
  fun vs =>
    match m vs with
    | (t, Val a vs') => let '(t', r) := k a vs' in (t ++ t', r)
    | (t, Throw e vs') => (t, Throw e vs')
    | (t, Exit c) => (t, Exit c)
    end.

Notation "'do' x <- m ; k" := (bind m (fun x => k))
  (at level 10, x name, m at level 100, k at level 200).
Notation "'do_' m ; k" := (bind m (fun _ => k))
  (at level 10, m at level 100, k at level 200).

Definition emit (a : Action) : Script unit := fun vs => ([a], Val tt vs).
Definition throw {A} (e : Error) : Script A := fun vs => ([], Throw e vs).
(** [process.exit(code)] *)
Definition exit {A} (code : N) : Script A := fun _ => ([], Exit code).
Definition getTestOutput : Script jsstring :=
  fun vs => ([], Val (testOutput vs) vs).
Definition setTestOutput (s : jsstring) : Script unit :=
  fun _ => ([], Val tt {| testOutput := s |}).

(** [try { body } catch (error) { handler }]: the handler sees the variables
    as the body left them. *)
Definition tryCatch {A} (body : Script A) (handler : Error -> Script A)
  : Script A :=
  fun vs =>
    match body vs with
    | (t, Throw e vs') => let '(t', r) := handler e vs' in (t ++ t', r)
    | r => r
    end.

(** How the process ended: an exit code, or an exception nobody caught
    (which ends a Node process with a failure status). *)
Inductive Outcome :=
| Exited (code : N)
| Uncaught (e : Error).

Definition failed (o : Outcome) : bool :=
  match o with Exited 0 => false | _ => true end.

(** Running a module to its end; falling off the end is exit code 0. *)
Definition runScript (m : Script unit) : list Action * Outcome :=
  match m {| testOutput := [] |} with
  | (t, Val _ _) => (t, Exited 0)
  | (t, Throw e _) => (t, Uncaught e)
  | (t, Exit c) => (t, Exited c)
  end.

(** ** Helpers that the revisions share word for word *)

Definition path_join (a b : jsstring) : jsstring := a ++ lit "/" ++ b.

(** [run(cmd, args, cwd)] of review-agent.mjs (183-185) and of the second
    document of part_000 (389-391): the output is dropped, a rejection
    propagates as it is. *)
Definition run (w : World) (cmd : jsstring) (args : list jsstring)
    (dir : jsstring) : Script unit :=
  do_ emit (ExecFile cmd args dir);
  match execFile w cmd args dir with
  | ExecOk _ _ => ret tt
  | ExecFail _ _ msg => throw {| err_string := msg; err_output := None |}
  end.

(** [runCapture(cmd, args, cwd)] of review-agent.mjs (187-202) and of the
    second document of part_000 (393-408). *)
Definition runCapture (w : World) (cmd : jsstring) (args : list jsstring)
    (dir : jsstring) : Script jsstring :=
  do_ emit (ExecFile cmd args dir);
  match execFile w cmd args dir with
  | ExecOk stdout stderr => ret (stdout ++ stderr)
  | ExecFail stdout stderr msg =>
      let stdout := orDefault stdout [] in
      let stderr := orDefault stderr [] in
      let output := stdout ++ stderr in
      throw {| err_string := msg; err_output := Some output |}
  end.

Definition postComment (owner repo : jsstring) (issueNumber : N)
    (body : jsstring) : Script unit :=
  emit (CreateComment owner repo issueNumber body).

(** [extractReviewText(response)] of review-agent.mjs (264-277) and of the
    second document of part_000 (445-458). *)
Definition chunkOf (c : Content) : list jsstring :=
  if bool_decide (content_type c = Some (lit "output_text"))
     && truthyOpt (content_text c)
  then [orDefault (content_text c) []] else [].

Definition contentChunks (response : Response) : list jsstring :=
  flat_map
    (fun item => flat_map chunkOf (default [] (item_content item)))
    (default [] (output response)).

Definition extractReviewText (response : Response) : jsstring :=
  if truthyOpt (output_text response)
  then orDefault (output_text response) []
  else
    let text := trim (join NL (contentChunks response)) in
    if truthy text then text
    else lit "No issues found. Tests passed.".

(** [usesPlaywright(pkg)] of review-agent.mjs (304-311) and of the second
    document of part_000 (460-467).  Spreading [undefined] adds nothing; a
    later spread overrides an earlier one. *)
Definition spread (o : option (gmap jsstring jsstring)) : gmap jsstring jsstring :=
  default ∅ o.

Definition deps (pkg : Package) : gmap jsstring jsstring :=
  spread (optionalDependencies pkg) ∪ spread (devDependencies pkg)
    ∪ spread (dependencies pkg).

Definition usesPlaywright (pkg : Package) : bool :=
  truthyOpt (deps pkg !! lit "@playwright/test")
  || truthyOpt (deps pkg !! lit "playwright").

(** [s.split('\n')] *)
Fixpoint splitLines (s : jsstring) : list jsstring :=
  match s with
  | [] => [[]]
  | c :: s' =>
      if c =? 10 then [] :: splitLines s'
      else match splitLines s' with
           | [] => [[c]]
           | l :: ls => (c :: l) :: ls
           end
  end.

(** [text.split('\n').map((f) => f.trim()).filter(Boolean)] *)
Definition fileNames (text : jsstring) : list jsstring :=
  List.filter truthy (List.map trim (splitLines text)).

(** [testOutput += await m] *)
Definition appendTestOutput (m : Script jsstring) : Script unit :=
  do o <- m;
  do t <- getTestOutput;
  setTestOutput (t ++ o).

(** Reading a module-level identifier: one that the module never declares
    raises a ReferenceError. *)
Definition resolve {A} (name : string) (binding : option A) : Script A :=
  match binding with
  | Some v => ret v
  | None =>
      throw {| err_string := lit "ReferenceError: " ++ lit name
                               ++ lit " is not defined";
               err_output := None |}
  end.

Definition isTruthyNumber (n : option N) : bool :=
  match n with Some 0 | None => false | Some _ => true end.

(** The context that every revision reads from the event before it does
    anything else. *)
Record Context := {
  ctx_token : jsstring;
  ctx_owner : jsstring;
  ctx_repo : jsstring;
  ctx_issue : N;
  ctx_comment : jsstring }.

(** Lines 13-38 of review-agent.mjs, and 224-249 of part_000: credentials
    and event context, or exit code 1. *)
Definition readContext (w : World) : Script Context :=
  if negb (truthyOpt (GITHUB_TOKEN w)) then
    do_ emit (ConsoleError (lit "Missing GITHUB_TOKEN")); exit 1
  else if negb (truthyOpt (GITHUB_EVENT_PATH w)) then
    do_ emit (ConsoleError (lit "Missing GITHUB_EVENT_PATH")); exit 1
  else
    do_ emit (ReadEvent (orDefault (GITHUB_EVENT_PATH w) []));
    let commentBody := orDefault (comment_body (event w)) [] in
    let issueNumber := issue_number (event w) in
    let repo := repository_name (event w) in
    let owner := repository_owner_login (event w) in
    if negb (isTruthyNumber issueNumber) || negb (truthyOpt owner)
       || negb (truthyOpt repo)
    then do_ emit (ConsoleError (lit "Missing issue or repo context")); exit 1
    else ret {| ctx_token := orDefault (GITHUB_TOKEN w) [];
                ctx_owner := orDefault owner [];
                ctx_repo := orDefault repo [];
                ctx_issue := default 0 issueNumber;
                ctx_comment := commentBody |}.

Definition forkMessage : jsstring :=
  lit "Review agent only runs on PRs from the same repository (forks are not supported).".

(** Lines 45-60 of review-agent.mjs, and 256-271 of part_000: the pull
    request, refused when it comes from a fork. *)
Definition resolvePull (w : World) (c : Context) : Script Pull :=
  do_ emit (PullsGet (ctx_owner c) (ctx_repo c) (ctx_issue c));
  match pulls_get w with
  | None => do_ emit (ConsoleError (lit "PR not found.")); exit 1
  | Some pr =>
      if negb (bool_decide (head_repo_full_name pr = base_repo_full_name pr))
      then
        do_ postComment (ctx_owner c) (ctx_repo c) (ctx_issue c) forkMessage;
        exit 1
      else ret pr
  end.

Definition markerOf (headSha : jsstring) : jsstring :=
  MARKER_PREFIX ++ headSha ++ lit " -->".

Definition workDirOf (w : World) : jsstring :=
  let workspace := orDefault (GITHUB_WORKSPACE w) (cwd w) in
  path_join workspace (lit ".review-agent-work").

Definition repoUrlOf (c : Context) : jsstring :=
  lit "https://x-access-token:" ++ ctx_token c ++ lit "@github.com/"
    ++ ctx_owner c ++ lit "/" ++ ctx_repo c ++ lit ".git".

Definition GIT : jsstring := lit "git".
Definition NPM : jsstring := lit "npm".
Definition NPX : jsstring := lit "npx".
Definition checkoutArgs (headSha : jsstring) : list jsstring :=
  [lit "checkout"; headSha].
Definition fetchArgs (baseSha headSha : jsstring) : list jsstring :=
  [lit "fetch"; lit "--depth"; lit "50"; lit "origin"; baseSha; headSha].
Definition diffArgs (baseSha headSha : jsstring) : list jsstring :=
  [lit "diff"; lit "--unified=3"; baseSha; headSha].
Definition nameOnlyArgs (baseSha headSha : jsstring) : list jsstring :=
  [lit "diff"; lit "--name-only"; baseSha; headSha].
Definition playwrightArgs : list jsstring :=
  [lit "playwright"; lit "install"; lit "--with-deps"; lit "chromium"].

(** Lines 66-76 of review-agent.mjs, and 293-303 of part_000: a fresh
    working directory with the head commit checked out. *)
Definition materialize (w : World) (c : Context) (pr : Pull) : Script jsstring :=
  let workDir := workDirOf w in
  do_ emit (FsRm workDir);
  do_ emit (FsMkdir workDir);
  do_ run w GIT [lit "init"] workDir;
  do_ run w GIT [lit "remote"; lit "add"; lit "origin"; repoUrlOf c] workDir;
  do_ run w GIT (fetchArgs (base_sha pr) (head_sha pr)) workDir;
  do_ run w GIT (checkoutArgs (head_sha pr)) workDir;
  ret workDir.

Definition noPackageMessage : jsstring :=
  lit "package.json not found. Cannot run npm test.".
Definition noTestScriptMessage : jsstring :=
  lit "No valid npm test script found. Please define a real " ++ QUOTE
    ++ lit "test" ++ QUOTE ++ lit " script in package.json.".

(** Lines 85-108 of review-agent.mjs, and 307-330 of part_000: the package
    manifest and its test script, or a comment and exit code 1. *)
Definition loadPackage (w : World) (c : Context) (workDir : jsstring)
  : Script Package :=
  let pkgPath := path_join workDir (lit "package.json") in
  do pkg <-
    tryCatch
      (do_ emit (FsReadFile pkgPath);
       match read_package w pkgPath with
       | Some pkg => ret pkg
       | None => throw {| err_string := lit "Error"; err_output := None |}
       end)
      (fun _ =>
         do_ postComment (ctx_owner c) (ctx_repo c) (ctx_issue c) noPackageMessage;
         exit 1);
  let testScript := scripts_test pkg in
  if negb (truthyOpt testScript)
     || testIgnoreCase (lit "no test specified") (orDefault testScript [])
  then
    do_ postComment (ctx_owner c) (ctx_repo c) (ctx_issue c) noTestScriptMessage;
    exit 1
  else ret pkg.

(** The body of the [try] at lines 111-120 of review-agent.mjs, and 333-342
    of part_000. *)
Definition installAndTest (w : World) (pkg : Package) (workDir : jsstring)
  : Script unit :=
  do_ appendTestOutput (runCapture w NPM [lit "ci"] workDir);
  do_ (if usesPlaywright pkg
       then appendTestOutput (runCapture w NPX playwrightArgs workDir)
       else ret tt);
  appendTestOutput (runCapture w NPM [lit "test"] workDir).

(** The text of the failure comment, around the captured output. *)
Definition testFailedMessage (output : jsstring) : jsstring :=
  lit "npm test failed. Output:" ++ NL ++ NL ++ TICKS ++ NL ++ output ++ NL ++ TICKS.

Definition noKeyMessage : jsstring :=
  lit "OPENAI_API_KEY is not configured. Cannot generate review.".

Definition modelName (w : World) : jsstring :=
  orDefault (OPENAI_MODEL w) (lit "gpt-5").

(** [await openai.responses.create({ model, input, max_output_tokens })] *)
Definition complete (w : World) (input : jsstring) (max_output_tokens : N)
  : Script Response :=
  do_ emit (ResponsesCreate (modelName w) input max_output_tokens);
  ret (responses_create w input).

(** [readFiles(files, cwd)] of review-agent.mjs (286-301) and of the first
    document of part_000 (143-158).  The two differ in one expression, the
    text pushed for a file that was read: [render content].  [parts] is the
    array the loop pushes to. *)
Fixpoint readLoop (render : jsstring -> jsstring) (w : World) (dir : jsstring)
    (files : list jsstring) (parts : list jsstring) : Script (list jsstring) :=
  match files with
  | [] => ret parts
  | file :: rest =>
      if negb (truthy file) then readLoop render w dir rest parts
      else
        let fullPath := path_join dir file in
        do_ emit (FsStat fullPath);
        match fs_stat w fullPath with
        | None => readLoop render w dir rest parts
        | Some false => readLoop render w dir rest parts
        | Some true =>
            do_ emit (FsReadFile fullPath);
            match fs_readFile w fullPath with
            | None => readLoop render w dir rest parts
            | Some content =>
                readLoop render w dir rest
                  (parts ++ [NL ++ lit "--- " ++ file ++ lit " ---" ++ NL
                               ++ render content])
            end
        end
  end.

Definition readFilesWith (render : jsstring -> jsstring) (w : World)
    (files : list jsstring) (dir : jsstring) : Script jsstring :=
  do parts <- readLoop render w dir files [];
  ret (trim (join NL parts)).

(** * .github/scripts/review-agent.mjs *)
Module ReviewAgent.

(** The character class of [[\\s\\S]]: in a regular-expression literal
    [\\] is an escaped backslash, so the class holds the backslash and the
    two letters. *)
Definition fenceClass (c : N) : bool := (c =? 92) || (c =? 115) || (c =? 83).

(** [/\\s+/]: a backslash followed by one or more [s]. *)
Definition spaceRunAt (s : jsstring) : option nat :=
  match s with
  | 92 :: s' =>
      match runLength (fun c => c =? 115) s' with
      | O => None
      | S n => Some (S (S n))
      end
  | _ => None
  end.

(** Lines 279-284. *)
Definition matchesTrigger (body : jsstring) : bool :=
  if negb (truthy body) then false
  else
    let cleaned := replaceAll (fenceAt fenceClass) (lit " ") body in
    let normalized :=
      toLowerCase (trim (replaceAll spaceRunAt (lit " ") cleaned)) in
    includes normalized (toLowerCase TRIGGER).

(** Lines 286-301: the file contents are pushed as they were read. *)
Definition readFiles (w : World) (files : list jsstring) (dir : jsstring)
  : Script jsstring :=
  readFilesWith (fun content => content) w files dir.

(** The module calls [truncate] and reads [MAX_TEST_CHARS] at line 122 and
    declares neither. *)
Definition truncate : option (jsstring -> Z -> jsstring) := None.
Definition MAX_TEST_CHARS : option Z := None.

Record PromptArgs := {
  title : jsstring;
  body : jsstring;
  diff : jsstring;
  testOutputText : jsstring;
  changedFileContents : jsstring }.

Definition promptContext (a : PromptArgs) : list jsstring :=
  [ [];
    lit "PR Title: " ++ title a;
    lit "PR Description: " ++ orElse (body a) (lit "(none)");
    [];
    lit "Changed files:";
    orElse (changedFileContents a) (lit "(none)");
    [];
    lit "Test Output:";
    orElse (testOutputText a) (lit "(no output)");
    [];
    lit "Unified Diff:";
    orElse (diff a) (lit "(no diff)") ].

(** Lines 214-243. *)
Definition buildPrompt (a : PromptArgs) : jsstring :=
  join NL
    ([ lit "You are a senior code reviewer. Provide a pragmatic, prioritized review.";
       lit "Focus on correctness, security, performance, and maintainability.";
       lit "Avoid nitpicks and formatting-only comments.";
       lit "Reference files and diff snippets where possible.";
       lit "If unsure, state assumptions instead of asking questions.";
       lit "Actively look for logical issues not covered by tests.";
       lit "Also call out user-facing copy/spelling issues if they are real problems.";
       lit "If you find no issues, explicitly say " ++ QUOTE ++ lit "No issues found"
         ++ QUOTE ++ lit " and briefly confirm that tests passed." ]
     ++ promptContext a).

(** Lines 245-262. *)
Definition buildRetryPrompt (a : PromptArgs) : jsstring :=
  join NL
    ([ lit "Re-review the PR and list concrete issues if any exist.";
       lit "Prioritize correctness and user-facing text. If you still find no issues, say so." ]
     ++ promptContext a).

(** Lines 110-130: the test run and its handler. *)
Definition runTests (w : World) (c : Context) (pkg : Package)
    (workDir : jsstring) : Script unit :=
  do_ setTestOutput [];
  tryCatch
    (installAndTest w pkg workDir)
    (fun error =>
       do truncate <- resolve "truncate" truncate;
       do t <- getTestOutput;
       let text := orElse (orDefault (err_output error) []) (orElse t (err_string error)) in
       do max <- resolve "MAX_TEST_CHARS" MAX_TEST_CHARS;
       let output := truncate text max in
       do_ postComment (ctx_owner c) (ctx_repo c) (ctx_issue c)
            (testFailedMessage output);
       exit 1).

(** Lines 132-181: the review, regenerated once on a clean verdict. *)
Definition review (w : World) (c : Context) (pr : Pull)
    (diff changedFileContents : jsstring) : Script unit :=
  if negb (truthyOpt (OPENAI_API_KEY w)) then
    do_ postComment (ctx_owner c) (ctx_repo c) (ctx_issue c) noKeyMessage;
    exit 1
  else
    do testOutput <- getTestOutput;
    let args := {| title := pr_title pr;
                   body := orDefault (pr_body pr) [];
                   diff := diff;
                   testOutputText := testOutput;
                   changedFileContents := changedFileContents |} in
    let prompt := buildPrompt args in
    do response <- complete w prompt 1200;
    let reviewText := extractReviewText response in
    do reviewText <-
      (if testIgnoreCase (lit "no issues found") reviewText then
         let retryPrompt := buildRetryPrompt args in
         do retryResponse <- complete w retryPrompt 1200;
         ret (extractReviewText retryResponse)
       else ret reviewText);
    emit (CreateReview (ctx_owner c) (ctx_repo c) (ctx_issue c)
            (reviewText ++ NL ++ NL ++ markerOf (head_sha pr))).

(** The module body, lines 13-181. *)
Definition main (w : World) : Script unit :=
  do c <- readContext w;
  if negb (matchesTrigger (ctx_comment c)) then
    do_ emit (ConsoleLog (lit "Trigger not found. Exiting.")); exit 0
  else
    do pr <- resolvePull w c;
    do workDir <- materialize w c pr;
    do diff <- runCapture w GIT (diffArgs (base_sha pr) (head_sha pr)) workDir;
    do changedFiles <-
      runCapture w GIT (nameOnlyArgs (base_sha pr) (head_sha pr)) workDir;
    do changedFileContents <- readFiles w (fileNames changedFiles) workDir;
    do pkg <- loadPackage w c workDir;
    do_ runTests w c pkg workDir;
    review w c pr diff changedFileContents.

End ReviewAgent.

(** * unnamed/part_000, first document (lines 1-209) *)
Module Part000a.

Definition MAX_FILE_CHARS : Z := 4000.

(** The character class of [[\s\S]]: every code unit. *)
Definition fenceClass (c : N) : bool := isSpace c || negb (isSpace c).

(** [/\s+/] *)
Definition spaceRunAt (s : jsstring) : option nat :=
  match runLength isSpace s with
  | O => None
  | S n => Some (S n)
  end.

(** Lines 137-141. *)
Definition matchesTrigger (body : jsstring) : bool :=
  if negb (truthy body) then false
  else
    let cleaned := replaceAll (fenceAt fenceClass) (lit " ") body in
    includes
      (toLowerCase (trim (replaceAll spaceRunAt (lit " ") cleaned)))
      (toLowerCase TRIGGER).

(** The three code units that the bytes between the line break and the
    bracket decode to. *)
Definition ELLIPSIS : jsstring := [226; 8364; 166].

(** Lines 160-164. *)
Definition truncate (value : jsstring) (maxChars : Z) : jsstring :=
  if negb (truthy value) then []
  else if (Z.of_nat (length value) <=? maxChars)%Z then value
  else slice0 value maxChars ++ NL ++ ELLIPSIS ++ lit " [truncated "
         ++ numToString (Z.of_nat (length value) - maxChars) ++ lit " chars]".

(** Lines 143-158: the file contents are pushed through [truncate]. *)
Definition readFiles (w : World) (files : list jsstring) (dir : jsstring)
  : Script jsstring :=
  readFilesWith (fun content => truncate content MAX_FILE_CHARS) w files dir.

End Part000a.

(** * unnamed/part_000, second document (lines 210-467) *)
Module Part000b.

Definition MAX_DIFF_CHARS : Z := 12000.
Definition MAX_TEST_CHARS : Z := 8000.

(** Lines 410-414. *)
Definition truncate (text : jsstring) (maxChars : Z) : jsstring :=
  if negb (truthy text) then []
  else if (Z.of_nat (length text) <=? maxChars)%Z then text
  else slice0 text maxChars ++ NL ++ lit "...truncated...".

(** Lines 425-443. *)
Definition buildPrompt (title body diff testOutput : jsstring) : jsstring :=
  join NL
    [ lit "You are a senior code reviewer. Provide a pragmatic, prioritized review.";
      lit "Focus on correctness, security, performance, and maintainability.";
      lit "Avoid nitpicks and formatting-only comments.";
      lit "Reference files and diff snippets where possible.";
      lit "If unsure, state assumptions instead of asking questions.";
      lit "If you find no issues, explicitly say " ++ QUOTE ++ lit "No issues found"
        ++ QUOTE ++ lit " and briefly confirm that tests passed.";
      [];
      lit "PR Title: " ++ title;
      lit "PR Description: " ++ orElse body (lit "(none)");
      [];
      lit "Test Output (truncated):";
      orElse testOutput (lit "(no output)");
      [];
      lit "Unified Diff (truncated):";
      orElse diff (lit "(no diff)") ].

(** Lines 277-286: [existingReviews.data.some(..)]. *)
Definition alreadyReviewed (w : World) (marker : jsstring) : bool :=
  existsb
    (fun review =>
       match review_body review with
       | Some b => includes b marker
       | None => false
       end)
    (pulls_listReviews w).

(** Lines 332-352: the test run and its handler. *)
Definition runTests (w : World) (c : Context) (pkg : Package)
    (workDir : jsstring) : Script unit :=
  do_ setTestOutput [];
  tryCatch
    (installAndTest w pkg workDir)
    (fun error =>
       do t <- getTestOutput;
       let output :=
         truncate
           (orElse (orDefault (err_output error) []) (orElse t (err_string error)))
           MAX_TEST_CHARS in
       do_ postComment (ctx_owner c) (ctx_repo c) (ctx_issue c)
            (testFailedMessage output);
       exit 1).

(** Lines 354-387. *)
Definition review (w : World) (c : Context) (pr : Pull) (diff : jsstring)
  : Script unit :=
  if negb (truthyOpt (OPENAI_API_KEY w)) then
    do_ postComment (ctx_owner c) (ctx_repo c) (ctx_issue c) noKeyMessage;
    exit 1
  else
    do testOutput <- getTestOutput;
    let prompt :=
      buildPrompt (pr_title pr) (orDefault (pr_body pr) [])
        (truncate diff MAX_DIFF_CHARS) (truncate testOutput MAX_TEST_CHARS) in
    do response <- complete w prompt 800;
    let reviewText := extractReviewText response in
    emit (CreateReview (ctx_owner c) (ctx_repo c) (ctx_issue c)
            (reviewText ++ NL ++ NL ++ markerOf (head_sha pr))).

(** The module body, lines 224-387. *)
Definition main (w : World) : Script unit :=
  do c <- readContext w;
  if negb (includes (ctx_comment c) TRIGGER) then
    do_ emit (ConsoleLog (lit "Trigger not found. Exiting.")); exit 0
  else
    do pr <- resolvePull w c;
    let marker := markerOf (head_sha pr) in
    do_ emit (ListReviews (ctx_owner c) (ctx_repo c) (ctx_issue c));
    if alreadyReviewed w marker then
      do_ emit (ConsoleLog (lit "Review already exists for this commit. Exiting."));
      exit 0
    else
      do workDir <- materialize w c pr;
      do diff <- runCapture w GIT (diffArgs (base_sha pr) (head_sha pr)) workDir;
      do pkg <- loadPackage w c workDir;
      do_ runTests w c pkg workDir;
      review w c pr diff.

End Part000b.

(** ** Sample worlds and runs *)

Definition samplePull : Pull :=
  {| pr_title := lit "Add counter";
     pr_body := None;
     head_sha := lit "abc123";
     base_sha := lit "def456";
     head_repo_full_name := lit "acme/demo";
     base_repo_full_name := lit "acme/demo" |}.

Definition samplePackage : Package :=
  {| scripts_test := Some (lit "playwright test");
     dependencies := None;
     devDependencies := Some {[ lit "@playwright/test" := lit "^1.40.0" ]};
     optionalDependencies := None |}.

Definition textResponse (s : jsstring) : Response :=
  {| output_text := Some s; output := None |}.

(** A world in which everything succeeds; the completion API answers a
    prompt that starts with the retry instructions with one finding, and any
    other prompt with a clean verdict. *)
Definition sampleWorld : World :=
  {| GITHUB_TOKEN := Some (lit "t0ken");
     OPENAI_API_KEY := Some (lit "k3y");
     GITHUB_EVENT_PATH := Some (lit "/event.json");
     GITHUB_WORKSPACE := Some (lit "/ws");
     OPENAI_MODEL := None;
     cwd := lit "/";
     event := {| comment_body := Some (lit "please @review-agent: please review this PR now");
                 issue_number := Some 7;
                 repository_name := Some (lit "demo");
                 repository_owner_login := Some (lit "acme") |};
     pulls_get := Some samplePull;
     pulls_listReviews := [];
     execFile := fun cmd args _ =>
       if bool_decide (args = nameOnlyArgs (lit "def456") (lit "abc123"))
       then ExecOk (lit "src/App.jsx" ++ NL) []
       else ExecOk (lit "ok" ++ NL) [];
     fs_stat := fun _ => Some true;
     fs_readFile := fun _ => Some (lit "export default 1;" ++ NL);
     read_package := fun _ => Some samplePackage;
     responses_create := fun input =>
       if startsWith (lit "Re-review") input
       then textResponse (lit "Line 3 compares the wrong field.")
       else textResponse (lit "No issues found. Tests passed.") |}.

Definition setEvent (e : Event) (w : World) : World :=
  {| GITHUB_TOKEN := GITHUB_TOKEN w; OPENAI_API_KEY := OPENAI_API_KEY w;
     GITHUB_EVENT_PATH := GITHUB_EVENT_PATH w;
     GITHUB_WORKSPACE := GITHUB_WORKSPACE w; OPENAI_MODEL := OPENAI_MODEL w;
     cwd := cwd w; event := e; pulls_get := pulls_get w;
     pulls_listReviews := pulls_listReviews w; execFile := execFile w;
     fs_stat := fs_stat w; fs_readFile := fs_readFile w;
     read_package := read_package w; responses_create := responses_create w |}.

Definition setComment (body : jsstring) (w : World) : World :=
  setEvent {| comment_body := Some body;
              issue_number := issue_number (event w);
              repository_name := repository_name (event w);
              repository_owner_login := repository_owner_login (event w) |} w.

Definition setPull (pr : option Pull) (w : World) : World :=
  {| GITHUB_TOKEN := GITHUB_TOKEN w; OPENAI_API_KEY := OPENAI_API_KEY w;
     GITHUB_EVENT_PATH := GITHUB_EVENT_PATH w;
     GITHUB_WORKSPACE := GITHUB_WORKSPACE w; OPENAI_MODEL := OPENAI_MODEL w;
     cwd := cwd w; event := event w; pulls_get := pr;
     pulls_listReviews := pulls_listReviews w; execFile := execFile w;
     fs_stat := fs_stat w; fs_readFile := fs_readFile w;
     read_package := read_package w; responses_create := responses_create w |}.

Definition setReviews (rs : list Review) (w : World) : World :=
  {| GITHUB_TOKEN := GITHUB_TOKEN w; OPENAI_API_KEY := OPENAI_API_KEY w;
     GITHUB_EVENT_PATH := GITHUB_EVENT_PATH w;
     GITHUB_WORKSPACE := GITHUB_WORKSPACE w; OPENAI_MODEL := OPENAI_MODEL w;
     cwd := cwd w; event := event w; pulls_get := pulls_get w;
     pulls_listReviews := rs; execFile := execFile w;
     fs_stat := fs_stat w; fs_readFile := fs_readFile w;
     read_package := read_package w; responses_create := responses_create w |}.

Definition setExecFile (f : jsstring -> list jsstring -> jsstring -> ExecResult)
    (w : World) : World :=
  {| GITHUB_TOKEN := GITHUB_TOKEN w; OPENAI_API_KEY := OPENAI_API_KEY w;
     GITHUB_EVENT_PATH := GITHUB_EVENT_PATH w;
     GITHUB_WORKSPACE := GITHUB_WORKSPACE w; OPENAI_MODEL := OPENAI_MODEL w;
     cwd := cwd w; event := event w; pulls_get := pulls_get w;
     pulls_listReviews := pulls_listReviews w; execFile := f;
     fs_stat := fs_stat w; fs_readFile := fs_readFile w;
     read_package := read_package w; responses_create := responses_create w |}.

Definition setReadFile (f : jsstring -> option jsstring) (w : World) : World :=
  {| GITHUB_TOKEN := GITHUB_TOKEN w; OPENAI_API_KEY := OPENAI_API_KEY w;
     GITHUB_EVENT_PATH := GITHUB_EVENT_PATH w;
     GITHUB_WORKSPACE := GITHUB_WORKSPACE w; OPENAI_MODEL := OPENAI_MODEL w;
     cwd := cwd w; event := event w; pulls_get := pulls_get w;
     pulls_listReviews := pulls_listReviews w; execFile := execFile w;
     fs_stat := fs_stat w; fs_readFile := f;
     read_package := read_package w; responses_create := responses_create w |}.

Definition setPackage (p : option Package) (w : World) : World :=
  {| GITHUB_TOKEN := GITHUB_TOKEN w; OPENAI_API_KEY := OPENAI_API_KEY w;
     GITHUB_EVENT_PATH := GITHUB_EVENT_PATH w;
     GITHUB_WORKSPACE := GITHUB_WORKSPACE w; OPENAI_MODEL := OPENAI_MODEL w;
     cwd := cwd w; event := event w; pulls_get := pulls_get w;
     pulls_listReviews := pulls_listReviews w; execFile := execFile w;
     fs_stat := fs_stat w; fs_readFile := fs_readFile w;
     read_package := fun _ => p; responses_create := responses_create w |}.

(** The same request typed in lower case and spread over two lines. *)
Definition lowerCaseComment : jsstring :=
  lit "hello," ++ NL ++ lit "  @REVIEW-AGENT: Please Review This pr   " ++ NL.
Definition lowerCaseWorld : World := setComment lowerCaseComment sampleWorld.

(** The manifest declares no browser tooling. *)
Definition plainPackage : Package :=
  {| scripts_test := Some (lit "vitest run");
     dependencies := Some {[ lit "react" := lit "^18.2.0" ]};
     devDependencies := None;
     optionalDependencies := None |}.
Definition plainWorld : World := setPackage (Some plainPackage) sampleWorld.

(** The head commit of [samplePull] already carries a review with its
    marker. *)
Definition reviewedWorld : World :=
  setReviews
    [ {| review_body :=
           Some (lit "Line 3 compares the wrong field." ++ NL ++ NL
                   ++ markerOf (lit "abc123")) |} ]
    sampleWorld.

(** The comment only quotes the trigger phrase, inside a fence. *)
Definition quotedTrigger : jsstring := TICKS ++ NL ++ TRIGGER ++ NL ++ TICKS.
Definition quotingWorld : World := setComment quotedTrigger sampleWorld.

(** [npm test] exits non-zero after printing one line. *)
Definition failingTestsWorld : World :=
  setExecFile
    (fun cmd args dir =>
       if bool_decide (args = [lit "test"])
       then ExecFail (Some (lit "1 failed" ++ NL)) (Some [])
              (lit "Error: Command failed: npm test")
       else execFile sampleWorld cmd args dir)
    sampleWorld.

(** The pull request comes from a fork. *)
Definition forkWorld : World :=
  setPull
    (Some {| pr_title := lit "Add counter"; pr_body := None;
             head_sha := lit "abc123"; base_sha := lit "def456";
             head_repo_full_name := lit "mallory/demo";
             base_repo_full_name := lit "acme/demo" |})
    sampleWorld.

(** The changed file is 4001 characters long. *)
Definition bigContent : jsstring := repeat 120 4001.
Definition bigFileWorld : World := setReadFile (fun _ => Some bigContent) sampleWorld.

(** The head commit has no package.json. *)
Definition noPackageWorld : World := setPackage None sampleWorld.

(** ** Observations on a run *)

Definition comments (t : list Action) : list jsstring :=
  flat_map (fun a => match a with CreateComment _ _ _ b => [b] | _ => [] end) t.

Definition postedReviews (t : list Action) : list jsstring :=
  flat_map (fun a => match a with CreateReview _ _ _ b => [b] | _ => [] end) t.

(** The prompts sent to the completion API, in order. *)
Definition completions (t : list Action) : list jsstring :=
  flat_map (fun a => match a with ResponsesCreate _ i _ => [i] | _ => [] end) t.

(** The commands started, in order. *)
Definition commands (t : list Action) : list (jsstring * list jsstring) :=
  flat_map (fun a => match a with ExecFile c args _ => [(c, args)] | _ => [] end) t.

(** ** Conditions on the world, as the module body tests them *)

(** Credentials and event context are present (lines 16-38). *)
Definition hasContext (w : World) : bool :=
  truthyOpt (GITHUB_TOKEN w) && truthyOpt (GITHUB_EVENT_PATH w)
  && isTruthyNumber (issue_number (event w))
  && truthyOpt (repository_owner_login (event w))
  && truthyOpt (repository_name (event w)).

Definition contextOf (w : World) : Context :=
  {| ctx_token := orDefault (GITHUB_TOKEN w) [];
     ctx_owner := orDefault (repository_owner_login (event w)) [];
     ctx_repo := orDefault (repository_name (event w)) [];
     ctx_issue := default 0 (issue_number (event w));
     ctx_comment := orDefault (comment_body (event w)) [] |}.

Definition exitsZero (r : ExecResult) : bool :=
  match r with ExecOk _ _ => true | ExecFail _ _ _ => false end.

Definition outputOf (r : ExecResult) : jsstring :=
  match r with
  | ExecOk stdout stderr => stdout ++ stderr
  | ExecFail stdout stderr _ => orDefault stdout [] ++ orDefault stderr []
  end.

(** The four git commands of the workspace materializer succeed, and so do
    the two that read the diff. *)
Definition gitSucceeds (w : World) (pr : Pull) : bool :=
  let dir := workDirOf w in
  exitsZero (execFile w GIT [lit "init"] dir)
  && exitsZero (execFile w GIT
       [lit "remote"; lit "add"; lit "origin"; repoUrlOf (contextOf w)] dir)
  && exitsZero (execFile w GIT (fetchArgs (base_sha pr) (head_sha pr)) dir)
  && exitsZero (execFile w GIT (checkoutArgs (head_sha pr)) dir)
  && exitsZero (execFile w GIT (diffArgs (base_sha pr) (head_sha pr)) dir)
  && exitsZero (execFile w GIT (nameOnlyArgs (base_sha pr) (head_sha pr)) dir).

(** The test script is a real one (line 100). *)
Definition realTestScript (pkg : Package) : bool :=
  truthyOpt (scripts_test pkg)
  && negb (testIgnoreCase (lit "no test specified") (orDefault (scripts_test pkg) [])).

(** ** What [readFiles] is meant to compute *)

(** The contents of a changed file, when it is a regular file that can be
    read. *)
Definition readable (w : World) (dir file : jsstring) : option jsstring :=
  if truthy file then
    match fs_stat w (path_join dir file) with
    | Some true => fs_readFile w (path_join dir file)
    | _ => None
    end
  else None.

Definition section (file text : jsstring) : jsstring :=
  NL ++ lit "--- " ++ file ++ lit " ---" ++ NL ++ text.

Definition sections (render : jsstring -> jsstring) (w : World)
    (dir : jsstring) (files : list jsstring) : list jsstring :=
  flat_map
    (fun file =>
       match readable w dir file with
       | Some content => [section file (render content)]
       | None => []
       end)
    files.

(** ** Which entry of the manifest a dependency name resolves to *)

Definition entry (o : option (gmap jsstring jsstring)) (name : jsstring)
  : option jsstring :=
  match o with Some m => m !! name | None => None end.

(** The last of the three sections that declares [name] decides. *)
Definition effective (pkg : Package) (name : jsstring) : option jsstring :=
  match entry (optionalDependencies pkg) name with
  | Some v => Some v
  | None =>
      match entry (devDependencies pkg) name with
      | Some v => Some v
      | None => entry (dependencies pkg) name
      end
  end.

Definition playwrightNames : list jsstring :=
  [lit "@playwright/test"; lit "playwright"].

(** ** The calls of a run in which every step succeeds *)

(** What [readFiles] asks of the file system. *)
Definition readTrace (w : World) (dir : jsstring) (files : list jsstring)
  : list Action :=
  flat_map
    (fun file =>
       if truthy file then
         FsStat (path_join dir file)
           :: match fs_stat w (path_join dir file) with
              | Some true => [FsReadFile (path_join dir file)]
              | _ => []
              end
       else [])
    files.

Definition contextTrace (w : World) : list Action :=
  [ReadEvent (orDefault (GITHUB_EVENT_PATH w) [])].

Definition pullTrace (w : World) : list Action :=
  let c := contextOf w in
  [PullsGet (ctx_owner c) (ctx_repo c) (ctx_issue c)].

Definition checkoutTrace (w : World) (pr : Pull) : list Action :=
  let dir := workDirOf w in
  [ FsRm dir; FsMkdir dir;
    ExecFile GIT [lit "init"] dir;
    ExecFile GIT [lit "remote"; lit "add"; lit "origin"; repoUrlOf (contextOf w)] dir;
    ExecFile GIT (fetchArgs (base_sha pr) (head_sha pr)) dir;
    ExecFile GIT (checkoutArgs (head_sha pr)) dir ].

Definition diffTrace (w : World) (pr : Pull) : list Action :=
  [ExecFile GIT (diffArgs (base_sha pr) (head_sha pr)) (workDirOf w)].

Definition changedFilesOf (w : World) (pr : Pull) : list jsstring :=
  fileNames
    (outputOf (execFile w GIT (nameOnlyArgs (base_sha pr) (head_sha pr)) (workDirOf w))).

Definition packagePath (w : World) : jsstring :=
  path_join (workDirOf w) (lit "package.json").

(** review-agent.mjs up to the reading of package.json (lines 13-83). *)
Definition ReviewAgent_prefix (w : World) (pr : Pull) : list Action :=
  contextTrace w ++ pullTrace w ++ checkoutTrace w pr ++ diffTrace w pr
    ++ [ExecFile GIT (nameOnlyArgs (base_sha pr) (head_sha pr)) (workDirOf w)]
    ++ readTrace w (workDirOf w) (changedFilesOf w pr).

(** The second document of part_000 up to the reading of package.json
    (lines 224-305). *)
Definition Part000b_prefix (w : World) (pr : Pull) : list Action :=
  let c := contextOf w in
  contextTrace w ++ pullTrace w
    ++ [ListReviews (ctx_owner c) (ctx_repo c) (ctx_issue c)]
    ++ checkoutTrace w pr ++ diffTrace w pr.

(** What is left of review-agent.mjs from there on (lines 85-181). *)
Definition ReviewAgent_tail (w : World) (pr : Pull) : Script unit :=
  let c := contextOf w in
  let dir := workDirOf w in
  do pkg <- loadPackage w c dir;
  do_ ReviewAgent.runTests w c pkg dir;
  ReviewAgent.review w c pr
    (outputOf (execFile w GIT (diffArgs (base_sha pr) (head_sha pr)) dir))
    (trim (join NL (sections (fun content => content) w dir (changedFilesOf w pr)))).

(** What is left of the second document of part_000 (lines 307-387). *)
Definition Part000b_tail (w : World) (pr : Pull) : Script unit :=
  let c := contextOf w in
  let dir := workDirOf w in
  do pkg <- loadPackage w c dir;
  do_ Part000b.runTests w c pkg dir;
  Part000b.review w c pr
    (outputOf (execFile w GIT (diffArgs (base_sha pr) (head_sha pr)) dir)).

Definition gitCommands (w : World) (pr : Pull) : list (jsstring * list jsstring) :=
  [ (GIT, [lit "init"]);
    (GIT, [lit "remote"; lit "add"; lit "origin"; repoUrlOf (contextOf w)]);
    (GIT, fetchArgs (base_sha pr) (head_sha pr));
    (GIT, checkoutArgs (head_sha pr));
    (GIT, diffArgs (base_sha pr) (head_sha pr));
    (GIT, nameOnlyArgs (base_sha pr) (head_sha pr)) ].

Definition npmCi (w : World) : Action := ExecFile NPM [lit "ci"] (workDirOf w).
Definition npmTest (w : World) : Action := ExecFile NPM [lit "test"] (workDirOf w).
Definition playwrightInstall (w : World) : Action :=
  ExecFile NPX playwrightArgs (workDirOf w).

(** The three commands of the test stage, as far as they get. *)
Definition testTrace (w : World) (pkg : Package) : list Action :=
  let dir := workDirOf w in
  npmCi w ::
  if exitsZero (execFile w NPM [lit "ci"] dir) then
    if usesPlaywright pkg then
      playwrightInstall w ::
      if exitsZero (execFile w NPX playwrightArgs dir) then [npmTest w] else []
    else [npmTest w]
  else [].

(** Whether all the commands of the test stage that are run exit zero. *)
Definition testsPass (w : World) (pkg : Package) : bool :=
  let dir := workDirOf w in
  exitsZero (execFile w NPM [lit "ci"] dir)
  && (negb (usesPlaywright pkg) || exitsZero (execFile w NPX playwrightArgs dir))
  && exitsZero (execFile w NPM [lit "test"] dir).

(** The command of the test stage that exits non-zero first. *)
Definition failedCommand (w : World) (pkg : Package) : ExecResult :=
  let dir := workDirOf w in
  if negb (exitsZero (execFile w NPM [lit "ci"] dir))
  then execFile w NPM [lit "ci"] dir
  else if usesPlaywright pkg && negb (exitsZero (execFile w NPX playwrightArgs dir))
  then execFile w NPX playwrightArgs dir
  else execFile w NPM [lit "test"] dir.

(** The output of the commands of the test stage that exited zero, in
    order: the value of [testOutput] when the stage ends. *)
Definition collectedOutput (w : World) (pkg : Package) : jsstring :=
  let dir := workDirOf w in
  let out cmd args :=
    match execFile w cmd args dir with
    | ExecOk stdout stderr => Some (stdout ++ stderr)
    | ExecFail _ _ _ => None
    end in
  match out NPM [lit "ci"] with
  | None => []
  | Some o1 =>
      if usesPlaywright pkg then
        match out NPX playwrightArgs with
        | None => o1
        | Some o2 =>
            match out NPM [lit "test"] with
            | None => o1 ++ o2
            | Some o3 => (o1 ++ o2) ++ o3
            end
        end
      else
        match out NPM [lit "test"] with
        | None => o1
        | Some o3 => o1 ++ o3
        end
  end.

Definition messageOf (r : ExecResult) : jsstring :=
  match r with ExecOk _ _ => [] | ExecFail _ _ m => m end.

(** The exception that reading an undeclared identifier raises. *)
Definition referenceError (name : string) : Error :=
  {| err_string := lit "ReferenceError: " ++ lit name ++ lit " is not defined";
     err_output := None |}.

(** The text that the handler of the test stage passes to [truncate]
    (line 122 of review-agent.mjs, line 344 of part_000). *)
Definition failureText (w : World) (pkg : Package) : jsstring :=
  orElse (outputOf (failedCommand w pkg))
    (orElse (collectedOutput w pkg) (messageOf (failedCommand w pkg))).

(** The arguments of both prompts of review-agent.mjs (lines 144-150 and
    160-166). *)
Definition promptArgs (w : World) (pr : Pull) (pkg : Package)
  : ReviewAgent.PromptArgs :=
  {| ReviewAgent.title := pr_title pr;
     ReviewAgent.body := orDefault (pr_body pr) [];
     ReviewAgent.diff :=
       outputOf (execFile w GIT (diffArgs (base_sha pr) (head_sha pr)) (workDirOf w));
     ReviewAgent.testOutputText := collectedOutput w pkg;
     ReviewAgent.changedFileContents :=
       trim (join NL (sections (fun content => content) w (workDirOf w)
                        (changedFilesOf w pr))) |}.

Definition NO_ISSUES : jsstring := lit "no issues found".

(** A stretch of calls with no completion request and no review posted. *)
Definition quiet (t : list Action) : Prop :=
  completions t = [] /\ postedReviews t = [].

(** The calls of a run are quiet throughout, or quiet up to a last stretch
    that satisfies [R]. *)
Definition endsIn (R : list Action -> Prop) (t : list Action) : Prop :=
  quiet t \/ exists t0 t1, quiet t0 /\ t = t0 ++ t1 /\ R t1.

(** The calls of the review stage of review-agent.mjs, for some pull
    request that the host API returned. *)
Definition reviewStage (w : World) (t : list Action) : Prop :=
  exists c pr diff files vs,
    pulls_get w = Some pr /\
    t = fst (ReviewAgent.review w c pr diff files vs).

(** The calls of the review stage of the second document of part_000, for
    a pull request whose head commit carries no review with its marker. *)
Definition unreviewedStage (w : World) (t : list Action) : Prop :=
  exists c pr diff vs,
    pulls_get w = Some pr /\
    Part000b.alreadyReviewed w (markerOf (head_sha pr)) = false /\
    t = fst (Part000b.review w c pr diff vs).

(** * unnamed/part_000, first document: the module body (lines 15-107) *)
Module Part000aRun.

(** What the module reads of the pull request besides [Pull]:
    [pr.data.user?.login] and the [name] of each label. *)
Record PullMeta := {
  user_login : option jsstring;
  label_names : option (list (option jsstring)) }.

(** Lines 111-122: a rejection is turned into the captured output; nothing
    is thrown. *)
Definition runCapture (w : World) (cmd : jsstring) (args : list jsstring)
    (dir : jsstring) : Script jsstring :=
  do_ emit (ExecFile cmd args dir);
  match execFile w cmd args dir with
  | ExecOk stdout stderr => ret (stdout ++ stderr)
  | ExecFail stdout stderr _ => ret (orDefault stdout [] ++ orDefault stderr [])
  end.

(** Lines 200-209. *)
Definition extractReviewText (response : Response) : jsstring :=
  if truthyOpt (output_text response)
  then orDefault (output_text response) []
  else orElse (trim (join NL (contentChunks response))) (lit "No issues found.").

(** [labels?.map((l) => l.name).filter(Boolean)] (line 95) *)
Definition labelsOf (m : PullMeta) : option (list jsstring) :=
  option_map
    (fun ls => List.filter truthy (List.map (fun n => orDefault n []) ls))
    (label_names m).

(** [labels?.length ? labels.join(', ') : '(none)'] (line 182) *)
Definition labelsText (labels : option (list jsstring)) : jsstring :=
  match labels with
  | Some (l :: ls) => join (lit ", ") (l :: ls)
  | _ => lit "(none)"
  end.

(** The prompt of [generateReview], lines 169-189. *)
Definition prompt (title body : jsstring) (author : option jsstring)
    (labels : option (list jsstring)) (diff changedFileContents : jsstring)
  : jsstring :=
  join NL
    [ lit "You are a senior code reviewer. Your task is to find **logical errors** in the changed code.";
      lit "Focus on:";
      lit "- Correctness bugs: wrong conditions, off-by-one errors, missing edge cases, race conditions.";
      lit "- Security issues: injection, auth bypasses, data leaks.";
      lit "- Semantic mistakes: variables used before assignment, unreachable code, swapped arguments.";
      lit "Do NOT comment on style, formatting, or naming unless it causes a real bug.";
      lit "Reference specific files and code snippets. Be concise and actionable.";
      lit "If you find no logical errors, say " ++ QUOTE ++ lit "No issues found."
        ++ QUOTE;
      [];
      lit "PR Title: " ++ title;
      lit "PR Description: " ++ orElse body (lit "(none)");
      lit "PR Author: " ++ orDefault author (lit "(unknown)");
      lit "PR Labels: " ++ labelsText labels;
      [];
      lit "Changed file contents:";
      orElse changedFileContents (lit "(none)");
      [];
      lit "Unified Diff:";
      orElse diff (lit "(no diff)") ].

(** Lines 166-198. *)
Definition generateReview (w : World) (title body : jsstring)
    (author : option jsstring) (labels : option (list jsstring))
    (diff changedFileContents : jsstring) : Script jsstring :=
  do response <-
    complete w (prompt title body author labels diff changedFileContents) 1200;
  ret (extractReviewText response).

Definition forkMessage : jsstring :=
  lit "Review agent only supports same-repo PRs (not forks).".

Definition fetchArgs (baseSha : jsstring) : list jsstring :=
  [lit "fetch"; lit "origin"; baseSha; lit "--depth=1"].

(** The module body, lines 15-107.  The context is read as in the other
    revisions ([parseEvent], lines 128-135, returns the four fields that
    [readContext] tests). *)
Definition main (w : World) (meta : PullMeta) : Script unit :=
  do c <- readContext w;
  if negb (Part000a.matchesTrigger (ctx_comment c)) then
    do_ emit (ConsoleLog (lit "Trigger not found. Exiting.")); exit 0
  else if negb (truthyOpt (OPENAI_API_KEY w)) then
    do_ postComment (ctx_owner c) (ctx_repo c) (ctx_issue c) noKeyMessage;
    exit 1
  else
    do_ emit (PullsGet (ctx_owner c) (ctx_repo c) (ctx_issue c));
    match pulls_get w with
    | None => do_ emit (ConsoleError (lit "PR not found.")); exit 1
    | Some pr =>
        if negb (bool_decide (head_repo_full_name pr = base_repo_full_name pr))
        then
          do_ postComment (ctx_owner c) (ctx_repo c) (ctx_issue c) forkMessage;
          exit 1
        else
          let workspace := orDefault (GITHUB_WORKSPACE w) (cwd w) in
          let baseSha := base_sha pr in
          let headSha := head_sha pr in
          do_ runCapture w GIT (fetchArgs baseSha) workspace;
          do diff <- runCapture w GIT (diffArgs baseSha headSha) workspace;
          do names <- runCapture w GIT (nameOnlyArgs baseSha headSha) workspace;
          let changedFileNames := fileNames names in
          do changedFileContents <- Part000a.readFiles w changedFileNames workspace;
          do reviewText <-
            generateReview w (pr_title pr) (orDefault (pr_body pr) [])
              (user_login meta) (labelsOf meta) diff changedFileContents;
          let marker := markerOf headSha in
          emit (CreateReview (ctx_owner c) (ctx_repo c) (ctx_issue c)
                  (reviewText ++ NL ++ NL ++ marker))
    end.

End Part000aRun.

(** ** More sample worlds *)

Definition setKey (k : option jsstring) (w : World) : World :=
  {| GITHUB_TOKEN := GITHUB_TOKEN w; OPENAI_API_KEY := k;
     GITHUB_EVENT_PATH := GITHUB_EVENT_PATH w;
     GITHUB_WORKSPACE := GITHUB_WORKSPACE w; OPENAI_MODEL := OPENAI_MODEL w;
     cwd := cwd w; event := event w; pulls_get := pulls_get w;
     pulls_listReviews := pulls_listReviews w; execFile := execFile w;
     fs_stat := fs_stat w; fs_readFile := fs_readFile w;
     read_package := read_package w; responses_create := responses_create w |}.

Definition setStat (f : jsstring -> option bool) (w : World) : World :=
  {| GITHUB_TOKEN := GITHUB_TOKEN w; OPENAI_API_KEY := OPENAI_API_KEY w;
     GITHUB_EVENT_PATH := GITHUB_EVENT_PATH w;
     GITHUB_WORKSPACE := GITHUB_WORKSPACE w; OPENAI_MODEL := OPENAI_MODEL w;
     cwd := cwd w; event := event w; pulls_get := pulls_get w;
     pulls_listReviews := pulls_listReviews w; execFile := execFile w;
     fs_stat := f; fs_readFile := fs_readFile w;
     read_package := read_package w; responses_create := responses_create w |}.

Definition setResponses (f : jsstring -> Response) (w : World) : World :=
  {| GITHUB_TOKEN := GITHUB_TOKEN w; OPENAI_API_KEY := OPENAI_API_KEY w;
     GITHUB_EVENT_PATH := GITHUB_EVENT_PATH w;
     GITHUB_WORKSPACE := GITHUB_WORKSPACE w; OPENAI_MODEL := OPENAI_MODEL w;
     cwd := cwd w; event := event w; pulls_get := pulls_get w;
     pulls_listReviews := pulls_listReviews w; execFile := execFile w;
     fs_stat := fs_stat w; fs_readFile := fs_readFile w;
     read_package := read_package w; responses_create := f |}.

(** The comment does not ask for a review. *)
Definition idleWorld : World := setComment (lit "Thanks, merging this.") sampleWorld.

(** The manifest still has the placeholder that [npm init] writes. *)
Definition stubPackage : Package :=
  {| scripts_test :=
       Some (lit "echo " ++ QUOTE ++ lit "Error: no test specified" ++ QUOTE
               ++ lit " && exit 1");
     dependencies := None; devDependencies := None;
     optionalDependencies := None |}.
Definition stubWorld : World := setPackage (Some stubPackage) sampleWorld.

(** No completion credentials. *)
Definition noKeyWorld : World := setKey None sampleWorld.

(** [git fetch] fails. *)
Definition fetchFailsWorld : World :=
  setExecFile
    (fun cmd args dir =>
       if bool_decide (args = fetchArgs (lit "def456") (lit "abc123"))
       then ExecFail (Some []) (Some (lit "fatal: could not read from remote"))
              (lit "Error: Command failed: git fetch")
       else execFile sampleWorld cmd args dir)
    sampleWorld.

(** Every command fails. *)
Definition brokenGitWorld : World :=
  setExecFile
    (fun _ _ _ => ExecFail None None (lit "Error: spawn git ENOENT"))
    sampleWorld.

(** The completion API answers with neither shape filled in. *)
Definition emptyResponse : Response := {| output_text := None; output := Some [] |}.
Definition silentModelWorld : World := setResponses (fun _ => emptyResponse) sampleWorld.

(** No changed file can be read. *)
Definition unreadableWorld : World := setStat (fun _ => None) sampleWorld.

Definition sampleMeta : Part000aRun.PullMeta :=
  {| Part000aRun.user_login := Some (lit "inez");
     Part000aRun.label_names := Some [Some (lit "bug"); None; Some (lit "ui")] |}.

(** ** The outcomes of a run *)

(** What a stage may leave behind when the script goes on after it, when it
    throws, and when it exits: no review and no completion request; a
    comment only when it exits, and then one comment and exit code 1. *)
Definition stageOK {A} (r : list Action * Res A) : Prop :=
  postedReviews (fst r) = [] /\ completions (fst r) = [] /\
  match snd r with
  | Exit c => c = 1 /\ (length (comments (fst r)) <= 1)%nat
  | _ => comments (fst r) = []
  end.

(** What the rest of a script, once past its gate, may leave behind: one
    review and no comment when it runs to its end; nothing posted when it
    throws; at most one comment, no review and no completion request when
    it exits, always with code 1. *)
Definition tailOK {A} (r : list Action * Res A) : Prop :=
  match snd r with
  | Val _ _ => comments (fst r) = [] /\ length (postedReviews (fst r)) = 1%nat
  | Throw _ _ => comments (fst r) = [] /\ postedReviews (fst r) = []
  | Exit c =>
      c = 1 /\ postedReviews (fst r) = [] /\ completions (fst r) = [] /\
      (length (comments (fst r)) <= 1)%nat
  end.

(** The same for a whole run, where the gate may also have exited with
    code 0, before anything was asked of the host, the shell or the
    model. *)
Definition runOK (r : list Action * Outcome) : Prop :=
  match snd r with
  | Exited 0 =>
      comments (fst r) = [] /\
      (length (postedReviews (fst r)) = 1%nat \/
       postedReviews (fst r) = [] /\ completions (fst r) = [] /\ commands (fst r) = [])
  | Exited c =>
      c = 1 /\ postedReviews (fst r) = [] /\ completions (fst r) = [] /\
      (length (comments (fst r)) <= 1)%nat
  | Uncaught _ => comments (fst r) = [] /\ postedReviews (fst r) = []
  end.

(** Everything that review-agent.mjs tests before it asks the model. *)
Definition reviewConditions (w : World) (pr : Pull) (pkg : Package) : Prop :=
  hasContext w = true /\
  ReviewAgent.matchesTrigger (ctx_comment (contextOf w)) = true /\
  pulls_get w = Some pr /\
  head_repo_full_name pr = base_repo_full_name pr /\
  gitSucceeds w pr = true /\
  read_package w (packagePath w) = Some pkg /\
  realTestScript pkg = true /\
  testsPass w pkg = true /\
  truthyOpt (OPENAI_API_KEY w) = true.

(** The console line that [readContext] writes when it gives up, after the
    event was read or before. *)
Definition contextFailure (w : World) : list Action :=
  if negb (truthyOpt (GITHUB_TOKEN w))
  then [ConsoleError (lit "Missing GITHUB_TOKEN")]
  else if negb (truthyOpt (GITHUB_EVENT_PATH w))
  then [ConsoleError (lit "Missing GITHUB_EVENT_PATH")]
  else contextTrace w ++ [ConsoleError (lit "Missing issue or repo context")].

(** The words of the trigger phrase. *)
Definition triggerWords : list jsstring :=
  [lit "@review-agent:"; lit "please"; lit "review"; lit "this"; lit "PR"].

(** Words with a gap after each but the last. *)
Fixpoint interleave (words gaps : list jsstring) : jsstring :=
  match words, gaps with
  | [], _ => []
  | [x], _ => x
  | x :: rest, g :: gs => x ++ g ++ interleave rest gs
  | x :: rest, [] => x ++ interleave rest []
  end.

(** A gap: a non-empty run of white space. *)
Definition isGap (g : jsstring) : bool := truthy g && forallb isSpace g.

Definition noBacktick (s : jsstring) : bool := forallb (fun c => negb (c =? 96)) s.

(** ** Further conditions and observations *)

(** The calls of the review stage of review-agent.mjs when everything
    before it went through. *)
Definition reviewReached (w : World) (t : list Action) : Prop :=
  exists pr pkg,
    hasContext w = true /\
    ReviewAgent.matchesTrigger (ctx_comment (contextOf w)) = true /\
    pulls_get w = Some pr /\
    head_repo_full_name pr = base_repo_full_name pr /\
    gitSucceeds w pr = true /\
    read_package w (packagePath w) = Some pkg /\
    realTestScript pkg = true /\
    testsPass w pkg = true /\
    t = fst (ReviewAgent.review w (contextOf w) pr
               (ReviewAgent.diff (promptArgs w pr pkg))
               (ReviewAgent.changedFileContents (promptArgs w pr pkg))
               {| testOutput := collectedOutput w pkg |}).

(** The calls of the workspace materializer and of the diff: removing and
    creating the working directory, and git commands. *)
Definition gitOrFs (a : Action) : bool :=
  match a with
  | FsRm _ | FsMkdir _ => true
  | ExecFile cmd _ _ => bool_decide (cmd = GIT)
  | _ => false
  end.

(** The test script is missing, empty, or holds the placeholder text in some
    letter case (line 100 of review-agent.mjs). *)
Definition placeholderScript (pkg : Package) : Prop :=
  scripts_test pkg = None \/ scripts_test pkg = Some [] \/
  exists pre occ post,
    scripts_test pkg = Some (pre ++ occ ++ post) /\
    List.map canonicalize occ = List.map canonicalize (lit "no test specified").

(** The head commit's review, as a later run is shown it. *)
Definition withReview (b : jsstring) (w : World) : World :=
  setReviews ({| review_body := Some b |} :: pulls_listReviews w) w.

(** The line that every revision logs when the comment does not ask for a
    review. *)
Definition GATE_CLOSED : Action := ConsoleLog (lit "Trigger not found. Exiting.").

(** The sizes of what the second document of part_000 sends: a comment, and
    a prompt for the pull request that the host API returned. *)
Definition bounded (w : World) (a : Action) : Prop :=
  match a with
  | CreateComment _ _ _ b => (Z.of_nat (length b) <= 8050)%Z
  | ResponsesCreate _ p _ =>
      exists pr, pulls_get w = Some pr /\
        (Z.of_nat (length p)
         <= 20508 + Z.of_nat (length (pr_title pr))
            + Z.of_nat (length (orDefault (pr_body pr) [])))%Z
  | _ => True
  end.

(** Closes [Forall (bounded w)] on a literal list of calls. *)
Ltac bounded_list :=
  cbv beta iota zeta; cbn [fst snd app];
  repeat first
    [ apply List.Forall_nil
    | apply List.Forall_cons; [cbn [bounded]; try exact I; try (vm_compute; discriminate)|] ].

(** The unit a fenced block starts with, and the class [[\s\S]] of the
    first document of part_000, which holds every unit. *)
Definition isBacktick (c : N) : bool := c =? 96.
Definition anyUnit (c : N) : bool := true.

(** A completion response that carries no text in either shape. *)
Definition noText (r : Response) : bool :=
  negb (truthyOpt (output_text r))
  && negb (truthy (trim (join NL (contentChunks r)))).

(** The text that [extractReviewText] of review-agent.mjs returns for it
    (line 276). *)
Definition FALLBACK : jsstring := lit "No issues found. Tests passed.".

(** The host API returns no pull request for the issue. *)
Definition noPullWorld : World := setPull None sampleWorld.

(** ** The reach of the two expressions of review-agent.mjs *)

(** A match of either expression starts with a backtick or a backslash. *)
Definition escapedStart (c : N) : bool := (c =? 96) || (c =? 92).

(** A match of either consists of backticks, backslashes and the letter s. *)
Definition escapedInside (c : N) : bool := (c =? 96) || ReviewAgent.fenceClass c.

(** * Facts about strings *)

Lemma startsWith_app (p s : jsstring) : startsWith p (p ++ s) = true.
Proof.
  induction p as [|a p IH]; simpl; [reflexivity|].
  now rewrite N.eqb_refl.
Qed.

Lemma startsWith_prefix (p s : jsstring) :
  startsWith p s = true -> firstn (length p) s = p.
Proof.
  revert s; induction p as [|a p IH]; intros [|b s]; simpl; try easy.
  intros [Hab Hps]%andb_prop.
  apply N.eqb_eq in Hab; subst b.
  now rewrite (IH _ Hps).
Qed.

Lemma includes_app (pre p post : jsstring) : includes (pre ++ p ++ post) p = true.
Proof.
  induction pre as [|c pre IH].
  - simpl. destruct (p ++ post) eqn:E; simpl;
      rewrite <- ?E, startsWith_app; reflexivity.
  - simpl. rewrite IH. apply orb_true_r.
Qed.

Lemma includes_inv (s p : jsstring) :
  includes s p = true -> exists pre post, s = pre ++ p ++ post.
Proof.
  induction s as [|c s IH]; simpl.
  - rewrite orb_false_r. intros H. apply startsWith_prefix in H.
    exists [], []. destruct p; [reflexivity | discriminate].
  - intros [H|H]%orb_prop.
    + exists [], (skipn (length p) (c :: s)).
      apply startsWith_prefix in H. simpl app.
      rewrite <- H at 1. symmetry. apply firstn_skipn.
    + destruct (IH H) as (pre & post & ->). now exists (c :: pre), post.
Qed.

Lemma toLowerCase_app (a b : jsstring) :
  toLowerCase (a ++ b) = toLowerCase a ++ toLowerCase b.
Proof. apply List.map_app. Qed.

Lemma trimStart_keeps (pre rest : jsstring) (c : N) :
  isSpace c = false ->
  exists pre', trimStart (pre ++ c :: rest) = pre' ++ c :: rest.
Proof.
  intros Hc. induction pre as [|d pre IH]; simpl.
  - exists []. now rewrite Hc.
  - destruct (isSpace d); [exact IH | now exists (d :: pre)].
Qed.

(** [trim] leaves alone whatever lies between two units that are not white
    space. *)
Lemma trim_keeps (pre mid post : jsstring) (a z : N) :
  isSpace a = false -> isSpace z = false ->
  exists pre' post',
    trim (pre ++ (a :: mid ++ [z]) ++ post) = pre' ++ (a :: mid ++ [z]) ++ post'.
Proof.
  intros Ha Hz. unfold trim, trimEnd.
  destruct (trimStart_keeps pre ((mid ++ [z]) ++ post) a Ha) as [pre' E].
  simpl app at 2. rewrite E.
  replace (rev (pre' ++ a :: (mid ++ [z]) ++ post))
    with (rev post ++ z :: rev mid ++ a :: rev pre').
  2:{ rewrite !rev_app_distr. simpl. rewrite !rev_app_distr. simpl.
      now rewrite <- !app_assoc. }
  destruct (trimStart_keeps (rev post) (rev mid ++ a :: rev pre') z Hz) as [post' E'].
  rewrite E'. exists pre', (rev post').
  rewrite rev_app_distr. simpl. rewrite rev_app_distr. simpl.
  rewrite !rev_involutive, <- !app_assoc. reflexivity.
Qed.

Lemma runLength_spec (cls : N -> bool) (s : jsstring) :
  (runLength cls s <= length s)%nat /\
  forallb cls (firstn (runLength cls s) s) = true.
Proof.
  induction s as [|c s [IH1 IH2]]; simpl; [split; [lia | reflexivity]|].
  destruct (cls c) eqn:E; simpl; [rewrite E, IH2|]; split; auto; lia.
Qed.

Lemma lazyStar_spec (cls : N -> bool) (closing s : jsstring) (j : nat) :
  lazyStar cls closing s = Some j ->
  (j + length closing <= length s)%nat /\
  forallb cls (firstn j s) = true /\
  firstn (length closing) (skipn j s) = closing.
Proof.
  revert j; induction s as [|c s IH]; intros j; simpl.
  - destruct (startsWith closing []) eqn:E; [|discriminate].
    intros [= <-]. apply startsWith_prefix in E.
    destruct closing; [simpl; auto | discriminate].
  - destruct (startsWith closing (c :: s)) eqn:E.
    + intros [= <-]. apply startsWith_prefix in E. simpl.
      repeat split; auto.
      rewrite <- E, length_firstn. simpl length. lia.
    + destruct (cls c) eqn:Ec; [|discriminate].
      destruct (lazyStar cls closing s) as [j'|] eqn:E'; [|discriminate].
      intros [= <-]. destruct (IH j' eq_refl) as (H1 & H2 & H3).
      simpl. rewrite Ec, H2. repeat split; auto. lia.
Qed.

(** * Facts about global replacement *)

Section ReplaceKeeps.
Variable matchAt : jsstring -> option nat.
Variable by_ : jsstring.
(** The units a match can start with, and the units it can consist of. *)
Variables start inside : N -> bool.
Hypothesis match_shape : forall s k,
  matchAt s = Some (S k) ->
  (S k <= length s)%nat /\
  forallb inside (firstn (S k) s) = true /\
  exists c s', s = c :: s' /\ start c = true.

Lemma replaceGo_cons (skip : nat) (c : N) (s : jsstring) :
  replaceGo matchAt by_ skip (c :: s) =
  match skip with
  | S k => replaceGo matchAt by_ k s
  | O =>
      match matchAt (c :: s) with
      | Some (S k) => by_ ++ replaceGo matchAt by_ k s
      | _ => c :: replaceGo matchAt by_ 0 s
      end
  end.
Proof. reflexivity. Qed.

Lemma replaceGo_copy (occ post : jsstring) :
  forallb (fun c => negb (start c)) occ = true ->
  replaceGo matchAt by_ 0 (occ ++ post) = occ ++ replaceGo matchAt by_ 0 post.
Proof.
  induction occ as [|c occ IH]; [reflexivity|].
  simpl forallb. intros [Hc Hocc]%andb_prop.
  change ((c :: occ) ++ post) with (c :: occ ++ post).
  rewrite replaceGo_cons.
  destruct (matchAt (c :: occ ++ post)) as [[|k]|] eqn:E;
    try (now rewrite (IH Hocc)).
  destruct (match_shape _ _ E) as (_ & _ & c' & s' & [= <- _] & Hs).
  now rewrite Hs in Hc.
Qed.

(** A stretch of text that no match can start in, and whose first unit no
    match can reach over, survives the replacement. *)
Lemma replaceGo_keeps (a : N) (occ post : jsstring) :
  inside a = false ->
  forallb (fun c => negb (start c)) (a :: occ) = true ->
  forall pre skip, (skip <= length pre)%nat ->
  exists pre',
    replaceGo matchAt by_ skip (pre ++ (a :: occ) ++ post)
    = pre' ++ (a :: occ) ++ replaceGo matchAt by_ 0 post.
Proof.
  intros Ha Hocc. induction pre as [|c pre IH]; intros skip Hskip.
  - simpl in Hskip. replace skip with 0%nat by lia.
    exists []. rewrite !app_nil_l. now apply replaceGo_copy.
  - change ((c :: pre) ++ (a :: occ) ++ post)
      with (c :: pre ++ (a :: occ) ++ post).
    rewrite replaceGo_cons. simpl in Hskip. destruct skip as [|k].
    + destruct (matchAt (c :: pre ++ (a :: occ) ++ post)) as [[|k]|] eqn:E.
      * destruct (IH 0%nat ltac:(lia)) as [pre' ->]. now exists (c :: pre').
      * destruct (match_shape _ _ E) as (_ & Hin & _).
        assert (k <= length pre)%nat as Hk.
        { destruct (Nat.le_gt_cases k (length pre)) as [|Hgt]; [assumption|].
          exfalso. rewrite forallb_forall in Hin.
          assert (In a (firstn (S k) (c :: pre ++ (a :: occ) ++ post))) as Hi.
          { simpl. right. rewrite firstn_app.
            apply in_or_app. right.
            destruct (k - length pre)%nat eqn:Ek; [lia|]. now left. }
          apply Hin in Hi. congruence. }
        destruct (IH k Hk) as [pre' ->]. exists (by_ ++ pre').
        now rewrite <- app_assoc.
      * destruct (IH 0%nat ltac:(lia)) as [pre' ->]. now exists (c :: pre').
    + destruct (IH k ltac:(lia)) as [pre' ->]. now exists pre'.
Qed.
End ReplaceKeeps.

Lemma firstn_plus (j n : nat) (l : jsstring) :
  firstn (j + n) l = firstn j l ++ firstn n (skipn j l).
Proof.
  revert l; induction j as [|j IH]; intros [|c l]; simpl; try reflexivity.
  - now rewrite firstn_nil.
  - now rewrite IH.
Qed.

Lemma forallb_weaken (P Q : N -> bool) (l : jsstring) :
  (forall c, P c = true -> Q c = true) ->
  forallb P l = true -> forallb Q l = true.
Proof.
  intros HPQ. induction l as [|c l IH]; simpl; [reflexivity|].
  intros [Hc Hl]%andb_prop. now rewrite (HPQ _ Hc), IH.
Qed.

Lemma fenceAt_shape (cls : N -> bool) (s : jsstring) (k : nat) :
  fenceAt cls s = Some (S k) ->
  (S k <= length s)%nat /\
  forallb (fun c => (c =? 96) || cls c) (firstn (S k) s) = true /\
  exists c s', s = c :: s' /\ escapedStart c = true.
Proof.
  unfold fenceAt. destruct (startsWith TICKS s) eqn:E; [|discriminate].
  destruct (lazyStar cls TICKS (skipn 3 s)) as [j|] eqn:El; [|discriminate].
  intros [= Hk]. apply startsWith_prefix in E.
  destruct (lazyStar_spec _ _ _ _ El) as (H1 & H2 & H3).
  change TICKS with [96; 96; 96] in *.
  destruct s as [|a [|b [|c rest]]]; try discriminate E.
  injection E as -> -> ->. simpl skipn in *. simpl length in *.
  change (drop 0 rest) with rest in *. subst k.
  split; [lia|]. split; [|now exists 96, (96 :: 96 :: rest)].
  replace (S (S (S (S (S (S j)))))) with (S (S (S (j + 3)))) by lia.
  rewrite !firstn_cons. cbn [forallb]. rewrite firstn_plus, forallb_app, H3.
  rewrite (forallb_weaken cls _ _ (fun c H => eq_trans (f_equal _ H) (orb_true_r _)) H2).
  reflexivity.
Qed.

Lemma ReviewAgent_fence_shape (s : jsstring) (k : nat) :
  fenceAt ReviewAgent.fenceClass s = Some (S k) ->
  (S k <= length s)%nat /\
  forallb escapedInside (firstn (S k) s) = true /\
  exists c s', s = c :: s' /\ escapedStart c = true.
Proof. apply fenceAt_shape. Qed.

Lemma ReviewAgent_spaceRun_shape (s : jsstring) (k : nat) :
  ReviewAgent.spaceRunAt s = Some (S k) ->
  (S k <= length s)%nat /\
  forallb escapedInside (firstn (S k) s) = true /\
  exists c s', s = c :: s' /\ escapedStart c = true.
Proof.
  unfold ReviewAgent.spaceRunAt.
  destruct s as [|c s]; [discriminate|].
  destruct (N.eq_dec c 92) as [->|Hc].
  2:{ destruct c as [|p]; [discriminate|].
      do 7 (destruct p as [p|p|]; try discriminate); congruence. }
  destruct (runLength (fun c => c =? 115) s) as [|n] eqn:E; [discriminate|].
  intros [= <-].
  destruct (runLength_spec (fun c => c =? 115) s) as [H1 H2].
  rewrite E in H1, H2. simpl length.
  split; [lia|]. split; [|now exists 92, s].
  change (firstn (S (S n)) (92 :: s)) with (92 :: firstn (S n) s).
  simpl forallb.
  apply (forallb_weaken (fun c => c =? 115) escapedInside); [|exact H2].
  intros c Hc. apply N.eqb_eq in Hc. now subst c.
Qed.

(** Lower-casing neither creates nor removes a backtick, a backslash or
    white space, and keeps the letter s a letter s. *)
Lemma lowerUnit_cases (c : N) :
  lowerUnit c = c \/
  (65 <= c <= 90 /\ lowerUnit c = c + 32) \/
  (192 <= c <= 222 /\ lowerUnit c = c + 32).
Proof.
  unfold lowerUnit.
  destruct (N.leb_spec 65 c), (N.leb_spec c 90), (N.leb_spec 192 c),
    (N.leb_spec c 222), (N.eqb_spec c 215); simpl;
    first [ left; reflexivity
          | right; left; split; [lia | reflexivity]
          | right; right; split; [lia | reflexivity] ].
Qed.

Lemma escapedStart_lower (c : N) :
  escapedStart c = true -> escapedStart (lowerUnit c) = true.
Proof.
  unfold escapedStart. intros [H|H]%orb_prop; apply N.eqb_eq in H; now subst c.
Qed.

Lemma escapedInside_lower (c : N) :
  escapedInside c = true -> escapedInside (lowerUnit c) = true.
Proof.
  unfold escapedInside, ReviewAgent.fenceClass.
  intros H. repeat (apply orb_prop in H; destruct H as [H|H]);
    apply N.eqb_eq in H; now subst c.
Qed.

Lemma isSpace_lower (c : N) : isSpace c = true -> isSpace (lowerUnit c) = true.
Proof.
  intros H. destruct (lowerUnit_cases c) as [->|[[Hr ->]|[Hr ->]]]; [exact H| |];
    exfalso; revert H; unfold isSpace;
    repeat match goal with
      | |- context [?a <=? ?b] => destruct (N.leb_spec a b)
      | |- context [?a =? ?b] => destruct (N.eqb_spec a b)
      end; simpl; try discriminate; lia.
Qed.

Lemma lowered_forallb (Q : N -> bool) (s : jsstring) :
  (forall c, Q c = true -> Q (lowerUnit c) = true) ->
  forallb (fun c => negb (Q c)) (toLowerCase s) = true ->
  forallb (fun c => negb (Q c)) s = true.
Proof.
  intros HQ. induction s as [|c s IH]; simpl; [reflexivity|].
  intros [Hc Hs]%andb_prop. rewrite (IH Hs), andb_true_r.
  destruct (Q c) eqn:E; [|reflexivity].
  now rewrite (HQ _ E) in Hc.
Qed.

Lemma lowered_false (Q : N -> bool) (c : N) :
  (forall c, Q c = true -> Q (lowerUnit c) = true) ->
  Q (lowerUnit c) = false -> Q c = false.
Proof.
  intros HQ H. destruct (Q c) eqn:E; [|reflexivity].
  now rewrite (HQ _ E) in H.
Qed.

(** An occurrence of the trigger phrase in any letter case: its shape. *)
Lemma occurrence_shape (occ : jsstring) :
  toLowerCase occ = toLowerCase TRIGGER ->
  exists a mid z,
    occ = a :: mid ++ [z] /\
    escapedInside a = false /\ isSpace a = false /\ isSpace z = false /\
    forallb (fun c => negb (escapedStart c)) occ = true.
Proof.
  intros H.
  assert (forallb (fun c => negb (escapedStart c)) occ = true) as Hstart.
  { apply lowered_forallb; [exact escapedStart_lower|]. now rewrite H. }
  assert (length occ = length TRIGGER) as Hlen.
  { apply (f_equal (@length N)) in H. unfold toLowerCase in H.
    now rewrite !length_map in H. }
  destruct occ as [|a occ]; [discriminate Hlen|].
  destruct (exists_last (l := occ)) as (mid & z & ->).
  { intros ->. discriminate Hlen. }
  exists a, mid, z. split; [reflexivity|].
  unfold toLowerCase in H.
  change (a :: mid ++ [z]) with ([a] ++ mid ++ [z]) in H.
  rewrite !List.map_app in H. simpl List.map in H.
  assert (lowerUnit a = 64 /\ lowerUnit z = 114) as [Ha Hz].
  { injection H as Ha H. split; [exact Ha|].
    apply (f_equal (@rev N)) in H. rewrite rev_app_distr in H. simpl in H.
    now injection H as Hz _. }
  repeat split; auto.
  - apply (lowered_false escapedInside); [exact escapedInside_lower|]. now rewrite Ha.
  - apply (lowered_false isSpace); [exact isSpace_lower|]. now rewrite Ha.
  - apply (lowered_false isSpace); [exact isSpace_lower|]. now rewrite Hz.
Qed.

Lemma ReviewAgent_matchesTrigger_occurrence (pre occ post : jsstring) :
  toLowerCase occ = toLowerCase TRIGGER ->
  ReviewAgent.matchesTrigger (pre ++ occ ++ post) = true.
Proof.
  intros H. destruct (occurrence_shape occ H) as (a & mid & z & -> & Ha & Hsa & Hsz & Hst).
  unfold ReviewAgent.matchesTrigger.
  assert (truthy (pre ++ (a :: mid ++ [z]) ++ post) = true) as ->
    by (now destruct pre).
  simpl negb. cbv iota. unfold replaceAll.
  destruct (replaceGo_keeps (fenceAt ReviewAgent.fenceClass) (lit " ")
              escapedStart escapedInside ReviewAgent_fence_shape
              a (mid ++ [z]) post Ha Hst pre 0%nat ltac:(lia)) as [pre1 ->].
  destruct (replaceGo_keeps ReviewAgent.spaceRunAt (lit " ")
              escapedStart escapedInside ReviewAgent_spaceRun_shape
              a (mid ++ [z])
              (replaceGo (fenceAt ReviewAgent.fenceClass) (lit " ") 0 post)
              Ha Hst pre1 0%nat ltac:(lia)) as [pre2 ->].
  destruct (trim_keeps pre2 mid
              (replaceGo ReviewAgent.spaceRunAt (lit " ") 0
                 (replaceGo (fenceAt ReviewAgent.fenceClass) (lit " ") 0 post))
              a z Hsa Hsz) as (pre3 & post3 & ->).
  rewrite !toLowerCase_app, H. apply includes_app.
Qed.

(** * Facts about scripts *)

Lemma bind_Val {A B} (m : Script A) (k : A -> Script B) vs t a vs' :
  m vs = (t, Val a vs') ->
  bind m k vs = (t ++ fst (k a vs'), snd (k a vs')).
Proof. unfold bind. intros ->. now destruct (k a vs'). Qed.

Lemma bind_Throw {A B} (m : Script A) (k : A -> Script B) vs t e vs' :
  m vs = (t, Throw e vs') -> bind m k vs = (t, Throw e vs').
Proof. unfold bind. now intros ->. Qed.

Lemma bind_Exit {A B} (m : Script A) (k : A -> Script B) vs t c :
  m vs = (t, Exit c) -> bind m k vs = (t, Exit c).
Proof. unfold bind. now intros ->. Qed.

Lemma tryCatch_Val {A} (m : Script A) h vs t a vs' :
  m vs = (t, Val a vs') -> tryCatch m h vs = (t, Val a vs').
Proof. unfold tryCatch. now intros ->. Qed.

Lemma tryCatch_Throw {A} (m : Script A) h vs t e vs' :
  m vs = (t, Throw e vs') ->
  tryCatch m h vs = (t ++ fst (h e vs'), snd (h e vs')).
Proof. unfold tryCatch. intros ->. now destruct (h e vs'). Qed.

Lemma readContext_ok (w : World) (vs : Vars) :
  hasContext w = true ->
  readContext w vs = (contextTrace w, Val (contextOf w) vs).
Proof.
  unfold hasContext, readContext.
  intros [[[[H1 H2]%andb_prop H3]%andb_prop H4]%andb_prop H5]%andb_prop.
  now rewrite H1, H2, H3, H4, H5.
Qed.

Lemma resolvePull_ok (w : World) (c : Context) (pr : Pull) (vs : Vars) :
  pulls_get w = Some pr ->
  head_repo_full_name pr = base_repo_full_name pr ->
  resolvePull w c vs
  = ([PullsGet (ctx_owner c) (ctx_repo c) (ctx_issue c)], Val pr vs).
Proof.
  unfold resolvePull. intros -> H.
  now rewrite bool_decide_eq_true_2.
Qed.

Lemma resolvePull_fork (w : World) (c : Context) (pr : Pull) (vs : Vars) :
  pulls_get w = Some pr ->
  head_repo_full_name pr <> base_repo_full_name pr ->
  resolvePull w c vs
  = ([PullsGet (ctx_owner c) (ctx_repo c) (ctx_issue c);
      CreateComment (ctx_owner c) (ctx_repo c) (ctx_issue c) forkMessage],
     Exit 1).
Proof.
  unfold resolvePull. intros -> H.
  now rewrite bool_decide_eq_false_2.
Qed.

Lemma run_ok (w : World) cmd args dir vs :
  exitsZero (execFile w cmd args dir) = true ->
  run w cmd args dir vs = ([ExecFile cmd args dir], Val tt vs).
Proof. unfold run. now destruct (execFile w cmd args dir). Qed.

Lemma runCapture_ok (w : World) cmd args dir vs :
  exitsZero (execFile w cmd args dir) = true ->
  runCapture w cmd args dir vs
  = ([ExecFile cmd args dir], Val (outputOf (execFile w cmd args dir)) vs).
Proof. unfold runCapture. now destruct (execFile w cmd args dir). Qed.

Lemma runCapture_fail (w : World) cmd args dir vs :
  exitsZero (execFile w cmd args dir) = false ->
  runCapture w cmd args dir vs
  = ([ExecFile cmd args dir],
     Throw {| err_string := messageOf (execFile w cmd args dir);
              err_output := Some (outputOf (execFile w cmd args dir)) |} vs).
Proof. unfold runCapture. now destruct (execFile w cmd args dir). Qed.

Lemma materialize_ok (w : World) (pr : Pull) (vs : Vars) :
  gitSucceeds w pr = true ->
  materialize w (contextOf w) pr vs = (checkoutTrace w pr, Val (workDirOf w) vs).
Proof.
  unfold gitSucceeds, materialize.
  intros [[[[[H1 H2]%andb_prop H3]%andb_prop H4]%andb_prop _]%andb_prop _]%andb_prop.
  unfold checkoutTrace, bind, run, emit, ret, throw. cbv zeta.
  destruct (execFile w GIT [lit "init"] (workDirOf w)); [|discriminate H1].
  destruct (execFile w GIT [lit "remote"; lit "add"; lit "origin"; repoUrlOf (contextOf w)]
              (workDirOf w)); [|discriminate H2].
  destruct (execFile w GIT (fetchArgs (base_sha pr) (head_sha pr)) (workDirOf w));
    [|discriminate H3].
  destruct (execFile w GIT (checkoutArgs (head_sha pr)) (workDirOf w));
    [|discriminate H4].
  reflexivity.
Qed.

Lemma readLoop_cons (render : jsstring -> jsstring) (w : World)
    (dir file : jsstring) (rest parts : list jsstring) :
  readLoop render w dir (file :: rest) parts =
  if negb (truthy file) then readLoop render w dir rest parts
  else
    do_ emit (FsStat (path_join dir file));
    match fs_stat w (path_join dir file) with
    | None => readLoop render w dir rest parts
    | Some false => readLoop render w dir rest parts
    | Some true =>
        do_ emit (FsReadFile (path_join dir file));
        match fs_readFile w (path_join dir file) with
        | None => readLoop render w dir rest parts
        | Some content =>
            readLoop render w dir rest (parts ++ [section file (render content)])
        end
    end.
Proof. reflexivity. Qed.

(** The loop of [readFiles]: it ends, never throws, asks the file system
    for every named file, and pushes a section for each file it could
    read. *)
Lemma readLoop_spec (render : jsstring -> jsstring) (w : World)
    (dir : jsstring) (files parts : list jsstring) (vs : Vars) :
  readLoop render w dir files parts vs
  = (readTrace w dir files, Val (parts ++ sections render w dir files) vs).
Proof.
  revert parts; induction files as [|file rest IH]; intros parts.
  - simpl. now rewrite app_nil_r.
  - rewrite readLoop_cons. unfold sections, readTrace, readable.
    cbn [flat_map].
    fold (readTrace w dir rest). fold (sections render w dir rest).
    destruct (truthy file); cbn [negb]; [|exact (IH parts)].
    unfold bind, emit.
    destruct (fs_stat w (path_join dir file)) as [[|]|];
      [destruct (fs_readFile w (path_join dir file)) as [content|]|..];
      rewrite IH; cbn [app]; rewrite <- ?app_assoc; reflexivity.
Qed.

Lemma readFilesWith_spec (render : jsstring -> jsstring) (w : World)
    (files : list jsstring) (dir : jsstring) (vs : Vars) :
  readFilesWith render w files dir vs
  = (readTrace w dir files,
     Val (trim (join NL (sections render w dir files))) vs).
Proof.
  unfold readFilesWith, bind. rewrite readLoop_spec. simpl.
  now rewrite app_nil_r.
Qed.

Lemma loadPackage_missing (w : World) (c : Context) (dir : jsstring) (vs : Vars) :
  read_package w (path_join dir (lit "package.json")) = None ->
  loadPackage w c dir vs
  = ([FsReadFile (path_join dir (lit "package.json"));
      CreateComment (ctx_owner c) (ctx_repo c) (ctx_issue c) noPackageMessage],
     Exit 1).
Proof. unfold loadPackage, bind, tryCatch. now intros ->. Qed.

Lemma loadPackage_ok (w : World) (c : Context) (dir : jsstring) (vs : Vars) pkg :
  read_package w (path_join dir (lit "package.json")) = Some pkg ->
  realTestScript pkg = true ->
  loadPackage w c dir vs
  = ([FsReadFile (path_join dir (lit "package.json"))], Val pkg vs).
Proof.
  unfold loadPackage, bind, tryCatch, realTestScript.
  intros -> [H1 H2]%andb_prop. apply negb_true_iff in H2.
  simpl. now rewrite H1, H2.
Qed.

(** The body of the [try]: the commands it starts, and how it ends. *)
Lemma installAndTest_spec (w : World) (pkg : Package) :
  installAndTest w pkg (workDirOf w) {| testOutput := [] |}
  = (testTrace w pkg,
     if testsPass w pkg
     then Val tt {| testOutput := collectedOutput w pkg |}
     else Throw {| err_string := messageOf (failedCommand w pkg);
                   err_output := Some (outputOf (failedCommand w pkg)) |}
            {| testOutput := collectedOutput w pkg |}).
Proof.
  unfold installAndTest, appendTestOutput, testTrace, testsPass, failedCommand,
    collectedOutput, npmCi, npmTest, playwrightInstall,
    bind, runCapture, emit, getTestOutput, setTestOutput, ret, throw.
  destruct (execFile w NPM [lit "ci"] (workDirOf w)); simpl; [|reflexivity].
  destruct (usesPlaywright pkg); simpl.
  - destruct (execFile w NPX playwrightArgs (workDirOf w)); simpl; [|reflexivity].
    destruct (execFile w NPM [lit "test"] (workDirOf w)); reflexivity.
  - destruct (execFile w NPM [lit "test"] (workDirOf w)); reflexivity.
Qed.

(** review-agent.mjs gets as far as package.json when the context is there,
    the gate opens, the pull request is not a fork and git works. *)
Lemma ReviewAgent_main_prefix (w : World) (pr : Pull) (vs : Vars) :
  hasContext w = true ->
  ReviewAgent.matchesTrigger (ctx_comment (contextOf w)) = true ->
  pulls_get w = Some pr ->
  head_repo_full_name pr = base_repo_full_name pr ->
  gitSucceeds w pr = true ->
  ReviewAgent.main w vs
  = (ReviewAgent_prefix w pr ++ fst (ReviewAgent_tail w pr vs),
     snd (ReviewAgent_tail w pr vs)).
Proof.
  intros Hc Ht Hp Hs Hg. unfold ReviewAgent.main.
  rewrite (bind_Val _ _ _ _ _ _ (readContext_ok w vs Hc)). rewrite Ht. cbn [negb].
  rewrite (bind_Val _ _ _ _ _ _ (resolvePull_ok w _ pr vs Hp Hs)).
  rewrite (bind_Val _ _ _ _ _ _ (materialize_ok w pr vs Hg)).
  unfold gitSucceeds in Hg.
  apply andb_prop in Hg as [[_ Hd]%andb_prop Hn].
  rewrite (bind_Val _ _ _ _ _ _ (runCapture_ok w _ _ _ vs Hd)).
  rewrite (bind_Val _ _ _ _ _ _ (runCapture_ok w _ _ _ vs Hn)).
  unfold ReviewAgent.readFiles.
  rewrite (bind_Val _ _ _ _ _ _ (readFilesWith_spec _ w _ _ vs)).
  cbn [fst snd]. unfold ReviewAgent_prefix, pullTrace, diffTrace, changedFilesOf.
  fold (ReviewAgent_tail w pr).
  rewrite <- !app_assoc. reflexivity.
Qed.

Lemma orElse_orDefault (x y : jsstring) :
  orElse (orDefault (Some x) []) y = orElse x y.
Proof. now destruct x. Qed.

Lemma readTrace_unobserved {X} (f : Action -> list X) (w : World)
    (dir : jsstring) (files : list jsstring) :
  (forall p, f (FsStat p) = []) -> (forall p, f (FsReadFile p) = []) ->
  flat_map f (readTrace w dir files) = [].
Proof.
  intros Hs Hr. unfold readTrace.
  induction files as [|file rest IH]; [reflexivity|].
  cbn [flat_map]. rewrite flat_map_app, IH, app_nil_r.
  destruct (truthy file); [|reflexivity].
  cbn [flat_map]. rewrite Hs.
  destruct (fs_stat w (path_join dir file)) as [[|]|]; cbn [flat_map app];
    rewrite ?Hr; reflexivity.
Qed.

Lemma ReviewAgent_prefix_commands (w : World) (pr : Pull) :
  commands (ReviewAgent_prefix w pr) = gitCommands w pr.
Proof.
  unfold ReviewAgent_prefix, commands.
  rewrite !flat_map_app, readTrace_unobserved by reflexivity. reflexivity.
Qed.

Lemma ReviewAgent_prefix_quiet (w : World) (pr : Pull) :
  comments (ReviewAgent_prefix w pr) = [] /\
  completions (ReviewAgent_prefix w pr) = [] /\
  postedReviews (ReviewAgent_prefix w pr) = [].
Proof.
  unfold ReviewAgent_prefix, comments, completions, postedReviews.
  rewrite !flat_map_app, !readTrace_unobserved by reflexivity. auto.
Qed.

Lemma ReviewAgent_runTests_spec (w : World) (c : Context) (pkg : Package)
    (vs : Vars) :
  ReviewAgent.runTests w c pkg (workDirOf w) vs
  = (testTrace w pkg,
     if testsPass w pkg
     then Val tt {| testOutput := collectedOutput w pkg |}
     else Throw (referenceError "truncate")
            {| testOutput := collectedOutput w pkg |}).
Proof.
  unfold ReviewAgent.runTests, bind, setTestOutput, tryCatch.
  rewrite installAndTest_spec.
  destruct (testsPass w pkg); [reflexivity|].
  cbn. now rewrite app_nil_r.
Qed.

Lemma Part000b_runTests_spec (w : World) (c : Context) (pkg : Package)
    (vs : Vars) :
  Part000b.runTests w c pkg (workDirOf w) vs
  = if testsPass w pkg
    then (testTrace w pkg, Val tt {| testOutput := collectedOutput w pkg |})
    else (testTrace w pkg
            ++ [CreateComment (ctx_owner c) (ctx_repo c) (ctx_issue c)
                  (testFailedMessage
                     (Part000b.truncate (failureText w pkg) Part000b.MAX_TEST_CHARS))],
          Exit 1).
Proof.
  unfold Part000b.runTests, bind, setTestOutput, tryCatch.
  rewrite installAndTest_spec.
  destruct (testsPass w pkg); [reflexivity|].
  unfold getTestOutput, postComment, emit, exit, failureText.
  cbn [err_output err_string testOutput].
  rewrite orElse_orDefault. reflexivity.
Qed.

(** The review stage of review-agent.mjs, in full. *)
Lemma ReviewAgent_review_spec (w : World) (c : Context) (pr : Pull)
    (diff files : jsstring) (vs : Vars) :
  let args := {| ReviewAgent.title := pr_title pr;
                 ReviewAgent.body := orDefault (pr_body pr) [];
                 ReviewAgent.diff := diff;
                 ReviewAgent.testOutputText := testOutput vs;
                 ReviewAgent.changedFileContents := files |} in
  let prompt := ReviewAgent.buildPrompt args in
  let retryPrompt := ReviewAgent.buildRetryPrompt args in
  let first := extractReviewText (responses_create w prompt) in
  let retry := extractReviewText (responses_create w retryPrompt) in
  let post text :=
    CreateReview (ctx_owner c) (ctx_repo c) (ctx_issue c)
      (text ++ NL ++ NL ++ markerOf (head_sha pr)) in
  ReviewAgent.review w c pr diff files vs
  = if negb (truthyOpt (OPENAI_API_KEY w))
    then ([CreateComment (ctx_owner c) (ctx_repo c) (ctx_issue c) noKeyMessage],
          Exit 1)
    else if testIgnoreCase NO_ISSUES first
    then ([ResponsesCreate (modelName w) prompt 1200;
           ResponsesCreate (modelName w) retryPrompt 1200;
           post retry], Val tt vs)
    else ([ResponsesCreate (modelName w) prompt 1200; post first], Val tt vs).
Proof.
  cbv zeta. unfold ReviewAgent.review.
  destruct (negb (truthyOpt (OPENAI_API_KEY w))); [reflexivity|].
  unfold complete, bind, getTestOutput, emit, ret. cbv beta iota zeta.
  fold NO_ISSUES.
  destruct (testIgnoreCase NO_ISSUES _); reflexivity.
Qed.

(** * Where a run can issue completion requests *)

Lemma quiet_nil : quiet [].
Proof. split; reflexivity. Qed.

Lemma quiet_app (a b : list Action) : quiet a -> quiet b -> quiet (a ++ b).
Proof.
  unfold quiet, completions, postedReviews. intros [H1 H2] [H3 H4].
  rewrite !flat_map_app. now rewrite H1, H2, H3, H4.
Qed.

Lemma bind_fst {A B} (m : Script A) (k : A -> Script B) (vs : Vars) :
  fst (bind m k vs)
  = fst (m vs) ++ match snd (m vs) with
                  | Val a vs' => fst (k a vs')
                  | _ => []
                  end.
Proof.
  unfold bind. destruct (m vs) as [t [a vs'|e vs'|c]]; cbn [fst snd];
    [now destruct (k a vs') | now rewrite app_nil_r ..].
Qed.

Lemma endsIn_bind {A B} (R : list Action -> Prop) (m : Script A)
    (k : A -> Script B) (vs : Vars) :
  quiet (fst (m vs)) ->
  (forall a vs', snd (m vs) = Val a vs' -> endsIn R (fst (k a vs'))) ->
  endsIn R (fst (bind m k vs)).
Proof.
  intros Hq Hk. rewrite bind_fst.
  destruct (snd (m vs)) as [a vs'|e vs'|c];
    [|left; rewrite app_nil_r; exact Hq ..].
  destruct (Hk a vs' eq_refl) as [Hq'|(t0 & t1 & Hq' & -> & HR)].
  - left. now apply quiet_app.
  - right. exists (fst (m vs) ++ t0), t1.
    repeat split; [apply quiet_app; assumption .. | now rewrite app_assoc | exact HR].
Qed.

Lemma readContext_quiet (w : World) (vs : Vars) : quiet (fst (readContext w vs)).
Proof.
  unfold readContext.
  repeat match goal with
         | |- context [if ?b then _ else _] => destruct b
         end; split; reflexivity.
Qed.

Lemma resolvePull_quiet (w : World) (c : Context) (vs : Vars) :
  quiet (fst (resolvePull w c vs)).
Proof.
  unfold resolvePull, bind, emit.
  destruct (pulls_get w) as [pr|]; [|split; reflexivity].
  cbv beta iota. destruct (negb _); split; reflexivity.
Qed.

Lemma resolvePull_Val (w : World) (c : Context) (vs vs' : Vars) (pr : Pull) :
  snd (resolvePull w c vs) = Val pr vs' -> pulls_get w = Some pr.
Proof.
  unfold resolvePull, bind, emit.
  destruct (pulls_get w) as [pr'|]; [|discriminate].
  cbv beta iota. destruct (negb _); [discriminate|].
  cbn. now intros [= -> _].
Qed.

Lemma run_quiet (w : World) cmd args dir vs : quiet (fst (run w cmd args dir vs)).
Proof. unfold run, bind, emit. destruct (execFile w cmd args dir); split; reflexivity. Qed.

Lemma runCapture_quiet (w : World) cmd args dir vs :
  quiet (fst (runCapture w cmd args dir vs)).
Proof.
  unfold runCapture, bind, emit.
  destruct (execFile w cmd args dir); split; reflexivity.
Qed.

Lemma quiet_bind {A B} (m : Script A) (k : A -> Script B) (vs : Vars) :
  quiet (fst (m vs)) ->
  (forall a vs', quiet (fst (k a vs'))) ->
  quiet (fst (bind m k vs)).
Proof.
  intros Hm Hk. rewrite bind_fst. apply quiet_app; [exact Hm|].
  destruct (snd (m vs)); [apply Hk | apply quiet_nil ..].
Qed.

Lemma quiet_emit (a : Action) (vs : Vars) :
  match a with
  | ResponsesCreate _ _ _ | CreateReview _ _ _ _ => False
  | _ => True
  end -> quiet (fst (emit a vs)).
Proof. destruct a; intros []; split; reflexivity. Qed.

Lemma materialize_quiet (w : World) (c : Context) (pr : Pull) (vs : Vars) :
  quiet (fst (materialize w c pr vs)).
Proof.
  unfold materialize. cbv zeta.
  repeat (apply quiet_bind; [first [now apply quiet_emit | apply run_quiet]|intros]).
  apply quiet_nil.
Qed.

Lemma readFilesWith_quiet render (w : World) files dir vs :
  quiet (fst (readFilesWith render w files dir vs)).
Proof.
  rewrite readFilesWith_spec. cbn [fst]. unfold quiet, completions, postedReviews.
  now rewrite !readTrace_unobserved by reflexivity.
Qed.

Lemma loadPackage_quiet (w : World) (c : Context) (dir : jsstring) (vs : Vars) :
  quiet (fst (loadPackage w c dir vs)).
Proof.
  unfold loadPackage, bind, tryCatch, emit, postComment. cbv zeta beta iota.
  destruct (read_package w _) as [pkg|]; [|split; reflexivity].
  cbn. destruct (_ || _); split; reflexivity.
Qed.

Lemma appendTestOutput_quiet (m : Script jsstring) (vs : Vars) :
  quiet (fst (m vs)) -> quiet (fst (appendTestOutput m vs)).
Proof.
  intros H. unfold appendTestOutput.
  apply quiet_bind; [exact H|]. intros. apply quiet_nil.
Qed.

Lemma installAndTest_quiet (w : World) (pkg : Package) (dir : jsstring) (vs : Vars) :
  quiet (fst (installAndTest w pkg dir vs)).
Proof.
  unfold installAndTest.
  apply quiet_bind; [apply appendTestOutput_quiet, runCapture_quiet|intros].
  apply quiet_bind; [|intros; apply appendTestOutput_quiet, runCapture_quiet].
  destruct (usesPlaywright pkg);
    [apply appendTestOutput_quiet, runCapture_quiet | apply quiet_nil].
Qed.

Lemma ReviewAgent_runTests_quiet (w : World) c pkg dir vs :
  quiet (fst (ReviewAgent.runTests w c pkg dir vs)).
Proof.
  unfold ReviewAgent.runTests.
  apply quiet_bind; [apply quiet_nil|intros _ vs'].
  unfold tryCatch.
  pose proof (installAndTest_quiet w pkg dir vs') as H.
  destruct (installAndTest w pkg dir vs') as [t [a v|e v|code]]; cbn [fst] in *;
    try exact H.
  cbn. now rewrite app_nil_r.
Qed.

Lemma runScript_fst (m : Script unit) :
  fst (runScript m) = fst (m {| testOutput := [] |}).
Proof. unfold runScript. now destruct (m _) as [t [a v|e v|c]]. Qed.

(** Every run of review-agent.mjs is quiet up to its review stage, if it
    gets there at all. *)
Lemma ReviewAgent_main_endsIn (w : World) (vs : Vars) :
  endsIn (reviewStage w) (fst (ReviewAgent.main w vs)).
Proof.
  unfold ReviewAgent.main.
  apply endsIn_bind; [apply readContext_quiet | intros c vs1 _].
  destruct (negb (ReviewAgent.matchesTrigger (ctx_comment c))).
  { left. split; reflexivity. }
  apply endsIn_bind; [apply resolvePull_quiet | intros pr vs2 Hpr].
  apply resolvePull_Val in Hpr.
  apply endsIn_bind; [apply materialize_quiet | intros dir vs3 _].
  apply endsIn_bind; [apply runCapture_quiet | intros diff vs4 _].
  apply endsIn_bind; [apply runCapture_quiet | intros names vs5 _].
  apply endsIn_bind; [apply readFilesWith_quiet | intros files vs6 _].
  apply endsIn_bind; [apply loadPackage_quiet | intros pkg vs7 _].
  apply endsIn_bind; [apply ReviewAgent_runTests_quiet | intros [] vs8 _].
  right. exists [], (fst (ReviewAgent.review w c pr diff files vs8)).
  repeat split. now exists c, pr, diff, files, vs8.
Qed.

(** * The specification, statement by statement *)

Lemma retry_prompt_shorter (a : ReviewAgent.PromptArgs) :
  (length (ReviewAgent.buildRetryPrompt a) < length (ReviewAgent.buildPrompt a))%nat.
Proof.
  unfold ReviewAgent.buildRetryPrompt, ReviewAgent.buildPrompt.
  set (ctx := ReviewAgent.promptContext a).
  assert (exists x rest, ctx = x :: rest) as (x & rest & ->) by (now eexists _, _).
  cbn [app join]. rewrite !length_app.
  vm_compute (length NL). vm_compute (length QUOTE).
  repeat match goal with
         | |- context [length (lit ?s)] =>
             let n := eval vm_compute in (length (lit s)) in
             change (length (lit s)) with n
         end.
  lia.
Qed.

(** In every run of review-agent.mjs either no completion request is made
    and no review is posted, or the first request carries the primary
    prompt and then: if the text extracted from its response matches
    [/no issues found/i], exactly one more request is made, from the retry
    prompt (which is shorter), and the review posted is the text extracted
    from the retry's response followed by the marker; if it does not match,
    no further request is made and the first text is posted. *)
Lemma requests_of_any_run (w : World) :
  let t := fst (runScript (ReviewAgent.main w)) in
  (completions t = [] /\ postedReviews t = []) \/
  exists (pr : Pull) (args : ReviewAgent.PromptArgs),
    pulls_get w = Some pr /\
    let prompt := ReviewAgent.buildPrompt args in
    let retryPrompt := ReviewAgent.buildRetryPrompt args in
    let first := extractReviewText (responses_create w prompt) in
    let retry := extractReviewText (responses_create w retryPrompt) in
    (length retryPrompt < length prompt)%nat /\
    if testIgnoreCase NO_ISSUES first
    then completions t = [prompt; retryPrompt] /\
         postedReviews t = [retry ++ NL ++ NL ++ markerOf (head_sha pr)]
    else completions t = [prompt] /\
         postedReviews t = [first ++ NL ++ NL ++ markerOf (head_sha pr)].
Proof.
  cbv zeta. rewrite runScript_fst.
  destruct (ReviewAgent_main_endsIn w {| testOutput := [] |})
    as [Hq | (t0 & t1 & [Hc Hp] & -> & (c & pr & diff & files & vs & Hpr & ->))];
    [now left|].
  pose proof (ReviewAgent_review_spec w c pr diff files vs) as E. cbv zeta in E.
  rewrite E. clear E.
  unfold completions, postedReviews in *. rewrite !flat_map_app, Hc, Hp.
  destruct (negb (truthyOpt (OPENAI_API_KEY w))); [now left|].
  right.
  exists pr, {| ReviewAgent.title := pr_title pr;
                ReviewAgent.body := orDefault (pr_body pr) [];
                ReviewAgent.diff := diff;
                ReviewAgent.testOutputText := testOutput vs;
                ReviewAgent.changedFileContents := files |}.
  split; [exact Hpr|]. split; [apply retry_prompt_shorter|].
  destruct (testIgnoreCase NO_ISSUES _); split; reflexivity.
Qed.

(** C7.  In review-agent.mjs, when credentials and event context are
    present, the trigger gate opens and the pull request's head repository
    differs from its base repository, the run consists of reading the event,
    fetching the pull request and posting the fork-rejection comment; it
    exits with code 1, posts exactly that one comment and starts no command
    (no checkout, no test step). *)
Theorem fork_is_rejected (w : World) (pr : Pull) :
  hasContext w = true ->
  ReviewAgent.matchesTrigger (ctx_comment (contextOf w)) = true ->
  pulls_get w = Some pr ->
  head_repo_full_name pr <> base_repo_full_name pr ->
  let c := contextOf w in
  let run := runScript (ReviewAgent.main w) in
  run = (contextTrace w ++ pullTrace w
           ++ [CreateComment (ctx_owner c) (ctx_repo c) (ctx_issue c) forkMessage],
         Exited 1)
  /\ comments (fst run) = [forkMessage]
  /\ commands (fst run) = []
  /\ failed (snd run) = true.
Proof.
  intros Hc Ht Hp Hf. cbv zeta.
  assert (runScript (ReviewAgent.main w)
          = (contextTrace w ++ pullTrace w
               ++ [CreateComment (ctx_owner (contextOf w)) (ctx_repo (contextOf w))
                     (ctx_issue (contextOf w)) forkMessage],
             Exited 1)) as ->.
  { unfold runScript, ReviewAgent.main.
    rewrite (bind_Val _ _ _ _ _ _ (readContext_ok w _ Hc)). rewrite Ht. cbn [negb].
    rewrite (bind_Exit _ _ _ _ _ (resolvePull_fork w _ pr _ Hp Hf)).
    reflexivity. }
  repeat split; reflexivity.
Qed.

Lemma fork_is_rejected_witness :
  comments (fst (runScript (ReviewAgent.main forkWorld))) = [forkMessage]
  /\ commands (fst (runScript (ReviewAgent.main forkWorld))) = []
  /\ failed (snd (runScript (ReviewAgent.main forkWorld))) = true.
Proof.
  refine (proj2 (fork_is_rejected forkWorld
                   {| pr_title := lit "Add counter"; pr_body := None;
                      head_sha := lit "abc123"; base_sha := lit "def456";
                      head_repo_full_name := lit "mallory/demo";
                      base_repo_full_name := lit "acme/demo" |} _ _ _ _)).
  - vm_compute; reflexivity.
  - vm_compute; reflexivity.
  - reflexivity.
  - vm_compute; discriminate.
Defined.

(** The second document of part_000 refuses a fork in the same way. *)
Lemma Part000b_fork_is_rejected (w : World) (pr : Pull) :
  hasContext w = true ->
  includes (ctx_comment (contextOf w)) TRIGGER = true ->
  pulls_get w = Some pr ->
  head_repo_full_name pr <> base_repo_full_name pr ->
  let c := contextOf w in
  runScript (Part000b.main w)
  = (contextTrace w ++ pullTrace w
       ++ [CreateComment (ctx_owner c) (ctx_repo c) (ctx_issue c) forkMessage],
     Exited 1).
Proof.
  intros Hc Ht Hp Hf. unfold runScript, Part000b.main.
  rewrite (bind_Val _ _ _ _ _ _ (readContext_ok w _ Hc)). rewrite Ht. cbn [negb].
  rewrite (bind_Exit _ _ _ _ _ (resolvePull_fork w _ pr _ Hp Hf)).
  reflexivity.
Qed.

Lemma ReviewAgent_tail_missing (w : World) (pr : Pull) (vs : Vars) :
  read_package w (packagePath w) = None ->
  ReviewAgent_tail w pr vs
  = ([FsReadFile (packagePath w);
      CreateComment (ctx_owner (contextOf w)) (ctx_repo (contextOf w))
        (ctx_issue (contextOf w)) noPackageMessage],
     Exit 1).
Proof.
  intros H. unfold ReviewAgent_tail. cbv zeta.
  now rewrite (bind_Exit _ _ _ _ _ (loadPackage_missing w _ _ vs H)).
Qed.

Lemma ReviewAgent_tail_tests (w : World) (pr : Pull) (vs : Vars) (pkg : Package) :
  read_package w (packagePath w) = Some pkg ->
  realTestScript pkg = true ->
  ReviewAgent_tail w pr vs
  = if testsPass w pkg
    then
      let r := ReviewAgent.review w (contextOf w) pr
                 (outputOf (execFile w GIT (diffArgs (base_sha pr) (head_sha pr))
                              (workDirOf w)))
                 (trim (join NL (sections (fun content => content) w (workDirOf w)
                                   (changedFilesOf w pr))))
                 {| testOutput := collectedOutput w pkg |} in
      (FsReadFile (packagePath w) :: testTrace w pkg ++ fst r, snd r)
    else (FsReadFile (packagePath w) :: testTrace w pkg,
          Throw (referenceError "truncate")
            {| testOutput := collectedOutput w pkg |}).
Proof.
  intros H Hs. unfold ReviewAgent_tail. cbv zeta.
  rewrite (bind_Val _ _ _ _ _ _ (loadPackage_ok w _ _ vs pkg H Hs)).
  pose proof (ReviewAgent_runTests_spec w (contextOf w) pkg vs) as E.
  destruct (testsPass w pkg).
  - rewrite (bind_Val _ _ _ _ _ _ E). reflexivity.
  - rewrite (bind_Throw _ _ _ _ _ _ E). reflexivity.
Qed.

Lemma ReviewAgent_review_commands (w : World) c pr diff files vs :
  commands (fst (ReviewAgent.review w c pr diff files vs)) = [] /\
  comments (fst (ReviewAgent.review w c pr diff files vs))
  = (if truthyOpt (OPENAI_API_KEY w) then [] else [noKeyMessage]).
Proof.
  pose proof (ReviewAgent_review_spec w c pr diff files vs) as E.
  cbv zeta in E. rewrite E.
  destruct (truthyOpt (OPENAI_API_KEY w)); cbn [negb]; [|split; reflexivity].
  destruct (testIgnoreCase NO_ISSUES _); split; reflexivity.
Qed.

Lemma testTrace_commands (w : World) (pkg : Package) :
  commands (testTrace w pkg)
  = (NPM, [lit "ci"]) ::
    if exitsZero (execFile w NPM [lit "ci"] (workDirOf w)) then
      if usesPlaywright pkg then
        (NPX, playwrightArgs) ::
        if exitsZero (execFile w NPX playwrightArgs (workDirOf w))
        then [(NPM, [lit "test"])] else []
      else [(NPM, [lit "test"])]
    else [].
Proof.
  unfold testTrace. cbv zeta.
  destruct (exitsZero (execFile w NPM [lit "ci"] (workDirOf w))); [|reflexivity].
  destruct (usesPlaywright pkg); [|reflexivity].
  destruct (exitsZero (execFile w NPX playwrightArgs (workDirOf w))); reflexivity.
Qed.

(** The commands of a run of review-agent.mjs that gets to its test
    stage. *)
Lemma ReviewAgent_run_commands (w : World) (pr : Pull) (pkg : Package) :
  hasContext w = true ->
  ReviewAgent.matchesTrigger (ctx_comment (contextOf w)) = true ->
  pulls_get w = Some pr ->
  head_repo_full_name pr = base_repo_full_name pr ->
  gitSucceeds w pr = true ->
  read_package w (packagePath w) = Some pkg ->
  realTestScript pkg = true ->
  commands (fst (runScript (ReviewAgent.main w)))
  = gitCommands w pr ++ commands (testTrace w pkg).
Proof.
  intros Hc Ht Hp Hs Hg Hk Hr. rewrite runScript_fst.
  rewrite (ReviewAgent_main_prefix w pr _ Hc Ht Hp Hs Hg). cbn [fst].
  rewrite (ReviewAgent_tail_tests w pr _ pkg Hk Hr).
  unfold commands at 1. rewrite flat_map_app. fold (commands (ReviewAgent_prefix w pr)).
  rewrite ReviewAgent_prefix_commands. f_equal.
  destruct (testsPass w pkg); cbv zeta; cbn [fst flat_map app]; [|reflexivity].
  rewrite flat_map_app.
  match goal with
  | |- context [flat_map _ (fst (ReviewAgent.review ?w ?c ?p ?d ?f ?v))] =>
      destruct (ReviewAgent_review_commands w c p d f v) as [E _]
  end.
  unfold commands in E. rewrite E. now rewrite app_nil_r.
Qed.

Lemma deps_lookup (pkg : Package) (name : jsstring) :
  deps pkg !! name = effective pkg name.
Proof.
  unfold deps, effective, spread, entry.
  rewrite !lookup_union.
  destruct (optionalDependencies pkg) as [o|], (devDependencies pkg) as [d|],
    (dependencies pkg) as [p|]; cbn [from_option id]; cbv beta iota;
    rewrite ?lookup_empty;
    repeat match goal with
           | |- context [?m !! name] => destruct (m !! name)
           end; reflexivity.
Qed.

Lemma usesPlaywright_effective (pkg : Package) :
  usesPlaywright pkg = true <->
  exists name v,
    In name playwrightNames /\ effective pkg name = Some v /\ truthy v = true.
Proof.
  unfold usesPlaywright, playwrightNames. rewrite !deps_lookup. split.
  - intros [H|H]%orb_prop.
    + destruct (effective pkg (lit "@playwright/test")) as [v|] eqn:E;
        [|discriminate].
      exists (lit "@playwright/test"), v. cbn [In]. auto.
    + destruct (effective pkg (lit "playwright")) as [v|] eqn:E; [|discriminate].
      exists (lit "playwright"), v. cbn [In]. auto.
  - intros (name & v & [<-|[<-|[]]] & -> & Hv); cbn [truthyOpt]; rewrite Hv;
      [reflexivity | apply orb_true_r].
Qed.

(** C9.  In review-agent.mjs, when the run gets to the package manifest
    (context present, gate open, same-repository pull request, git commands
    succeed) and package.json cannot be read or parsed, the run ends right
    there: one comment saying package.json was not found, exit code 1, no
    command other than git's (no dependency install, no test command), no
    completion request and no review. *)
Theorem missing_package_is_reported (w : World) (pr : Pull) :
  hasContext w = true ->
  ReviewAgent.matchesTrigger (ctx_comment (contextOf w)) = true ->
  pulls_get w = Some pr ->
  head_repo_full_name pr = base_repo_full_name pr ->
  gitSucceeds w pr = true ->
  read_package w (packagePath w) = None ->
  let c := contextOf w in
  let r := runScript (ReviewAgent.main w) in
  r = (ReviewAgent_prefix w pr
         ++ [FsReadFile (packagePath w);
             CreateComment (ctx_owner c) (ctx_repo c) (ctx_issue c) noPackageMessage],
       Exited 1)
  /\ comments (fst r) = [noPackageMessage]
  /\ commands (fst r) = gitCommands w pr
  /\ completions (fst r) = []
  /\ postedReviews (fst r) = []
  /\ failed (snd r) = true.
Proof.
  intros Hc Ht Hp Hs Hg Hk. cbv zeta.
  assert (runScript (ReviewAgent.main w)
          = (ReviewAgent_prefix w pr
               ++ [FsReadFile (packagePath w);
                   CreateComment (ctx_owner (contextOf w)) (ctx_repo (contextOf w))
                     (ctx_issue (contextOf w)) noPackageMessage],
             Exited 1)) as ->.
  { unfold runScript.
    rewrite (ReviewAgent_main_prefix w pr _ Hc Ht Hp Hs Hg).
    now rewrite (ReviewAgent_tail_missing w pr _ Hk). }
  destruct (ReviewAgent_prefix_quiet w pr) as (Q1 & Q2 & Q3).
  pose proof (ReviewAgent_prefix_commands w pr) as Q4.
  unfold comments, commands, completions, postedReviews in *. cbn [fst snd].
  rewrite !flat_map_app, Q1, Q2, Q3, Q4. cbn [flat_map app].
  rewrite app_nil_r. repeat split; reflexivity.
Qed.

Lemma missing_package_is_reported_witness :
  comments (fst (runScript (ReviewAgent.main noPackageWorld))) = [noPackageMessage]
  /\ commands (fst (runScript (ReviewAgent.main noPackageWorld)))
     = gitCommands noPackageWorld samplePull
  /\ completions (fst (runScript (ReviewAgent.main noPackageWorld))) = []
  /\ postedReviews (fst (runScript (ReviewAgent.main noPackageWorld))) = []
  /\ failed (snd (runScript (ReviewAgent.main noPackageWorld))) = true.
Proof.
  refine (proj2 (missing_package_is_reported noPackageWorld samplePull _ _ _ _ _ _));
    vm_compute; reflexivity.
Defined.

(** The second document of part_000 treats a missing package.json in the
    same way. *)
Lemma Part000b_main_prefix (w : World) (pr : Pull) (vs : Vars) :
  hasContext w = true ->
  includes (ctx_comment (contextOf w)) TRIGGER = true ->
  pulls_get w = Some pr ->
  head_repo_full_name pr = base_repo_full_name pr ->
  Part000b.alreadyReviewed w (markerOf (head_sha pr)) = false ->
  gitSucceeds w pr = true ->
  Part000b.main w vs
  = (Part000b_prefix w pr ++ fst (Part000b_tail w pr vs),
     snd (Part000b_tail w pr vs)).
Proof.
  intros Hc Ht Hp Hs Ha Hg. unfold Part000b.main.
  rewrite (bind_Val _ _ _ _ _ _ (readContext_ok w vs Hc)). rewrite Ht. cbn [negb].
  rewrite (bind_Val _ _ _ _ _ _ (resolvePull_ok w _ pr vs Hp Hs)). cbv zeta.
  rewrite (bind_Val (emit _) _ vs [_] tt vs eq_refl).
  rewrite Ha.
  rewrite (bind_Val _ _ _ _ _ _ (materialize_ok w pr vs Hg)).
  unfold gitSucceeds in Hg.
  apply andb_prop in Hg as [[_ Hd]%andb_prop Hn].
  rewrite (bind_Val _ _ _ _ _ _ (runCapture_ok w _ _ _ vs Hd)).
  cbn [fst snd]. unfold Part000b_prefix, pullTrace, diffTrace.
  fold (Part000b_tail w pr). cbv zeta.
  rewrite <- !app_assoc. reflexivity.
Qed.

Lemma Part000b_missing_package_is_reported (w : World) (pr : Pull) :
  hasContext w = true ->
  includes (ctx_comment (contextOf w)) TRIGGER = true ->
  pulls_get w = Some pr ->
  head_repo_full_name pr = base_repo_full_name pr ->
  Part000b.alreadyReviewed w (markerOf (head_sha pr)) = false ->
  gitSucceeds w pr = true ->
  read_package w (packagePath w) = None ->
  let c := contextOf w in
  runScript (Part000b.main w)
  = (Part000b_prefix w pr
       ++ [FsReadFile (packagePath w);
           CreateComment (ctx_owner c) (ctx_repo c) (ctx_issue c) noPackageMessage],
     Exited 1).
Proof.
  intros Hc Ht Hp Hs Ha Hg Hk. unfold runScript.
  rewrite (Part000b_main_prefix w pr _ Hc Ht Hp Hs Ha Hg).
  unfold Part000b_tail. cbv zeta.
  now rewrite (bind_Exit _ _ _ _ _ (loadPackage_missing w _ _ _ Hk)).
Qed.

Lemma gitCommands_only_git (w : World) (pr : Pull) (cmd : jsstring)
    (args : list jsstring) :
  In (cmd, args) (gitCommands w pr) -> cmd = GIT.
Proof.
  unfold gitCommands. cbn [In].
  intros H. repeat destruct H as [H|H]; try (now injection H as <- _).
  destruct H.
Qed.

(** C10.  In review-agent.mjs, in a run that gets to its test stage (context
    present, gate open, same-repository pull request, git commands succeed,
    package.json parsed with a real test script) and in which [npm ci] exits
    zero: the command [npx playwright install --with-deps chromium] is run
    if and only if [usesPlaywright] holds of the manifest; [usesPlaywright]
    holds if and only if, for one of the names [@playwright/test] and
    [playwright], the section that decides (optionalDependencies, else
    devDependencies, else dependencies) declares it with a non-empty value;
    and when the command is run it comes right after [npm ci] and before the
    only other command, [npm test], which follows when the install exits
    zero. *)
Theorem playwright_install_when_used (w : World) (pr : Pull) (pkg : Package) :
  hasContext w = true ->
  ReviewAgent.matchesTrigger (ctx_comment (contextOf w)) = true ->
  pulls_get w = Some pr ->
  head_repo_full_name pr = base_repo_full_name pr ->
  gitSucceeds w pr = true ->
  read_package w (packagePath w) = Some pkg ->
  realTestScript pkg = true ->
  exitsZero (execFile w NPM [lit "ci"] (workDirOf w)) = true ->
  let t := fst (runScript (ReviewAgent.main w)) in
  (In (NPX, playwrightArgs) (commands t) <-> usesPlaywright pkg = true) /\
  (usesPlaywright pkg = true <->
   exists name v,
     In name playwrightNames /\ effective pkg name = Some v /\ truthy v = true) /\
  (usesPlaywright pkg = true ->
   exists after,
     commands t
     = gitCommands w pr ++ [(NPM, [lit "ci"]); (NPX, playwrightArgs)] ++ after /\
     (after = [] \/ after = [(NPM, [lit "test"])]) /\
     (exitsZero (execFile w NPX playwrightArgs (workDirOf w)) = true ->
      after = [(NPM, [lit "test"])])).
Proof.
  intros Hc Ht Hp Hs Hg Hk Hr Hci. cbv zeta.
  rewrite (ReviewAgent_run_commands w pr pkg Hc Ht Hp Hs Hg Hk Hr).
  rewrite testTrace_commands, Hci.
  split; [|split; [apply usesPlaywright_effective|]].
  - destruct (usesPlaywright pkg).
    + split; [reflexivity|]. intros _. apply in_or_app. right. cbn [In]. auto.
    + split; [|discriminate]. intros [H|H]%in_app_or.
      * apply gitCommands_only_git in H. vm_compute in H. discriminate.
      * cbn [In] in H. destruct H as [H|[H|[]]];
          injection H as H _; vm_compute in H; discriminate.
  - intros ->.
    destruct (exitsZero (execFile w NPX playwrightArgs (workDirOf w)));
      eexists; (split; [reflexivity|]); split; auto; discriminate.
Qed.

Lemma playwright_install_when_used_witness :
  In (NPX, playwrightArgs)
    (commands (fst (runScript (ReviewAgent.main sampleWorld))))
  <-> usesPlaywright samplePackage = true.
Proof.
  refine (proj1 (playwright_install_when_used sampleWorld samplePull samplePackage
                   _ _ _ _ _ _ _ _)); vm_compute; reflexivity.
Defined.

(** A manifest without browser tooling: the install is not run. *)
Example plain_package_run_commands :
  commands (fst (runScript (ReviewAgent.main plainWorld)))
  = gitCommands plainWorld samplePull ++ [(NPM, [lit "ci"]); (NPM, [lit "test"])].
Proof. vm_compute. reflexivity. Qed.

Lemma testTrace_unobserved {X} (f : Action -> list X) (w : World) (pkg : Package) :
  (forall c a d, f (ExecFile c a d) = []) -> flat_map f (testTrace w pkg) = [].
Proof.
  intros H. unfold testTrace, npmCi, npmTest, playwrightInstall. cbv zeta.
  repeat match goal with
         | |- context [if ?b then _ else _] => destruct b
         end; cbn [flat_map]; rewrite ?H; reflexivity.
Qed.

(** review-agent.mjs: a failing test stage ends the run with an uncaught
    ReferenceError, whatever the world; nothing was posted. *)
Lemma ReviewAgent_failing_tests_crash (w : World) (pr : Pull) (pkg : Package) :
  hasContext w = true ->
  ReviewAgent.matchesTrigger (ctx_comment (contextOf w)) = true ->
  pulls_get w = Some pr ->
  head_repo_full_name pr = base_repo_full_name pr ->
  gitSucceeds w pr = true ->
  read_package w (packagePath w) = Some pkg ->
  realTestScript pkg = true ->
  testsPass w pkg = false ->
  let r := runScript (ReviewAgent.main w) in
  r = (ReviewAgent_prefix w pr ++ FsReadFile (packagePath w) :: testTrace w pkg,
       Uncaught (referenceError "truncate"))
  /\ comments (fst r) = [] /\ completions (fst r) = [] /\ postedReviews (fst r) = [].
Proof.
  intros Hc Ht Hp Hs Hg Hk Hr Hf. cbv zeta.
  assert (runScript (ReviewAgent.main w)
          = (ReviewAgent_prefix w pr ++ FsReadFile (packagePath w) :: testTrace w pkg,
             Uncaught (referenceError "truncate"))) as ->.
  { unfold runScript.
    rewrite (ReviewAgent_main_prefix w pr _ Hc Ht Hp Hs Hg).
    rewrite (ReviewAgent_tail_tests w pr _ pkg Hk Hr), Hf. reflexivity. }
  destruct (ReviewAgent_prefix_quiet w pr) as (Q1 & Q2 & Q3).
  unfold comments, completions, postedReviews in *. cbn [fst].
  rewrite !flat_map_app, Q1, Q2, Q3. cbn [flat_map app].
  rewrite !testTrace_unobserved by reflexivity. repeat split; reflexivity.
Qed.

(** The second document of part_000: a failing test stage is reported in a
    comment that carries the truncated output, and the run exits with
    code 1 before any completion request. *)
Lemma Part000b_failing_tests_reported (w : World) (pr : Pull) (pkg : Package) :
  hasContext w = true ->
  includes (ctx_comment (contextOf w)) TRIGGER = true ->
  pulls_get w = Some pr ->
  head_repo_full_name pr = base_repo_full_name pr ->
  Part000b.alreadyReviewed w (markerOf (head_sha pr)) = false ->
  gitSucceeds w pr = true ->
  read_package w (packagePath w) = Some pkg ->
  realTestScript pkg = true ->
  testsPass w pkg = false ->
  let c := contextOf w in
  runScript (Part000b.main w)
  = (Part000b_prefix w pr ++ FsReadFile (packagePath w) :: testTrace w pkg
       ++ [CreateComment (ctx_owner c) (ctx_repo c) (ctx_issue c)
             (testFailedMessage
                (Part000b.truncate (failureText w pkg) Part000b.MAX_TEST_CHARS))],
     Exited 1).
Proof.
  intros Hc Ht Hp Hs Ha Hg Hk Hr Hf. unfold runScript.
  rewrite (Part000b_main_prefix w pr _ Hc Ht Hp Hs Ha Hg).
  unfold Part000b_tail. cbv zeta.
  rewrite (bind_Val _ _ _ _ _ _ (loadPackage_ok w _ _ _ pkg Hk Hr)).
  pose proof (Part000b_runTests_spec w (contextOf w) pkg {| testOutput := [] |}) as E.
  rewrite Hf in E. rewrite (bind_Exit _ _ _ _ _ E). reflexivity.
Qed.

(** C3.  review-agent.mjs against the specification.  The handler of the test
    stage reads [truncate], which the module never declares: whenever a
    command of the stage exits non-zero the stage ends in a ReferenceError,
    having issued nothing but the commands themselves.  At a run whose
    [npm test] exits non-zero after printing one line, the run ends with
    that error uncaught; no comment is posted (and no completion request is
    made).  At the same input the second document of part_000, which
    declares [truncate] and [MAX_TEST_CHARS], posts the captured output in
    one comment and exits with code 1. *)
Theorem failing_tests_post_no_comment :
  (forall (w : World) (c : Context) (pkg : Package) (vs : Vars),
     ReviewAgent.runTests w c pkg (workDirOf w) vs
     = (testTrace w pkg,
        if testsPass w pkg
        then Val tt {| testOutput := collectedOutput w pkg |}
        else Throw (referenceError "truncate")
               {| testOutput := collectedOutput w pkg |}))
  /\ testsPass failingTestsWorld samplePackage = false
  /\ snd (runScript (ReviewAgent.main failingTestsWorld))
     = Uncaught (referenceError "truncate")
  /\ comments (fst (runScript (ReviewAgent.main failingTestsWorld))) = []
  /\ completions (fst (runScript (ReviewAgent.main failingTestsWorld))) = []
  /\ comments (fst (runScript (Part000b.main failingTestsWorld)))
     = [testFailedMessage (lit "1 failed" ++ NL)]
  /\ snd (runScript (Part000b.main failingTestsWorld)) = Exited 1.
Proof.
  split; [exact ReviewAgent_runTests_spec|].
  vm_compute. repeat split; reflexivity.
Qed.

Lemma bind_ext {A B} (m1 m2 : Script A) (k1 k2 : A -> Script B) (vs : Vars) :
  m1 vs = m2 vs ->
  (forall a vs', k1 a vs' = k2 a vs') ->
  bind m1 k1 vs = bind m2 k2 vs.
Proof.
  intros Hm Hk. unfold bind. rewrite Hm.
  destruct (m2 vs) as [t [a vs'|e vs'|c]]; [now rewrite Hk | reflexivity ..].
Qed.

(** review-agent.mjs never looks at the reviews a pull request already
    has: its run is the same whatever they are. *)
Lemma ReviewAgent_ignores_reviews (w : World) (rs : list Review) (vs : Vars) :
  ReviewAgent.main (setReviews rs w) vs = ReviewAgent.main w vs.
Proof.
  unfold ReviewAgent.main.
  apply bind_ext; [reflexivity | intros c vs1].
  destruct (negb (ReviewAgent.matchesTrigger (ctx_comment c))); [reflexivity|].
  apply bind_ext; [reflexivity | intros pr vs2].
  apply bind_ext; [reflexivity | intros dir vs3].
  apply bind_ext; [reflexivity | intros diff vs4].
  apply bind_ext; [reflexivity | intros names vs5].
  apply bind_ext; [|reflexivity].
  unfold ReviewAgent.readFiles. now rewrite !readFilesWith_spec.
Qed.

(** The second document of part_000 stops at a head commit that already
    carries a review with its marker: after listing the reviews it issues no
    further call and exits with code 0. *)
Lemma Part000b_already_reviewed_stops (w : World) (pr : Pull) :
  hasContext w = true ->
  includes (ctx_comment (contextOf w)) TRIGGER = true ->
  pulls_get w = Some pr ->
  head_repo_full_name pr = base_repo_full_name pr ->
  Part000b.alreadyReviewed w (markerOf (head_sha pr)) = true ->
  let c := contextOf w in
  runScript (Part000b.main w)
  = (contextTrace w ++ pullTrace w
       ++ [ListReviews (ctx_owner c) (ctx_repo c) (ctx_issue c);
           ConsoleLog (lit "Review already exists for this commit. Exiting.")],
     Exited 0).
Proof.
  intros Hc Ht Hp Hs Ha. unfold runScript, Part000b.main.
  rewrite (bind_Val _ _ _ _ _ _ (readContext_ok w _ Hc)). rewrite Ht. cbn [negb].
  rewrite (bind_Val _ _ _ _ _ _ (resolvePull_ok w _ pr _ Hp Hs)). cbv zeta.
  rewrite (bind_Val (emit _) _ _ [_] tt _ eq_refl).
  rewrite Ha. reflexivity.
Qed.

(** C1.  review-agent.mjs against the specification.  The module never lists the
    existing reviews: its run is the same whatever reviews the pull request
    already has.  At a pull request whose head commit abc123 already carries
    a review with the marker for abc123, it checks the commit out, runs the
    three commands of the test stage, makes two completion requests and
    posts a second review with the same marker.  At the same input the
    second document of part_000, which scans the existing reviews for the
    marker, stops after listing them. *)
Theorem reviewed_commit_is_reviewed_again :
  (forall (w : World) (rs : list Review),
     runScript (ReviewAgent.main (setReviews rs w)) = runScript (ReviewAgent.main w))
  /\ Part000b.alreadyReviewed reviewedWorld (markerOf (head_sha samplePull)) = true
  /\ commands (fst (runScript (ReviewAgent.main reviewedWorld)))
     = gitCommands reviewedWorld samplePull
         ++ [(NPM, [lit "ci"]); (NPX, playwrightArgs); (NPM, [lit "test"])]
  /\ length (completions (fst (runScript (ReviewAgent.main reviewedWorld)))) = 2%nat
  /\ postedReviews (fst (runScript (ReviewAgent.main reviewedWorld)))
     = [lit "Line 3 compares the wrong field." ++ NL ++ NL
          ++ markerOf (head_sha samplePull)]
  /\ runScript (Part000b.main reviewedWorld)
     = (contextTrace reviewedWorld ++ pullTrace reviewedWorld
          ++ [ListReviews (lit "acme") (lit "demo") 7;
              ConsoleLog (lit "Review already exists for this commit. Exiting.")],
        Exited 0).
Proof.
  split.
  - intros w rs. unfold runScript. now rewrite ReviewAgent_ignores_reviews.
  - vm_compute. repeat split; reflexivity.
Qed.

Lemma replaceGo_drop (matchAt : jsstring -> option nat) (by_ s : jsstring) (k : nat) :
  (length s <= k)%nat -> replaceGo matchAt by_ k s = [].
Proof.
  revert k; induction s as [|c s IH]; intros k Hk; [reflexivity|].
  destruct k as [|k]; simpl in Hk; [lia|].
  rewrite replaceGo_cons. apply IH. lia.
Qed.

Lemma lazyStar_unfold (cls : N -> bool) (closing s : jsstring) :
  lazyStar cls closing s =
  if startsWith closing s then Some 0%nat
  else match s with
       | [] => None
       | c :: s' =>
           if cls c then option_map S (lazyStar cls closing s') else None
       end.
Proof. now destruct s. Qed.

Lemma lazyStar_no_ticks (inner post : jsstring) :
  forallb (fun c => negb (c =? 96)) inner = true ->
  lazyStar Part000a.fenceClass TICKS (inner ++ TICKS ++ post) = Some (length inner).
Proof.
  induction inner as [|c inner IH]; intros H.
  - cbn [app length]. rewrite lazyStar_unfold. now rewrite startsWith_app.
  - cbn [forallb] in H. apply andb_prop in H as [Hc Hi].
    cbn [app lazyStar length].
    assert (startsWith TICKS (c :: inner ++ TICKS ++ post) = false) as ->.
    { change TICKS with [96; 96; 96]. cbn [startsWith].
      apply negb_true_iff in Hc. rewrite N.eqb_sym in Hc. now rewrite Hc. }
    assert (Part000a.fenceClass c = true) as ->
      by (unfold Part000a.fenceClass; now destruct (isSpace c)).
    now rewrite (IH Hi).
Qed.

(** The first document of part_000: a comment that is one fenced block
    never opens the gate, whatever the block quotes. *)
Lemma Part000a_fenced_block_is_ignored (inner : jsstring) :
  forallb (fun c => negb (c =? 96)) inner = true ->
  Part000a.matchesTrigger (TICKS ++ inner ++ TICKS) = false.
Proof.
  intros H. unfold Part000a.matchesTrigger.
  change (truthy (TICKS ++ inner ++ TICKS)) with true. cbn [negb].
  assert (replaceAll (fenceAt Part000a.fenceClass) (lit " ") (TICKS ++ inner ++ TICKS)
          = lit " ") as ->.
  { unfold replaceAll. change (TICKS ++ inner ++ TICKS)
      with (96 :: 96 :: 96 :: inner ++ TICKS).
    rewrite replaceGo_cons.
    assert (fenceAt Part000a.fenceClass (96 :: 96 :: 96 :: inner ++ TICKS)
            = Some (S (5 + length inner))) as ->.
    { unfold fenceAt. change (startsWith TICKS (96 :: 96 :: 96 :: inner ++ TICKS)) with true.
      change (skipn 3 (96 :: 96 :: 96 :: inner ++ TICKS)) with (inner ++ TICKS).
      rewrite <- (app_nil_r TICKS) at 2. now rewrite (lazyStar_no_ticks inner [] H). }
    rewrite replaceGo_drop; [apply app_nil_r|].
    cbn [length]. rewrite length_app. change (length TICKS) with 3%nat. lia. }
  vm_compute. reflexivity.
Qed.

(** ... but text on both sides of a block is joined by the replacement, so
    the gate can open on a phrase that the comment only spells out inside
    the block. *)
Example Part000a_joined_trigger_fires :
  Part000a.matchesTrigger
    (lit "@review-agent: please" ++ TICKS ++ TRIGGER ++ TICKS ++ lit "review this PR")
  = true.
Proof. vm_compute. reflexivity. Qed.

(** C2.  review-agent.mjs against the specification.  The expression meant to blank
    out fenced blocks is written with doubled backslashes, so its class
    holds a backslash and the letter s instead of every character.  Hence
    the gate returns true for every comment that is a fenced block quoting
    the trigger phrase, whatever else the block holds; at the block that
    holds the phrase alone the expression leaves the comment as it is, and
    the run goes on to post a review.  At that comment the gate of the first
    document of part_000, whose expression uses single backslashes, returns
    false. *)
Theorem quoted_trigger_opens_gate :
  (forall before after : jsstring,
     ReviewAgent.matchesTrigger (TICKS ++ before ++ TRIGGER ++ after ++ TICKS) = true)
  /\ ReviewAgent.matchesTrigger quotedTrigger = true
  /\ replaceAll (fenceAt ReviewAgent.fenceClass) (lit " ") quotedTrigger = quotedTrigger
  /\ length (postedReviews (fst (runScript (ReviewAgent.main quotingWorld)))) = 1%nat
  /\ replaceAll (fenceAt Part000a.fenceClass) (lit " ") quotedTrigger = lit " "
  /\ Part000a.matchesTrigger quotedTrigger = false.
Proof.
  split.
  - intros before after.
    replace (TICKS ++ before ++ TRIGGER ++ after ++ TICKS)
      with ((TICKS ++ before) ++ TRIGGER ++ (after ++ TICKS))
      by now rewrite <- !app_assoc.
    now apply ReviewAgent_matchesTrigger_occurrence.
  - vm_compute. repeat split; reflexivity.
Qed.

Lemma ReviewAgent_readFiles_spec (w : World) (files : list jsstring)
    (dir : jsstring) (vs : Vars) :
  ReviewAgent.readFiles w files dir vs
  = (readTrace w dir files,
     Val (trim (join NL (sections (fun content => content) w dir files))) vs).
Proof. apply readFilesWith_spec. Qed.

(** The first document of part_000: [readFiles] always returns; its result
    is made of one section per named file that is a readable regular file,
    in order, each holding the file's contents cut to [MAX_FILE_CHARS]; any
    other name adds nothing. *)
Lemma Part000a_readFiles_spec (w : World) (files : list jsstring)
    (dir : jsstring) (vs : Vars) :
  Part000a.readFiles w files dir vs
  = (readTrace w dir files,
     Val (trim (join NL
                  (sections
                     (fun content => Part000a.truncate content Part000a.MAX_FILE_CHARS)
                     w dir files))) vs).
Proof. apply readFilesWith_spec. Qed.

(** C8.  review-agent.mjs against the specification.  [readFiles] always returns,
    and its result is made of one section per named file that is a readable
    regular file, any other name adding nothing, as specified; but each
    section holds the file's contents as read: there is no per-file budget.
    At a changed file of 4001 characters all 4001 are included.  At the same
    input [readFiles] of the first document of part_000 includes the first
    4000 characters and the annotation. *)
Theorem big_file_is_included_whole :
  let dir := workDirOf bigFileWorld in
  let path := path_join dir (lit "src/App.jsx") in
  let vs := {| testOutput := [] |} in
  (forall (w : World) (files : list jsstring) (d : jsstring) (v : Vars),
     ReviewAgent.readFiles w files d v
     = (readTrace w d files,
        Val (trim (join NL (sections (fun content => content) w d files))) v))
  /\ length bigContent = 4001%nat
  /\ ReviewAgent.readFiles bigFileWorld [lit "src/App.jsx"] dir vs
     = ([FsStat path; FsReadFile path],
        Val (lit "--- src/App.jsx ---" ++ NL ++ bigContent) vs)
  /\ Part000a.readFiles bigFileWorld [lit "src/App.jsx"] dir vs
     = ([FsStat path; FsReadFile path],
        Val (lit "--- src/App.jsx ---" ++ NL ++ firstn 4000 bigContent ++ NL
               ++ Part000a.ELLIPSIS ++ lit " [truncated 1 chars]") vs).
Proof.
  cbv zeta. split; [exact ReviewAgent_readFiles_spec|].
  vm_compute. repeat split; reflexivity.
Qed.

(** [truncate] of the first document of part_000, for every string and
    every budget [n] that is not negative: a string longer than [n] comes
    back as its first [n] code units followed by a line break, the ellipsis
    bytes and [" [truncated k chars]"], where [k] is the number of code units
    left out, in decimal; a string of at most [n] code units comes back
    unchanged. *)
Theorem truncate_cuts_and_counts (value : jsstring) (n : Z) :
  (0 <= n)%Z ->
  ((n < Z.of_nat (length value))%Z ->
   Part000a.truncate value n
   = firstn (Z.to_nat n) value ++ NL ++ Part000a.ELLIPSIS ++ lit " [truncated "
       ++ numToString (Z.of_nat (length value) - n) ++ lit " chars]"
   /\ length (firstn (Z.to_nat n) value) = Z.to_nat n
   /\ Z.of_nat (length (skipn (Z.to_nat n) value)) = (Z.of_nat (length value) - n)%Z)
  /\ ((Z.of_nat (length value) <= n)%Z -> Part000a.truncate value n = value).
Proof.
  intros Hn. unfold Part000a.truncate, slice0. split.
  - intros Hlt. destruct value as [|c value]; [simpl in Hlt; lia|].
    cbn [truthy negb].
    destruct (Z.leb_spec (Z.of_nat (length (c :: value))) n) as [Hle|_]; [lia|].
    destruct (Z.ltb_spec n 0) as [Hneg|_]; [lia|].
    split; [reflexivity|]. rewrite length_firstn, length_skipn. lia.
  - intros Hle. destruct value as [|c value]; [reflexivity|].
    cbn [truthy negb].
    destruct (Z.leb_spec (Z.of_nat (length (c :: value))) n) as [_|Hgt];
      [reflexivity | lia].
Qed.

Lemma truncate_cuts_and_counts_witness :
  Part000a.truncate (lit "abcdefghij") 4
  = lit "abcd" ++ NL ++ Part000a.ELLIPSIS ++ lit " [truncated 6 chars]"
  /\ Part000a.truncate (lit "abcd") 4 = lit "abcd".
Proof.
  split.
  - exact (proj1 (proj1 (truncate_cuts_and_counts (lit "abcdefghij") 4
                           ltac:(lia)) ltac:(vm_compute; reflexivity))).
  - exact (proj2 (truncate_cuts_and_counts (lit "abcd") 4 ltac:(lia))
             ltac:(vm_compute; discriminate)).
Defined.

(** The count is printed in decimal. *)
Example numToString_sample : numToString 4001 = lit "4001".
Proof. reflexivity. Qed.

(** [truncate] of the second document of part_000 cuts in the same way but
    appends a fixed annotation, without a count. *)
Lemma Part000b_truncate_spec (text : jsstring) (n : Z) :
  (0 <= n)%Z ->
  ((n < Z.of_nat (length text))%Z ->
   Part000b.truncate text n
   = firstn (Z.to_nat n) text ++ NL ++ lit "...truncated...")
  /\ ((Z.of_nat (length text) <= n)%Z -> Part000b.truncate text n = text).
Proof.
  intros Hn. unfold Part000b.truncate, slice0. split.
  - intros Hlt. destruct text as [|c text]; [simpl in Hlt; lia|].
    cbn [truthy negb].
    destruct (Z.leb_spec (Z.of_nat (length (c :: text))) n) as [Hle|_]; [lia|].
    destruct (Z.ltb_spec n 0) as [Hneg|_]; [lia | reflexivity].
  - intros Hle. destruct text as [|c text]; [reflexivity|].
    cbn [truthy negb].
    destruct (Z.leb_spec (Z.of_nat (length (c :: text))) n) as [_|Hgt];
      [reflexivity | lia].
Qed.

(** C4.  [truncate] against the specification.  Two functions of that name
    are cited.  The one of the second document of part_000 (lines 410-414)
    returns, for a string longer than the budget [n], its first [n] code
    units followed by a line break and the fixed text [...truncated...]:
    the annotation states no count, so two strings that agree on their first
    [n] units come back identical however many units each leaves out.  At
    budget 4 the strings [abcdefghij] and [abcdefghijklmnop], which leave
    out 6 and 12 units, both come back as [abcd], a line break and
    [...truncated...].  A string within the budget comes back unchanged.
    The one of the first document (lines 160-164) does what is specified:
    its annotation carries the number of units left out, 6 and 12 at these
    strings. *)
Theorem truncate_annotation_states_no_count :
  (forall (text : jsstring) (n : Z),
     (0 <= n)%Z -> (n < Z.of_nat (length text))%Z ->
     Part000b.truncate text n
     = firstn (Z.to_nat n) text ++ NL ++ lit "...truncated...")
  /\ (forall (text text' : jsstring) (n : Z),
        (0 <= n)%Z ->
        (n < Z.of_nat (length text))%Z -> (n < Z.of_nat (length text'))%Z ->
        firstn (Z.to_nat n) text = firstn (Z.to_nat n) text' ->
        Part000b.truncate text n = Part000b.truncate text' n)
  /\ Part000b.truncate (lit "abcdefghij") 4
     = lit "abcd" ++ NL ++ lit "...truncated..."
  /\ Part000b.truncate (lit "abcdefghijklmnop") 4
     = lit "abcd" ++ NL ++ lit "...truncated..."
  /\ (forall (text : jsstring) (n : Z),
        (0 <= n)%Z -> (Z.of_nat (length text) <= n)%Z ->
        Part000b.truncate text n = text)
  /\ (forall (value : jsstring) (n : Z),
        (0 <= n)%Z -> (n < Z.of_nat (length value))%Z ->
        Part000a.truncate value n
        = firstn (Z.to_nat n) value ++ NL ++ Part000a.ELLIPSIS
            ++ lit " [truncated " ++ numToString (Z.of_nat (length value) - n)
            ++ lit " chars]")
  /\ Part000a.truncate (lit "abcdefghij") 4
     = lit "abcd" ++ NL ++ Part000a.ELLIPSIS ++ lit " [truncated 6 chars]"
  /\ Part000a.truncate (lit "abcdefghijklmnop") 4
     = lit "abcd" ++ NL ++ Part000a.ELLIPSIS ++ lit " [truncated 12 chars]".
Proof.
  assert (forall (text : jsstring) (n : Z),
            (0 <= n)%Z -> (n < Z.of_nat (length text))%Z ->
            Part000b.truncate text n
            = firstn (Z.to_nat n) text ++ NL ++ lit "...truncated...") as Cut.
  { intros text n Hn Hlt. exact (proj1 (Part000b_truncate_spec text n Hn) Hlt). }
  split; [exact Cut|].
  split.
  { intros text text' n Hn H H' E. now rewrite (Cut text n Hn H), (Cut text' n Hn H'), E. }
  split; [reflexivity|]. split; [reflexivity|].
  split.
  { intros text n Hn Hle. exact (proj2 (Part000b_truncate_spec text n Hn) Hle). }
  split.
  { intros value n Hn Hlt.
    exact (proj1 (proj1 (truncate_cuts_and_counts value n Hn) Hlt)). }
  split; reflexivity.
Qed.

Lemma orElse_nil_r (x : jsstring) : orElse x [] = x.
Proof. now destruct x. Qed.

Lemma bind_starts {A B} (m : Script A) (k : A -> Script B) (vs : Vars) a t r :
  m vs = (a :: t, r) -> exists t' r', bind m k vs = (a :: t', r').
Proof.
  unfold bind. intros ->. destruct r as [x vs'|e vs'|c]; eauto.
  destruct (k x vs') as [t' r']. eauto.
Qed.

Lemma resolvePull_starts (w : World) (c : Context) (vs : Vars) :
  exists t r,
    resolvePull w c vs
    = (PullsGet (ctx_owner c) (ctx_repo c) (ctx_issue c) :: t, r).
Proof. unfold resolvePull. apply (bind_starts (emit _) _ vs _ [] (Val tt vs) eq_refl). Qed.

(** C5.  The gate of review-agent.mjs, for every comment that holds the
    trigger phrase in any letter case ([occ]) between any two texts ([pre]
    and [post], so with any white space around it, and in particular outside
    any fenced block): [matchesTrigger] returns true, and a run that has its
    credentials and event context goes on to fetch the pull request. *)
Theorem trigger_in_any_case_fires (pre occ post : jsstring) :
  toLowerCase occ = toLowerCase TRIGGER ->
  ReviewAgent.matchesTrigger (pre ++ occ ++ post) = true
  /\ forall w : World,
       hasContext w = true ->
       comment_body (event w) = Some (pre ++ occ ++ post) ->
       exists t o,
         runScript (ReviewAgent.main w) = (contextTrace w ++ pullTrace w ++ t, o).
Proof.
  intros H. pose proof (ReviewAgent_matchesTrigger_occurrence pre occ post H) as Hm.
  split; [exact Hm|]. intros w Hc Hb.
  unfold runScript, ReviewAgent.main.
  rewrite (bind_Val _ _ _ _ _ _ (readContext_ok w _ Hc)).
  assert (ctx_comment (contextOf w) = pre ++ occ ++ post) as ->.
  { unfold contextOf. cbn [ctx_comment]. rewrite Hb. apply orElse_nil_r. }
  rewrite Hm. cbn [negb].
  destruct (resolvePull_starts w (contextOf w) {| testOutput := [] |}) as (t & r & E).
  destruct (bind_starts _
              (fun pr =>
                 do workDir <- materialize w (contextOf w) pr;
                 do diff <- runCapture w GIT (diffArgs (base_sha pr) (head_sha pr)) workDir;
                 do changedFiles <-
                   runCapture w GIT (nameOnlyArgs (base_sha pr) (head_sha pr)) workDir;
                 do changedFileContents <-
                   ReviewAgent.readFiles w (fileNames changedFiles) workDir;
                 do pkg <- loadPackage w (contextOf w) workDir;
                 do_ ReviewAgent.runTests w (contextOf w) pkg workDir;
                 ReviewAgent.review w (contextOf w) pr diff changedFileContents)
              _ _ _ _ E) as (t' & r' & ->).
  cbn [fst snd]. unfold pullTrace. cbn [app].
  destruct r' as [[] vs'|e vs'|code]; eauto.
Qed.

Lemma trigger_in_any_case_fires_witness :
  ReviewAgent.matchesTrigger lowerCaseComment = true.
Proof.
  exact (proj1 (trigger_in_any_case_fires
                  (lit "hello," ++ NL ++ lit "  ")
                  (lit "@REVIEW-AGENT: Please Review This pr")
                  (lit "   " ++ NL)
                  ltac:(vm_compute; reflexivity))).
Defined.

(** The run of the specification's example scenario, with the request in
    lower case, ends with one review that carries the marker. *)
Example lower_case_request_is_reviewed :
  postedReviews (fst (runScript (ReviewAgent.main lowerCaseWorld)))
  = [lit "Line 3 compares the wrong field." ++ NL ++ NL ++ markerOf (lit "abc123")].
Proof. vm_compute. reflexivity. Qed.

(** The check of the second document of part_000 is [includes] on the raw
    comment: it is sensitive to letter case and blind to fences. *)
Example Part000b_gate_is_literal :
  includes lowerCaseComment TRIGGER = false
  /\ includes quotedTrigger TRIGGER = true.
Proof. vm_compute. split; reflexivity. Qed.

(** White space inside the phrase is a different matter: the expression of
    review-agent.mjs that should collapse it has the same doubled
    backslash. *)
Example ReviewAgent_inner_space_not_collapsed :
  ReviewAgent.matchesTrigger (lit "@review-agent:  please review this PR") = false
  /\ Part000a.matchesTrigger (lit "@review-agent:  please review this PR") = true.
Proof. vm_compute. split; reflexivity. Qed.

(** The sample run: a clean first verdict, one retry, the retry's text
    posted. *)
Example sample_run_retries_once :
  length (completions (fst (runScript (ReviewAgent.main sampleWorld)))) = 2%nat
  /\ postedReviews (fst (runScript (ReviewAgent.main sampleWorld)))
     = [lit "Line 3 compares the wrong field." ++ NL ++ NL ++ markerOf (lit "abc123")]
  /\ snd (runScript (ReviewAgent.main sampleWorld)) = Exited 0.
Proof. vm_compute. repeat split; reflexivity. Qed.

(** * One review per head commit, in the second document of part_000 *)

Lemma Part000b_review_spec (w : World) (c : Context) (pr : Pull)
    (diff : jsstring) (vs : Vars) :
  let prompt :=
    Part000b.buildPrompt (pr_title pr) (orDefault (pr_body pr) [])
      (Part000b.truncate diff Part000b.MAX_DIFF_CHARS)
      (Part000b.truncate (testOutput vs) Part000b.MAX_TEST_CHARS) in
  Part000b.review w c pr diff vs
  = if negb (truthyOpt (OPENAI_API_KEY w))
    then ([CreateComment (ctx_owner c) (ctx_repo c) (ctx_issue c) noKeyMessage],
          Exit 1)
    else ([ResponsesCreate (modelName w) prompt 800;
           CreateReview (ctx_owner c) (ctx_repo c) (ctx_issue c)
             (extractReviewText (responses_create w prompt) ++ NL ++ NL
                ++ markerOf (head_sha pr))],
          Val tt vs).
Proof.
  cbv zeta. unfold Part000b.review.
  destruct (negb (truthyOpt (OPENAI_API_KEY w))); reflexivity.
Qed.

Lemma Part000b_runTests_quiet (w : World) c pkg dir vs :
  quiet (fst (Part000b.runTests w c pkg dir vs)).
Proof.
  unfold Part000b.runTests.
  apply quiet_bind; [apply quiet_nil|intros _ vs'].
  unfold tryCatch.
  pose proof (installAndTest_quiet w pkg dir vs') as H.
  destruct (installAndTest w pkg dir vs') as [t [a v|e v|code]]; cbn [fst] in *;
    try exact H.
  cbn. apply quiet_app; [exact H | split; reflexivity].
Qed.

Lemma Part000b_main_endsIn (w : World) (vs : Vars) :
  endsIn (unreviewedStage w) (fst (Part000b.main w vs)).
Proof.
  unfold Part000b.main.
  apply endsIn_bind; [apply readContext_quiet | intros c vs1 _].
  destruct (negb (includes (ctx_comment c) TRIGGER)).
  { left. split; reflexivity. }
  apply endsIn_bind; [apply resolvePull_quiet | intros pr vs2 Hpr].
  apply resolvePull_Val in Hpr. cbv zeta.
  apply endsIn_bind; [now apply quiet_emit | intros _ vs3 _].
  destruct (Part000b.alreadyReviewed w (markerOf (head_sha pr))) eqn:Ha.
  { left. split; reflexivity. }
  apply endsIn_bind; [apply materialize_quiet | intros dir vs4 _].
  apply endsIn_bind; [apply runCapture_quiet | intros diff vs5 _].
  apply endsIn_bind; [apply loadPackage_quiet | intros pkg vs6 _].
  apply endsIn_bind; [apply Part000b_runTests_quiet | intros [] vs7 _].
  right. exists [], (fst (Part000b.review w c pr diff vs7)).
  repeat split. now exists c, pr, diff, vs7.
Qed.

(** A run posts at most one review, and only for a head commit that carries
    none with its marker; the review it posts ends with that marker. *)
Lemma Part000b_posts_unreviewed_only (w : World) :
  postedReviews (fst (runScript (Part000b.main w))) = []
  \/ exists pr text,
       pulls_get w = Some pr /\
       Part000b.alreadyReviewed w (markerOf (head_sha pr)) = false /\
       postedReviews (fst (runScript (Part000b.main w)))
       = [text ++ NL ++ NL ++ markerOf (head_sha pr)].
Proof.
  rewrite runScript_fst.
  destruct (Part000b_main_endsIn w {| testOutput := [] |})
    as [[_ Hq] | (t0 & t1 & [_ Hp] & -> & (c & pr & diff & vs & Hpr & Ha & ->))];
    [now left|].
  pose proof (Part000b_review_spec w c pr diff vs) as E. cbv zeta in E.
  rewrite E. clear E.
  unfold postedReviews in *. rewrite flat_map_app, Hp.
  destruct (negb (truthyOpt (OPENAI_API_KEY w))); [now left|].
  right. eexists pr, _. repeat split; [exact Hpr | exact Ha].
Qed.

Lemma alreadyReviewed_In (w : World) (marker text : jsstring) :
  In {| review_body := Some (text ++ marker) |} (pulls_listReviews w) ->
  Part000b.alreadyReviewed w marker = true.
Proof.
  intros H. unfold Part000b.alreadyReviewed. apply existsb_exists.
  eexists. split; [exact H|]. cbn [review_body].
  rewrite <- (app_nil_r marker) at 1. apply includes_app.
Qed.

(** The invariant: once a run has posted a review for a head commit, a later
    run for the same head commit that is shown that review posts nothing and
    makes no completion request. *)
Lemma Part000b_one_review_per_commit (w1 w2 : World) (pr : Pull) (b : jsstring) :
  pulls_get w1 = Some pr ->
  pulls_get w2 = Some pr ->
  In b (postedReviews (fst (runScript (Part000b.main w1)))) ->
  In {| review_body := Some b |} (pulls_listReviews w2) ->
  postedReviews (fst (runScript (Part000b.main w2))) = []
  /\ completions (fst (runScript (Part000b.main w2))) = [].
Proof.
  intros H1 H2 Hb Hin.
  assert (Part000b.alreadyReviewed w2 (markerOf (head_sha pr)) = true) as Ha.
  { destruct (Part000b_posts_unreviewed_only w1) as [E | (pr' & text & Hp & _ & E)];
      rewrite E in Hb; [destruct Hb|].
    rewrite H1 in Hp. injection Hp as <-.
    destruct Hb as [<-|[]].
    replace (text ++ NL ++ NL ++ markerOf (head_sha pr))
      with ((text ++ NL ++ NL) ++ markerOf (head_sha pr)) in Hin
      by now rewrite <- !app_assoc.
    exact (alreadyReviewed_In _ _ _ Hin). }
  rewrite runScript_fst.
  destruct (Part000b_main_endsIn w2 {| testOutput := [] |})
    as [[Hc Hq] | (t0 & t1 & _ & _ & (c & pr' & diff & vs & Hpr & Ha' & _))];
    [now split|].
  rewrite H2 in Hpr. injection Hpr as <-. congruence.
Qed.

(** * The retry, in a run that gets to the review *)

Lemma any_run_makes_at_most_two_requests (w : World) :
  (length (completions (fst (runScript (ReviewAgent.main w)))) <= 2)%nat.
Proof.
  pose proof (requests_of_any_run w) as H. cbv zeta in H.
  destruct H as [[-> _] | (pr & args & _ & _ & H)]; [simpl; lia|].
  destruct (testIgnoreCase NO_ISSUES _); destruct H as [-> _]; simpl; lia.
Qed.

(** C6.  review-agent.mjs, in a run in which every check before the review
    goes through (credentials and context, gate, same-repository pull
    request, git, a real test script, passing tests, completion key).  The
    first completion request carries the primary prompt.  If the text
    extracted from its response matches [/no issues found/i], exactly one
    more request is made, from the retry prompt, and the one review posted
    is the text extracted from the retry's response (not the first text)
    followed by the marker; this holds whatever the retry's response says,
    so there is no second retry.  If the first text does not match, no
    further request is made and the first text is posted.  The retry prompt
    is shorter than the primary prompt.  And no run, of any world, makes
    more than two completion requests. *)
Theorem retry_once_on_clean_verdict (w : World) (pr : Pull) (pkg : Package) :
  reviewConditions w pr pkg ->
  let args := promptArgs w pr pkg in
  let prompt := ReviewAgent.buildPrompt args in
  let retryPrompt := ReviewAgent.buildRetryPrompt args in
  let first := extractReviewText (responses_create w prompt) in
  let retry := extractReviewText (responses_create w retryPrompt) in
  let t := fst (runScript (ReviewAgent.main w)) in
  (length retryPrompt < length prompt)%nat
  /\ (testIgnoreCase NO_ISSUES first = true ->
      completions t = [prompt; retryPrompt]
      /\ postedReviews t = [retry ++ NL ++ NL ++ markerOf (head_sha pr)])
  /\ (testIgnoreCase NO_ISSUES first = false ->
      completions t = [prompt]
      /\ postedReviews t = [first ++ NL ++ NL ++ markerOf (head_sha pr)])
  /\ (forall w' : World,
        (length (completions (fst (runScript (ReviewAgent.main w')))) <= 2)%nat).
Proof.
  intros (Hc & Ht & Hp & Hs & Hg & Hk & Hr & Hx & Hkey). cbv zeta.
  split; [apply retry_prompt_shorter|].
  assert (fst (runScript (ReviewAgent.main w))
          = ReviewAgent_prefix w pr ++ FsReadFile (packagePath w) :: testTrace w pkg
              ++ fst (ReviewAgent.review w (contextOf w) pr
                        (ReviewAgent.diff (promptArgs w pr pkg))
                        (ReviewAgent.changedFileContents (promptArgs w pr pkg))
                        {| testOutput := collectedOutput w pkg |})) as ->.
  { rewrite runScript_fst.
    rewrite (ReviewAgent_main_prefix w pr _ Hc Ht Hp Hs Hg).
    rewrite (ReviewAgent_tail_tests w pr _ pkg Hk Hr), Hx. reflexivity. }
  pose proof (ReviewAgent_review_spec w (contextOf w) pr
                (ReviewAgent.diff (promptArgs w pr pkg))
                (ReviewAgent.changedFileContents (promptArgs w pr pkg))
                {| testOutput := collectedOutput w pkg |}) as E.
  cbv zeta in E. rewrite E. clear E. rewrite Hkey. cbn [negb].
  change {| ReviewAgent.title := pr_title pr;
            ReviewAgent.body := orDefault (pr_body pr) [];
            ReviewAgent.diff := ReviewAgent.diff (promptArgs w pr pkg);
            ReviewAgent.testOutputText :=
              testOutput {| testOutput := collectedOutput w pkg |};
            ReviewAgent.changedFileContents :=
              ReviewAgent.changedFileContents (promptArgs w pr pkg) |}
    with (promptArgs w pr pkg).
  destruct (ReviewAgent_prefix_quiet w pr) as (_ & Q2 & Q3).
  unfold completions, postedReviews in *.
  split; [|split].
  - intros ->. cbn [fst]. rewrite !flat_map_app, Q2, Q3. cbn [flat_map app].
    rewrite !flat_map_app, !testTrace_unobserved by reflexivity.
    split; reflexivity.
  - intros ->. cbn [fst]. rewrite !flat_map_app, Q2, Q3. cbn [flat_map app].
    rewrite !flat_map_app, !testTrace_unobserved by reflexivity.
    split; reflexivity.
  - exact any_run_makes_at_most_two_requests.
Qed.

Lemma retry_once_on_clean_verdict_witness :
  completions (fst (runScript (ReviewAgent.main sampleWorld)))
  = [ReviewAgent.buildPrompt (promptArgs sampleWorld samplePull samplePackage);
     ReviewAgent.buildRetryPrompt (promptArgs sampleWorld samplePull samplePackage)]
  /\ postedReviews (fst (runScript (ReviewAgent.main sampleWorld)))
     = [lit "Line 3 compares the wrong field." ++ NL ++ NL ++ markerOf (lit "abc123")].
Proof.
  assert (reviewConditions sampleWorld samplePull samplePackage) as H
    by (repeat split; vm_compute; reflexivity).
  exact (proj1 (proj2 (retry_once_on_clean_verdict sampleWorld samplePull samplePackage H))
           ltac:(vm_compute; reflexivity)).
Defined.

(** * Which runs of review-agent.mjs reach the model *)

Lemma readContext_stop (w : World) (vs : Vars) :
  hasContext w = false -> readContext w vs = (contextFailure w, Exit 1).
Proof.
  unfold hasContext, readContext, contextFailure, contextTrace.
  destruct (truthyOpt (GITHUB_TOKEN w)); cbn [negb andb]; [|reflexivity].
  destruct (truthyOpt (GITHUB_EVENT_PATH w)); cbn [negb andb]; [|reflexivity].
  intros H. unfold bind, emit.
  destruct (isTruthyNumber (issue_number (event w))),
    (truthyOpt (repository_owner_login (event w))),
    (truthyOpt (repository_name (event w))); try discriminate H; reflexivity.
Qed.

Lemma readContext_Val (w : World) (vs vs' : Vars) (c : Context) :
  snd (readContext w vs) = Val c vs' ->
  hasContext w = true /\ c = contextOf w /\ vs' = vs.
Proof.
  destruct (hasContext w) eqn:H.
  - rewrite (readContext_ok w vs H). cbn. now intros [= <- <-].
  - rewrite (readContext_stop w vs H). discriminate.
Qed.

Lemma resolvePull_Val_same (w : World) (c : Context) (vs vs' : Vars) (pr : Pull) :
  snd (resolvePull w c vs) = Val pr vs' ->
  pulls_get w = Some pr /\ head_repo_full_name pr = base_repo_full_name pr
  /\ vs' = vs.
Proof.
  unfold resolvePull, bind, emit.
  destruct (pulls_get w) as [pr'|]; [|discriminate].
  cbv beta iota. destruct (bool_decide_reflect (head_repo_full_name pr' = base_repo_full_name pr')) as [E|E];
    cbn; [|discriminate].
  now intros [= <- <-].
Qed.

Lemma run_Val (w : World) cmd args dir vs vs' u :
  snd (run w cmd args dir vs) = Val u vs' ->
  exitsZero (execFile w cmd args dir) = true /\ vs' = vs.
Proof.
  unfold run, bind, emit. destruct (execFile w cmd args dir); cbn; [|discriminate].
  now intros [= <-].
Qed.

Lemma runCapture_Val (w : World) cmd args dir vs vs' out :
  snd (runCapture w cmd args dir vs) = Val out vs' ->
  exitsZero (execFile w cmd args dir) = true
  /\ out = outputOf (execFile w cmd args dir) /\ vs' = vs.
Proof.
  unfold runCapture, bind, emit. destruct (execFile w cmd args dir); cbn; [|discriminate].
  now intros [= <- <-].
Qed.

Lemma bind_snd_Val {A B} (m : Script A) (k : A -> Script B) vs b vs2 :
  snd (bind m k vs) = Val b vs2 ->
  exists a vs1, snd (m vs) = Val a vs1 /\ snd (k a vs1) = Val b vs2.
Proof.
  unfold bind. destruct (m vs) as [t [a vs1|e vs1|c]]; cbn; try discriminate.
  destruct (k a vs1) as [t' r'] eqn:E. cbn. intros ->.
  exists a, vs1. now rewrite E.
Qed.

Lemma emit_snd (a : Action) (vs : Vars) : snd (emit a vs) = Val tt vs.
Proof. reflexivity. Qed.

Lemma materialize_Val (w : World) (c : Context) (pr : Pull) vs vs' dir :
  snd (materialize w c pr vs) = Val dir vs' ->
  dir = workDirOf w /\ vs' = vs /\
  exitsZero (execFile w GIT [lit "init"] (workDirOf w)) = true /\
  exitsZero (execFile w GIT [lit "remote"; lit "add"; lit "origin"; repoUrlOf c]
               (workDirOf w)) = true /\
  exitsZero (execFile w GIT (fetchArgs (base_sha pr) (head_sha pr)) (workDirOf w)) = true /\
  exitsZero (execFile w GIT (checkoutArgs (head_sha pr)) (workDirOf w)) = true.
Proof.
  unfold materialize. cbv zeta. intros H.
  apply bind_snd_Val in H as (? & v1 & H1 & H). cbn in H1. injection H1 as _ <-.
  apply bind_snd_Val in H as (? & v2 & H2 & H). cbn in H2. injection H2 as _ <-.
  apply bind_snd_Val in H as (? & v3 & H3 & H). apply run_Val in H3 as [G1 ->].
  apply bind_snd_Val in H as (? & v4 & H4 & H). apply run_Val in H4 as [G2 ->].
  apply bind_snd_Val in H as (? & v5 & H5 & H). apply run_Val in H5 as [G3 ->].
  apply bind_snd_Val in H as (? & v6 & H6 & H). apply run_Val in H6 as [G4 ->].
  cbn in H. injection H as <- <-. auto 10.
Qed.

Lemma loadPackage_Val (w : World) (c : Context) (dir : jsstring) vs vs' pkg :
  snd (loadPackage w c dir vs) = Val pkg vs' ->
  read_package w (path_join dir (lit "package.json")) = Some pkg
  /\ realTestScript pkg = true /\ vs' = vs.
Proof.
  unfold loadPackage, bind, tryCatch, emit, postComment, realTestScript. cbv zeta beta iota.
  destruct (read_package w _) as [p|]; cbn; [|discriminate].
  destruct (truthyOpt (scripts_test p)) eqn:E1; cbn; [|discriminate].
  destruct (testIgnoreCase _ _) eqn:E2; cbn; [discriminate|].
  intros [= <- <-]. now rewrite E1, E2.
Qed.

Lemma ReviewAgent_runTests_Val (w : World) c pkg vs vs' u :
  snd (ReviewAgent.runTests w c pkg (workDirOf w) vs) = Val u vs' ->
  testsPass w pkg = true /\ vs' = {| testOutput := collectedOutput w pkg |}.
Proof.
  rewrite ReviewAgent_runTests_spec. cbn [snd].
  destruct (testsPass w pkg); [|discriminate]. now intros [= <-].
Qed.

Lemma ReviewAgent_main_reaches (w : World) (vs : Vars) :
  endsIn (reviewReached w) (fst (ReviewAgent.main w vs)).
Proof.
  unfold ReviewAgent.main.
  apply endsIn_bind; [apply readContext_quiet | intros c vs1 Hc].
  apply readContext_Val in Hc as (Hc & -> & ->).
  destruct (ReviewAgent.matchesTrigger (ctx_comment (contextOf w))) eqn:Ht; cbn [negb].
  2:{ left. split; reflexivity. }
  apply endsIn_bind; [apply resolvePull_quiet | intros pr vs2 Hp].
  apply resolvePull_Val_same in Hp as (Hp & Hs & ->).
  apply endsIn_bind; [apply materialize_quiet | intros dir vs3 Hm].
  apply materialize_Val in Hm as (-> & -> & G1 & G2 & G3 & G4).
  apply endsIn_bind; [apply runCapture_quiet | intros diff vs4 Hd].
  apply runCapture_Val in Hd as (G5 & -> & ->).
  apply endsIn_bind; [apply runCapture_quiet | intros names vs5 Hn].
  apply runCapture_Val in Hn as (G6 & -> & ->).
  apply endsIn_bind; [apply readFilesWith_quiet | intros files vs6 Hf].
  unfold ReviewAgent.readFiles in Hf. rewrite readFilesWith_spec in Hf.
  cbn in Hf. injection Hf as <- <-.
  apply endsIn_bind; [apply loadPackage_quiet | intros pkg vs7 Hk].
  apply loadPackage_Val in Hk as (Hk & Hr & ->).
  apply endsIn_bind; [apply ReviewAgent_runTests_quiet | intros [] vs8 Hx].
  apply ReviewAgent_runTests_Val in Hx as (Hx & ->).
  right. eexists [], _. repeat split.
  exists pr, pkg. repeat split; try assumption.
  unfold gitSucceeds. now rewrite G1, G2, G3, G4, G5, G6.
Qed.

(** X1.  review-agent.mjs asks the model, or posts a review, only in a run
    in which every earlier check went through: credentials and event context
    are present, the comment opens the gate, the pull request exists and
    comes from the same repository, the six git commands exit zero,
    package.json is read and has a real test script, every command of the
    test stage exits zero, and the completion key is set. *)
Theorem review_only_when_all_checks_pass (w : World) :
  completions (fst (runScript (ReviewAgent.main w))) <> []
  \/ postedReviews (fst (runScript (ReviewAgent.main w))) <> [] ->
  exists pr pkg, reviewConditions w pr pkg.
Proof.
  rewrite runScript_fst.
  destruct (ReviewAgent_main_reaches w {| testOutput := [] |})
    as [[Hc Hp] | (t0 & t1 & [Hc Hp] & -> & R)].
  { intros [H|H]; congruence. }
  destruct R as (pr & pkg & H1 & H2 & H3 & H4 & H5 & H6 & H7 & H8 & ->).
  pose proof (ReviewAgent_review_spec w (contextOf w) pr
                (ReviewAgent.diff (promptArgs w pr pkg))
                (ReviewAgent.changedFileContents (promptArgs w pr pkg))
                {| testOutput := collectedOutput w pkg |}) as E.
  cbv zeta in E. rewrite E. clear E.
  unfold completions, postedReviews in *. rewrite !flat_map_app, Hc, Hp.
  destruct (truthyOpt (OPENAI_API_KEY w)) eqn:Hk; cbn [negb].
  - intros _. exists pr, pkg. unfold reviewConditions. auto 12.
  - cbn. intros [H|H]; congruence.
Qed.

Lemma review_only_when_all_checks_pass_witness :
  exists pr pkg, reviewConditions sampleWorld pr pkg.
Proof.
  apply (review_only_when_all_checks_pass sampleWorld).
  left. vm_compute. discriminate.
Defined.

(** X2.  The run of review-agent.mjs in which every check goes through: it
    falls off the end of the module (exit code 0), posts no comment and
    exactly one review, which is the text of the last answer, a blank line
    and the marker of the head commit; its commands are the six git commands
    followed by those of the test stage; it sends the prompt built from the
    pull request, the diff, the changed files and the test output, and after
    it the retry prompt exactly when the first answer reads as a clean
    verdict. *)
Theorem passing_run_posts_one_review (w : World) (pr : Pull) (pkg : Package) :
  reviewConditions w pr pkg ->
  let args := promptArgs w pr pkg in
  let first := extractReviewText (responses_create w (ReviewAgent.buildPrompt args)) in
  let final :=
    if testIgnoreCase NO_ISSUES first
    then extractReviewText (responses_create w (ReviewAgent.buildRetryPrompt args))
    else first in
  let r := runScript (ReviewAgent.main w) in
  snd r = Exited 0
  /\ comments (fst r) = []
  /\ postedReviews (fst r) = [final ++ NL ++ NL ++ markerOf (head_sha pr)]
  /\ commands (fst r) = gitCommands w pr ++ commands (testTrace w pkg)
  /\ completions (fst r)
     = ReviewAgent.buildPrompt args ::
       (if testIgnoreCase NO_ISSUES first
        then [ReviewAgent.buildRetryPrompt args] else []).
Proof.
  intros (Hc & Ht & Hp & Hs & Hg & Hk & Hr & Hx & Hkey). cbv zeta.
  split; [|split; [|split; [|split]]].
  2-5: rewrite runScript_fst.
  all: unfold runScript;
    rewrite (ReviewAgent_main_prefix w pr _ Hc Ht Hp Hs Hg);
    rewrite (ReviewAgent_tail_tests w pr _ pkg Hk Hr), Hx; cbv zeta;
    pose proof (ReviewAgent_review_spec w (contextOf w) pr
                  (ReviewAgent.diff (promptArgs w pr pkg))
                  (ReviewAgent.changedFileContents (promptArgs w pr pkg))
                  {| testOutput := collectedOutput w pkg |}) as E;
    cbv zeta in E; cbn [promptArgs ReviewAgent.diff ReviewAgent.changedFileContents] in E;
    rewrite E; clear E; rewrite Hkey; cbn [negb fst snd];
    fold (promptArgs w pr pkg);
    destruct (ReviewAgent_prefix_quiet w pr) as (Q1 & Q2 & Q3);
    pose proof (ReviewAgent_prefix_commands w pr) as Q4;
    unfold comments, postedReviews, completions, commands in *.
  - destruct (testIgnoreCase NO_ISSUES _); reflexivity.
  - rewrite flat_map_app, Q1. cbn [flat_map app].
    rewrite flat_map_app, testTrace_unobserved by reflexivity.
    destruct (testIgnoreCase NO_ISSUES _); reflexivity.
  - rewrite flat_map_app, Q3. cbn [flat_map app].
    rewrite flat_map_app, testTrace_unobserved by reflexivity.
    destruct (testIgnoreCase NO_ISSUES _); reflexivity.
  - rewrite flat_map_app, Q4. cbn [flat_map app].
    rewrite flat_map_app. f_equal.
    destruct (testIgnoreCase NO_ISSUES _); cbn; now rewrite app_nil_r.
  - rewrite flat_map_app, Q2. cbn [flat_map app].
    rewrite flat_map_app, testTrace_unobserved by reflexivity.
    destruct (testIgnoreCase NO_ISSUES _); reflexivity.
Qed.

Lemma passing_run_posts_one_review_witness :
  snd (runScript (ReviewAgent.main sampleWorld)) = Exited 0
  /\ comments (fst (runScript (ReviewAgent.main sampleWorld))) = [].
Proof.
  assert (reviewConditions sampleWorld samplePull samplePackage) as H
    by (repeat split; vm_compute; reflexivity).
  pose proof (passing_run_posts_one_review sampleWorld samplePull samplePackage H) as P.
  cbv zeta in P. split; [exact (proj1 P) | exact (proj1 (proj2 P))].
Defined.

Lemma observers_app (t1 t2 : list Action) :
  comments (t1 ++ t2) = comments t1 ++ comments t2
  /\ postedReviews (t1 ++ t2) = postedReviews t1 ++ postedReviews t2
  /\ completions (t1 ++ t2) = completions t1 ++ completions t2
  /\ commands (t1 ++ t2) = commands t1 ++ commands t2.
Proof.
  unfold comments, postedReviews, completions, commands.
  now rewrite !flat_map_app.
Qed.

Lemma bind_result {A B} (m : Script A) (k : A -> Script B) (vs : Vars) :
  bind m k vs
  = match snd (m vs) with
    | Val a vs' => (fst (m vs) ++ fst (k a vs'), snd (k a vs'))
    | Throw e vs' => (fst (m vs), Throw e vs')
    | Exit c => (fst (m vs), Exit c)
    end.
Proof.
  unfold bind. destruct (m vs) as [t [a vs'|e vs'|c]]; cbn [fst snd]; try reflexivity.
  now destruct (k a vs').
Qed.

Lemma stageOK_bind {A B} (m : Script A) (k : A -> Script B) (vs : Vars) :
  stageOK (m vs) -> (forall a vs', stageOK (k a vs')) -> stageOK (bind m k vs).
Proof.
  intros (P & C & M) Hk. rewrite bind_result. revert M.
  destruct (snd (m vs)) as [a vs'|e vs'|c]; intros M; [|now repeat split ..].
  destruct (Hk a vs') as (P' & C' & M'). unfold stageOK. cbn [fst snd].
  destruct (observers_app (fst (m vs)) (fst (k a vs'))) as (-> & -> & -> & _).
  rewrite P, C, M, P', C'. repeat split. exact M'.
Qed.

Lemma tailOK_bind {A B} (m : Script A) (k : A -> Script B) (vs : Vars) :
  stageOK (m vs) -> (forall a vs', tailOK (k a vs')) -> tailOK (bind m k vs).
Proof.
  intros (P & C & M) Hk. rewrite bind_result. unfold tailOK. revert M.
  destruct (snd (m vs)) as [a vs'|e vs'|c]; intros M; cbn [fst snd].
  - specialize (Hk a vs'). unfold tailOK in Hk.
    destruct (observers_app (fst (m vs)) (fst (k a vs'))) as (-> & -> & -> & _).
    rewrite P, C, M. exact Hk.
  - now split.
  - destruct M. now repeat split.
Qed.

Lemma stageOK_emit (a : Action) (vs : Vars) :
  match a with
  | ResponsesCreate _ _ _ | CreateReview _ _ _ _ | CreateComment _ _ _ _ => False
  | _ => True
  end -> stageOK (emit a vs).
Proof. destruct a; intros []; repeat split. Qed.

Lemma stageOK_ret {A} (a : A) (vs : Vars) : stageOK (ret a vs).
Proof. repeat split. Qed.

Lemma stageOK_run (w : World) cmd args dir vs : stageOK (run w cmd args dir vs).
Proof. unfold run, bind, emit. destruct (execFile w cmd args dir); repeat split. Qed.

Lemma stageOK_runCapture (w : World) cmd args dir vs :
  stageOK (runCapture w cmd args dir vs).
Proof. unfold runCapture, bind, emit. destruct (execFile w cmd args dir); repeat split. Qed.

Lemma stageOK_resolvePull (w : World) (c : Context) (vs : Vars) :
  stageOK (resolvePull w c vs).
Proof.
  unfold resolvePull, bind, emit, postComment.
  destruct (pulls_get w) as [pr|]; cbv beta iota;
    [destruct (negb _)|]; repeat split; cbn; lia.
Qed.

Lemma stageOK_materialize (w : World) c pr vs : stageOK (materialize w c pr vs).
Proof.
  unfold materialize. cbv zeta.
  repeat (apply stageOK_bind; [first [now apply stageOK_emit | apply stageOK_run]|intros]).
  apply stageOK_ret.
Qed.

Lemma stageOK_readFilesWith render (w : World) files dir vs :
  stageOK (readFilesWith render w files dir vs).
Proof.
  rewrite readFilesWith_spec. unfold stageOK, postedReviews, completions, comments.
  cbn [fst snd]. now rewrite !readTrace_unobserved by reflexivity.
Qed.

Lemma stageOK_loadPackage (w : World) c dir vs : stageOK (loadPackage w c dir vs).
Proof.
  unfold loadPackage, bind, tryCatch, emit, postComment. cbv zeta beta iota.
  destruct (read_package w _) as [pkg|]; [|repeat split; cbn; lia].
  cbn. destruct (_ || _); repeat split; cbn; lia.
Qed.

Lemma stageOK_installAndTest (w : World) pkg dir vs :
  stageOK (installAndTest w pkg dir vs).
Proof.
  unfold installAndTest, appendTestOutput.
  repeat (apply stageOK_bind;
          [first [apply stageOK_runCapture | apply stageOK_ret
                 | destruct (usesPlaywright pkg) ]
          | intros]);
    try apply stageOK_ret; try (repeat split; fail).
  all: repeat (apply stageOK_bind; [first [apply stageOK_runCapture | repeat split]|intros]);
    repeat split.
Qed.

Lemma stageOK_ReviewAgent_runTests (w : World) c pkg dir vs :
  stageOK (ReviewAgent.runTests w c pkg dir vs).
Proof.
  unfold ReviewAgent.runTests.
  apply stageOK_bind; [repeat split|intros _ vs'].
  unfold tryCatch.
  pose proof (stageOK_installAndTest w pkg dir vs') as (P & C & M).
  destruct (installAndTest w pkg dir vs') as [t [a v|e v|code]]; cbn [fst snd] in *;
    try (now repeat split).
  cbn. rewrite app_nil_r. now repeat split.
Qed.

Lemma tailOK_ReviewAgent_review (w : World) c pr diff files vs :
  tailOK (ReviewAgent.review w c pr diff files vs).
Proof.
  pose proof (ReviewAgent_review_spec w c pr diff files vs) as E. cbv zeta in E.
  rewrite E. destruct (negb _); [repeat split; cbn; lia|].
  destruct (testIgnoreCase NO_ISSUES _); repeat split.
Qed.

Lemma contextFailure_silent (w : World) :
  comments (contextFailure w) = [] /\ postedReviews (contextFailure w) = []
  /\ completions (contextFailure w) = [] /\ commands (contextFailure w) = [].
Proof.
  unfold contextFailure, contextTrace.
  destruct (negb _); [repeat split|]. destruct (negb _); repeat split.
Qed.

(** X3.  What a run of review-agent.mjs can leave behind, whatever the
    world: exit code 0 with no comment and either exactly one review or no
    review, no completion request and no command (the gate was closed); exit
    code 1 with no review, no completion request and at most one comment; or
    an uncaught exception with no comment and no review.  No other exit code
    occurs. *)
Theorem ReviewAgent_run_outcomes (w : World) : runOK (runScript (ReviewAgent.main w)).
Proof.
  unfold runScript, ReviewAgent.main.
  destruct (hasContext w) eqn:Hc.
  2:{ rewrite (bind_Exit _ _ _ _ _ (readContext_stop w _ Hc)).
      destruct (contextFailure_silent w) as (Q1 & Q2 & Q3 & Q4).
      unfold runOK. cbn [fst snd]. rewrite Q1, Q2, Q3. repeat split. cbn. lia. }
  rewrite (bind_Val _ _ _ _ _ _ (readContext_ok w _ Hc)).
  destruct (ReviewAgent.matchesTrigger (ctx_comment (contextOf w))); cbn [negb].
  2:{ cbn. unfold runOK. cbn. split; [reflexivity|]. right. now repeat split. }
  match goal with |- context [snd ?r] => set (R := r) end.
  assert (tailOK R) as T.
  { apply tailOK_bind; [apply stageOK_resolvePull | intros pr vs2].
    apply tailOK_bind; [apply stageOK_materialize | intros dir vs3].
    apply tailOK_bind; [apply stageOK_runCapture | intros diff vs4].
    apply tailOK_bind; [apply stageOK_runCapture | intros names vs5].
    apply tailOK_bind; [apply stageOK_readFilesWith | intros files vs6].
    apply tailOK_bind; [apply stageOK_loadPackage | intros pkg vs7].
    apply tailOK_bind; [apply stageOK_ReviewAgent_runTests | intros [] vs8].
    apply tailOK_ReviewAgent_review. }
  clearbody R. destruct R as [t [[] v|e v|code]]; unfold tailOK in T;
    cbn [fst snd] in *; unfold runOK; cbn [fst snd];
    destruct (observers_app (contextTrace w) t) as (E1 & E2 & E3 & _);
    rewrite ?E1, ?E2, ?E3; cbn [app].
  - destruct T as [-> T]. split; [reflexivity|]. now left.
  - exact T.
  - destruct T as (-> & T). repeat split; apply T.
Qed.

(** * The guards of review-agent.mjs after the checkout *)

Lemma placeholderScript_not_real (pkg : Package) :
  placeholderScript pkg -> realTestScript pkg = false.
Proof.
  unfold realTestScript. intros [->|[->|(pre & occ & post & -> & H)]]; try reflexivity.
  cbn [truthyOpt orDefault]. rewrite orElse_nil_r.
  unfold testIgnoreCase. rewrite !List.map_app, H, includes_app.
  apply andb_false_r.
Qed.

Lemma loadPackage_stub (w : World) (c : Context) (dir : jsstring) (vs : Vars) pkg :
  read_package w (path_join dir (lit "package.json")) = Some pkg ->
  realTestScript pkg = false ->
  loadPackage w c dir vs
  = ([FsReadFile (path_join dir (lit "package.json"));
      CreateComment (ctx_owner c) (ctx_repo c) (ctx_issue c) noTestScriptMessage],
     Exit 1).
Proof.
  unfold loadPackage, bind, tryCatch, realTestScript.
  intros -> H. cbn.
  destruct (truthyOpt (scripts_test pkg)); cbn in *; [|reflexivity].
  apply negb_false_iff in H. now rewrite H.
Qed.

(** X4.  review-agent.mjs, lines 99-108: when the test script of the
    manifest is missing, empty, or holds the text [no test specified] in any
    letter case, the run that got that far posts the one comment that asks
    for a real test script and exits with code 1; it has started the six git
    commands and no other, and asks nothing of the model. *)
Theorem placeholder_test_script_is_refused (w : World) (pr : Pull) (pkg : Package) :
  hasContext w = true ->
  ReviewAgent.matchesTrigger (ctx_comment (contextOf w)) = true ->
  pulls_get w = Some pr ->
  head_repo_full_name pr = base_repo_full_name pr ->
  gitSucceeds w pr = true ->
  read_package w (packagePath w) = Some pkg ->
  placeholderScript pkg ->
  let c := contextOf w in
  let r := runScript (ReviewAgent.main w) in
  r = (ReviewAgent_prefix w pr
         ++ [FsReadFile (packagePath w);
             CreateComment (ctx_owner c) (ctx_repo c) (ctx_issue c)
               noTestScriptMessage],
       Exited 1)
  /\ comments (fst r) = [noTestScriptMessage]
  /\ commands (fst r) = gitCommands w pr
  /\ completions (fst r) = []
  /\ postedReviews (fst r) = [].
Proof.
  intros Hc Ht Hp Hs Hg Hk Hph. cbv zeta.
  apply placeholderScript_not_real in Hph.
  assert (runScript (ReviewAgent.main w)
          = (ReviewAgent_prefix w pr
               ++ [FsReadFile (packagePath w);
                   CreateComment (ctx_owner (contextOf w)) (ctx_repo (contextOf w))
                     (ctx_issue (contextOf w)) noTestScriptMessage],
             Exited 1)) as ->.
  { unfold runScript.
    rewrite (ReviewAgent_main_prefix w pr _ Hc Ht Hp Hs Hg).
    unfold ReviewAgent_tail. cbv zeta.
    now rewrite (bind_Exit _ _ _ _ _ (loadPackage_stub w _ _ _ pkg Hk Hph)). }
  destruct (ReviewAgent_prefix_quiet w pr) as (Q1 & Q2 & Q3).
  pose proof (ReviewAgent_prefix_commands w pr) as Q4.
  cbn [fst]. destruct (observers_app (ReviewAgent_prefix w pr)
    [FsReadFile (packagePath w);
     CreateComment (ctx_owner (contextOf w)) (ctx_repo (contextOf w))
       (ctx_issue (contextOf w)) noTestScriptMessage]) as (-> & -> & -> & ->).
  rewrite Q1, Q2, Q3, Q4. cbn. rewrite ?app_nil_r. repeat split; reflexivity.
Qed.

Lemma placeholder_test_script_is_refused_witness :
  comments (fst (runScript (ReviewAgent.main stubWorld))) = [noTestScriptMessage]
  /\ commands (fst (runScript (ReviewAgent.main stubWorld)))
     = gitCommands stubWorld samplePull
  /\ completions (fst (runScript (ReviewAgent.main stubWorld))) = []
  /\ postedReviews (fst (runScript (ReviewAgent.main stubWorld))) = [].
Proof.
  refine (proj2 (placeholder_test_script_is_refused stubWorld samplePull stubPackage
                   _ _ _ _ _ _ _)); try (vm_compute; reflexivity).
  right. right.
  exists (lit "echo " ++ QUOTE ++ lit "Error: "), (lit "no test specified"),
    (QUOTE ++ lit " && exit 1").
  split; reflexivity.
Defined.

(** X5.  review-agent.mjs tests the completion key only after the test
    stage (lines 132-140): with the key unset, a run in which everything
    else goes through still checks the head commit out and runs the commands
    of the test stage, [npm test] included; then it posts the comment about
    the key and exits with code 1, without a completion request or a
    review. *)
Theorem missing_key_is_reported_after_tests (w : World) (pr : Pull) (pkg : Package) :
  hasContext w = true ->
  ReviewAgent.matchesTrigger (ctx_comment (contextOf w)) = true ->
  pulls_get w = Some pr ->
  head_repo_full_name pr = base_repo_full_name pr ->
  gitSucceeds w pr = true ->
  read_package w (packagePath w) = Some pkg ->
  realTestScript pkg = true ->
  testsPass w pkg = true ->
  truthyOpt (OPENAI_API_KEY w) = false ->
  let c := contextOf w in
  let r := runScript (ReviewAgent.main w) in
  r = (ReviewAgent_prefix w pr ++ FsReadFile (packagePath w) :: testTrace w pkg
         ++ [CreateComment (ctx_owner c) (ctx_repo c) (ctx_issue c) noKeyMessage],
       Exited 1)
  /\ comments (fst r) = [noKeyMessage]
  /\ commands (fst r) = gitCommands w pr ++ commands (testTrace w pkg)
  /\ In (NPM, [lit "test"]) (commands (fst r))
  /\ completions (fst r) = []
  /\ postedReviews (fst r) = [].
Proof.
  intros Hc Ht Hp Hs Hg Hk Hr Hx Hkey. cbv zeta.
  assert (runScript (ReviewAgent.main w)
          = (ReviewAgent_prefix w pr ++ FsReadFile (packagePath w) :: testTrace w pkg
               ++ [CreateComment (ctx_owner (contextOf w)) (ctx_repo (contextOf w))
                     (ctx_issue (contextOf w)) noKeyMessage],
             Exited 1)) as ->.
  { unfold runScript.
    rewrite (ReviewAgent_main_prefix w pr _ Hc Ht Hp Hs Hg).
    rewrite (ReviewAgent_tail_tests w pr _ pkg Hk Hr), Hx. cbv zeta.
    pose proof (ReviewAgent_review_spec w (contextOf w) pr
                  (ReviewAgent.diff (promptArgs w pr pkg))
                  (ReviewAgent.changedFileContents (promptArgs w pr pkg))
                  {| testOutput := collectedOutput w pkg |}) as E.
    cbv zeta in E. cbn [promptArgs ReviewAgent.diff ReviewAgent.changedFileContents] in E.
    rewrite E, Hkey. reflexivity. }
  destruct (ReviewAgent_prefix_quiet w pr) as (Q1 & Q2 & Q3).
  pose proof (ReviewAgent_prefix_commands w pr) as Q4.
  cbn [fst].
  match goal with
  | |- context [comments (?a ++ ?b)] =>
      destruct (observers_app a b) as (-> & -> & -> & ->)
  end.
  rewrite Q1, Q2, Q3, Q4.
  change (FsReadFile (packagePath w) :: testTrace w pkg ++ ?x)
    with ([FsReadFile (packagePath w)] ++ testTrace w pkg ++ x).
  repeat match goal with
  | |- context [comments (?a ++ ?b)] =>
      destruct (observers_app a b) as (-> & -> & -> & ->)
  end.
  unfold comments at 2, postedReviews at 2, completions at 2.
  rewrite !testTrace_unobserved by reflexivity.
  cbn [comments postedReviews completions commands flat_map app].
  rewrite !app_nil_r.
  repeat split; try reflexivity.
  apply in_or_app. right. rewrite testTrace_commands.
  unfold testsPass in Hx. cbv zeta in Hx.
  apply andb_prop in Hx as [[H1 H2]%andb_prop H3]. rewrite H1.
  destruct (usesPlaywright pkg); cbn [negb orb] in H2; [rewrite H2|]; cbn; auto.
Qed.

Lemma missing_key_is_reported_after_tests_witness :
  comments (fst (runScript (ReviewAgent.main noKeyWorld))) = [noKeyMessage]
  /\ In (NPM, [lit "test"]) (commands (fst (runScript (ReviewAgent.main noKeyWorld)))).
Proof.
  assert (truthyOpt (OPENAI_API_KEY noKeyWorld) = false) as K by reflexivity.
  pose proof (missing_key_is_reported_after_tests noKeyWorld samplePull samplePackage
                ltac:(vm_compute; reflexivity) ltac:(vm_compute; reflexivity)
                ltac:(vm_compute; reflexivity) ltac:(vm_compute; reflexivity)
                ltac:(vm_compute; reflexivity) ltac:(vm_compute; reflexivity)
                ltac:(vm_compute; reflexivity) ltac:(vm_compute; reflexivity) K) as P.
  cbv zeta in P. split; [exact (proj1 (proj2 P)) | exact (proj1 (proj2 (proj2 (proj2 P))))].
Defined.

(** * Failing commands, closed gates, and the second document of part_000 *)

Lemma run_fail (w : World) cmd args dir vs :
  exitsZero (execFile w cmd args dir) = false ->
  run w cmd args dir vs
  = ([ExecFile cmd args dir],
     Throw {| err_string := messageOf (execFile w cmd args dir);
              err_output := None |} vs).
Proof. unfold run. now destruct (execFile w cmd args dir). Qed.

Lemma materialize_fails (w : World) (c : Context) (pr : Pull) (vs : Vars) :
  exitsZero (execFile w GIT [lit "init"] (workDirOf w))
  && exitsZero (execFile w GIT [lit "remote"; lit "add"; lit "origin"; repoUrlOf c]
                  (workDirOf w))
  && exitsZero (execFile w GIT (fetchArgs (base_sha pr) (head_sha pr)) (workDirOf w))
  && exitsZero (execFile w GIT (checkoutArgs (head_sha pr)) (workDirOf w)) = false ->
  exists e t, materialize w c pr vs = (t, Throw e vs) /\ forallb gitOrFs t = true.
Proof.
  unfold materialize, bind, run, emit, ret, throw. cbv zeta.
  destruct (execFile w GIT [lit "init"] (workDirOf w));
    [|intros _; eexists _, _; split; reflexivity].
  destruct (execFile w GIT [lit "remote"; lit "add"; lit "origin"; repoUrlOf c]
              (workDirOf w));
    [|intros _; eexists _, _; split; reflexivity].
  destruct (execFile w GIT (fetchArgs (base_sha pr) (head_sha pr)) (workDirOf w));
    [|intros _; eexists _, _; split; reflexivity].
  destruct (execFile w GIT (checkoutArgs (head_sha pr)) (workDirOf w));
    [|intros _; eexists _, _; split; reflexivity].
  discriminate.
Qed.

Lemma checkoutTrace_gitOrFs (w : World) (pr : Pull) :
  forallb gitOrFs (checkoutTrace w pr) = true.
Proof. reflexivity. Qed.

(** X6.  review-agent.mjs, lines 66-79: when one of the six git commands
    exits non-zero the run ends in an uncaught exception; after it fetched
    the pull request it has only removed and created the working directory
    and started git commands, so no comment and no review is posted, nothing
    is installed or tested, and the model is not asked. *)
Theorem git_failure_is_fatal_and_silent (w : World) (pr : Pull) :
  hasContext w = true ->
  ReviewAgent.matchesTrigger (ctx_comment (contextOf w)) = true ->
  pulls_get w = Some pr ->
  head_repo_full_name pr = base_repo_full_name pr ->
  gitSucceeds w pr = false ->
  exists e t,
    runScript (ReviewAgent.main w) = (contextTrace w ++ pullTrace w ++ t, Uncaught e)
    /\ forallb gitOrFs t = true.
Proof.
  intros Hc Ht Hp Hs Hg. unfold runScript, ReviewAgent.main.
  rewrite (bind_Val _ _ _ _ _ _ (readContext_ok w _ Hc)). rewrite Ht. cbn [negb].
  rewrite (bind_Val _ _ _ _ _ _ (resolvePull_ok w _ pr _ Hp Hs)).
  cbn [fst snd]. fold (pullTrace w).
  destruct (exitsZero (execFile w GIT [lit "init"] (workDirOf w))
            && exitsZero (execFile w GIT
                 [lit "remote"; lit "add"; lit "origin"; repoUrlOf (contextOf w)]
                 (workDirOf w))
            && exitsZero (execFile w GIT (fetchArgs (base_sha pr) (head_sha pr))
                 (workDirOf w))
            && exitsZero (execFile w GIT (checkoutArgs (head_sha pr)) (workDirOf w)))
    eqn:G.
  2:{ destruct (materialize_fails w (contextOf w) pr {| testOutput := [] |} G)
        as (e & t & E & F).
      rewrite (bind_Throw _ _ _ _ _ _ E). cbn [fst snd]. now exists e, t. }
  assert (materialize w (contextOf w) pr {| testOutput := [] |}
          = (checkoutTrace w pr, Val (workDirOf w) {| testOutput := [] |})) as E.
  { apply andb_prop in G as [[[H1 H2]%andb_prop H3]%andb_prop H4].
    unfold checkoutTrace, materialize, bind, run, emit, ret, throw. cbv zeta.
    destruct (execFile w GIT [lit "init"] (workDirOf w)); [|discriminate H1].
    destruct (execFile w GIT
                [lit "remote"; lit "add"; lit "origin"; repoUrlOf (contextOf w)]
                (workDirOf w)); [|discriminate H2].
    destruct (execFile w GIT (fetchArgs (base_sha pr) (head_sha pr)) (workDirOf w));
      [|discriminate H3].
    destruct (execFile w GIT (checkoutArgs (head_sha pr)) (workDirOf w));
      [|discriminate H4].
    reflexivity. }
  rewrite (bind_Val _ _ _ _ _ _ E). cbn [fst snd].
  unfold gitSucceeds in Hg. cbv zeta in Hg. rewrite G in Hg. cbn [andb] in Hg.
  destruct (exitsZero (execFile w GIT (diffArgs (base_sha pr) (head_sha pr))
              (workDirOf w))) eqn:Hd.
  2:{ rewrite (bind_Throw _ _ _ _ _ _ (runCapture_fail w _ _ _ _ Hd)).
      cbn [fst snd]. eexists _, _. split; [reflexivity|].
      rewrite forallb_app, checkoutTrace_gitOrFs. reflexivity. }
  rewrite (bind_Val _ _ _ _ _ _ (runCapture_ok w _ _ _ _ Hd)). cbn [fst snd].
  cbn [andb] in Hg.
  rewrite (bind_Throw _ _ _ _ _ _ (runCapture_fail w _ _ _ _ Hg)).
  cbn [fst snd]. eexists _, _. split; [reflexivity|].
  rewrite forallb_app, checkoutTrace_gitOrFs. reflexivity.
Qed.

Lemma git_failure_is_fatal_and_silent_witness :
  exists e t,
    runScript (ReviewAgent.main fetchFailsWorld)
    = (contextTrace fetchFailsWorld ++ pullTrace fetchFailsWorld ++ t, Uncaught e)
    /\ forallb gitOrFs t = true.
Proof.
  apply (git_failure_is_fatal_and_silent fetchFailsWorld samplePull);
    vm_compute; reflexivity.
Defined.

(** X7.  review-agent.mjs, lines 13-43: when credentials or event context
    are missing, the run writes one line to the console and exits with code
    1, having read the event file at most; when they are present and the
    comment does not open the gate, it reads the event file, logs that the
    trigger was not found and exits with code 0.  Either way nothing is
    asked of the host API, the shell or the model. *)
Theorem nothing_is_touched_without_context_or_trigger (w : World) :
  hasContext w = false
  \/ ReviewAgent.matchesTrigger (ctx_comment (contextOf w)) = false ->
  runScript (ReviewAgent.main w)
  = if hasContext w
    then (contextTrace w ++ [GATE_CLOSED], Exited 0)
    else (contextFailure w, Exited 1).
Proof.
  intros H. unfold runScript, ReviewAgent.main.
  destruct (hasContext w) eqn:Hc.
  - destruct H as [H|H]; [discriminate|].
    rewrite (bind_Val _ _ _ _ _ _ (readContext_ok w _ Hc)). rewrite H. reflexivity.
  - now rewrite (bind_Exit _ _ _ _ _ (readContext_stop w _ Hc)).
Qed.

Lemma nothing_is_touched_without_context_or_trigger_witness :
  runScript (ReviewAgent.main idleWorld)
  = if hasContext idleWorld
    then (contextTrace idleWorld ++ [GATE_CLOSED], Exited 0)
    else (contextFailure idleWorld, Exited 1).
Proof.
  apply (nothing_is_touched_without_context_or_trigger idleWorld).
  right. vm_compute. reflexivity.
Defined.

(** ** The second document of part_000 *)

Lemma stageOK_Part000b_runTests (w : World) c pkg dir vs :
  stageOK (Part000b.runTests w c pkg dir vs).
Proof.
  unfold Part000b.runTests.
  apply stageOK_bind; [repeat split|intros _ vs'].
  unfold tryCatch.
  pose proof (stageOK_installAndTest w pkg dir vs') as (P & C & M).
  destruct (installAndTest w pkg dir vs') as [t [a v|e v|code]]; cbn [fst snd] in *;
    try (now repeat split).
  cbn [getTestOutput bind postComment emit exit fst snd app].
  unfold stageOK. cbn [fst snd].
  destruct (observers_app t
    [CreateComment (ctx_owner c) (ctx_repo c) (ctx_issue c)
       (testFailedMessage
          (Part000b.truncate
             (orElse (orDefault (err_output e) []) (orElse (testOutput v) (err_string e)))
             Part000b.MAX_TEST_CHARS))]) as (E1 & E2 & E3 & _).
  unfold bind, getTestOutput, postComment, emit, exit. cbn [fst snd app].
  rewrite E1, E2, E3, P, C, M. repeat split. cbn. lia.
Qed.

Lemma tailOK_Part000b_review (w : World) c pr diff vs :
  tailOK (Part000b.review w c pr diff vs).
Proof.
  pose proof (Part000b_review_spec w c pr diff vs) as E. cbv zeta in E.
  rewrite E. destruct (negb _); repeat split; cbn; lia.
Qed.

(** X8.  The second document of part_000: a run can leave behind what a
    run of review-agent.mjs can (exit code 0 with one review, or with
    nothing posted, asked or started; exit code 1 with at most one comment;
    an uncaught exception with nothing posted).  Here exit code 0 without a
    review is also how a run ends whose head commit already carries a
    review. *)
Theorem Part000b_run_outcomes (w : World) : runOK (runScript (Part000b.main w)).
Proof.
  unfold runScript, Part000b.main.
  destruct (hasContext w) eqn:Hc.
  2:{ rewrite (bind_Exit _ _ _ _ _ (readContext_stop w _ Hc)).
      destruct (contextFailure_silent w) as (Q1 & Q2 & Q3 & Q4).
      unfold runOK. cbn [fst snd]. rewrite Q1, Q2, Q3. repeat split. cbn. lia. }
  rewrite (bind_Val _ _ _ _ _ _ (readContext_ok w _ Hc)).
  destruct (includes (ctx_comment (contextOf w)) TRIGGER); cbn [negb].
  2:{ cbn. unfold runOK. cbn. split; [reflexivity|]. right. now repeat split. }
  rewrite bind_result.
  pose proof (stageOK_resolvePull w (contextOf w) {| testOutput := [] |}) as (P & C & M).
  destruct (snd (resolvePull w (contextOf w) {| testOutput := [] |}))
    as [pr vs2|e vs2|code] eqn:Hr.
  2:{ cbn [fst snd]. unfold runOK. cbn [fst snd].
      destruct (observers_app (contextTrace w)
                  (fst (resolvePull w (contextOf w) {| testOutput := [] |})))
        as (E1 & E2 & E3 & _).
      rewrite E1, E2, M, P. now split. }
  2:{ cbn [fst snd]. unfold runOK. cbn [fst snd].
      destruct (observers_app (contextTrace w)
                  (fst (resolvePull w (contextOf w) {| testOutput := [] |})))
        as (E1 & E2 & E3 & _).
      destruct M as [-> M]. rewrite E1, E2, E3, P, C. now repeat split. }
  assert (fst (resolvePull w (contextOf w) {| testOutput := [] |}) = pullTrace w) as Et.
  { unfold resolvePull, bind, emit in *. destruct (pulls_get w); [|discriminate Hr].
    cbv beta iota in *. destruct (negb _); [discriminate Hr | reflexivity]. }
  rewrite Et. cbv zeta.
  rewrite (bind_Val (emit _) _ _ [_] tt _ eq_refl).
  destruct (Part000b.alreadyReviewed w (markerOf (head_sha pr))).
  { cbn. unfold runOK. cbn. split; [reflexivity|]. right. now repeat split. }
  match goal with |- context [bind ?m ?k ?v] => set (R := bind m k v) end.
  assert (tailOK R) as T.
  { apply tailOK_bind; [apply stageOK_materialize | intros dir vs3].
    apply tailOK_bind; [apply stageOK_runCapture | intros diff vs4].
    apply tailOK_bind; [apply stageOK_loadPackage | intros pkg vs7].
    apply tailOK_bind; [apply stageOK_Part000b_runTests | intros [] vs8].
    apply tailOK_Part000b_review. }
  clearbody R. destruct R as [t [[] v|e v|code]]; unfold tailOK in T;
    cbn [fst snd] in *; unfold runOK; cbn [fst snd];
    unfold comments, postedReviews, completions in *;
    rewrite ?flat_map_app; cbn [flat_map app pullTrace].
  - destruct T as [-> T]. split; [reflexivity|]. now left.
  - exact T.
  - destruct T as (-> & T). repeat split; apply T.
Qed.

(** X9.  The second document of part_000, lines 273-291: once a run has
    posted a review for a pull request, a later run for the same pull
    request that finds that review among the existing ones stops right
    after listing them: it logs that the review exists and exits with code
    0, with no checkout, no test run and no completion request. *)
Theorem Part000b_redelivery_is_a_no_op (w1 w2 : World) (pr : Pull) (b : jsstring) :
  pulls_get w1 = Some pr ->
  In b (postedReviews (fst (runScript (Part000b.main w1)))) ->
  hasContext w2 = true ->
  includes (ctx_comment (contextOf w2)) TRIGGER = true ->
  pulls_get w2 = Some pr ->
  In {| review_body := Some b |} (pulls_listReviews w2) ->
  let c := contextOf w2 in
  runScript (Part000b.main w2)
  = (contextTrace w2 ++ pullTrace w2
       ++ [ListReviews (ctx_owner c) (ctx_repo c) (ctx_issue c);
           ConsoleLog (lit "Review already exists for this commit. Exiting.")],
     Exited 0).
Proof.
  intros H1 Hb Hc Ht H2 Hin.
  assert (head_repo_full_name pr = base_repo_full_name pr
          /\ Part000b.alreadyReviewed w2 (markerOf (head_sha pr)) = true) as [Hs Ha].
  { rewrite runScript_fst in Hb.
    destruct (Part000b_main_endsIn w1 {| testOutput := [] |})
      as [[_ Hq] | (t0 & t1 & [_ Hp] & E & (c & pr' & diff & vs & Hpr & Ha' & ->))].
    { rewrite Hq in Hb. destruct Hb. }
    rewrite E in Hb. rewrite H1 in Hpr. injection Hpr as <-.
    pose proof (Part000b_review_spec w1 c pr diff vs) as S. cbv zeta in S.
    rewrite S in Hb. unfold postedReviews in Hb. rewrite flat_map_app in Hb.
    fold (postedReviews t0) in Hb. rewrite Hp in Hb.
    destruct (negb (truthyOpt (OPENAI_API_KEY w1))); [destruct Hb|].
    destruct Hb as [<-|[]].
    split.
    - destruct (bool_decide (head_repo_full_name pr = base_repo_full_name pr)) eqn:D;
        [now apply bool_decide_eq_true_1 in D|].
      exfalso.
      assert (postedReviews (fst (Part000b.main w1 {| testOutput := [] |})) = []) as N.
      { unfold Part000b.main.
        destruct (hasContext w1) eqn:Hc1.
        2:{ rewrite (bind_Exit _ _ _ _ _ (readContext_stop w1 _ Hc1)).
            apply contextFailure_silent. }
        rewrite (bind_Val _ _ _ _ _ _ (readContext_ok w1 _ Hc1)).
        destruct (negb _); [reflexivity|].
        apply bool_decide_eq_false_1 in D.
        rewrite (bind_Exit _ _ _ _ _ (resolvePull_fork w1 _ pr _ H1 D)).
        reflexivity. }
      rewrite E in N. unfold postedReviews in N. rewrite flat_map_app in N.
      rewrite S in N. apply app_eq_nil in N as [_ N].
      destruct (negb (truthyOpt (OPENAI_API_KEY w1))); discriminate N.
    - replace (extractReviewText _ ++ NL ++ NL ++ markerOf (head_sha pr))
        with ((extractReviewText
                 (responses_create w1
                    (Part000b.buildPrompt (pr_title pr) (orDefault (pr_body pr) [])
                       (Part000b.truncate diff Part000b.MAX_DIFF_CHARS)
                       (Part000b.truncate (testOutput vs) Part000b.MAX_TEST_CHARS)))
               ++ NL ++ NL) ++ markerOf (head_sha pr)) in Hin
        by now rewrite <- !app_assoc.
      exact (alreadyReviewed_In _ _ _ Hin). }
  exact (Part000b_already_reviewed_stops w2 pr Hc Ht H2 Hs Ha).
Qed.

Lemma Part000b_redelivery_is_a_no_op_witness :
  snd (runScript
         (Part000b.main
            (withReview (lit "No issues found. Tests passed." ++ NL ++ NL
                           ++ markerOf (lit "abc123")) sampleWorld)))
  = Exited 0.
Proof.
  rewrite (Part000b_redelivery_is_a_no_op sampleWorld
             (withReview (lit "No issues found. Tests passed." ++ NL ++ NL
                            ++ markerOf (lit "abc123")) sampleWorld)
             samplePull
             (lit "No issues found. Tests passed." ++ NL ++ NL ++ markerOf (lit "abc123")));
    try (vm_compute; reflexivity).
  - vm_compute. left. reflexivity.
  - left. reflexivity.
Defined.

(** * Sizes, and the module body of the first document of part_000 *)

Lemma Part000b_truncate_length (text : jsstring) (n : Z) :
  (0 <= n)%Z ->
  (Z.of_nat (length (Part000b.truncate text n)) <= n + 16)%Z.
Proof.
  intros Hn. unfold Part000b.truncate.
  destruct (negb (truthy text)); [simpl; lia|].
  destruct (Z.leb_spec (Z.of_nat (length text)) n); [lia|].
  unfold slice0. destruct (Z.ltb_spec n 0); [lia|].
  rewrite !length_app, length_firstn.
  change (length NL) with 1%nat.
  change (length (lit "...truncated...")) with 15%nat. lia.
Qed.

Lemma orElse_length (x d : jsstring) (n : Z) :
  (Z.of_nat (length x) <= n)%Z -> (Z.of_nat (length d) <= n)%Z ->
  (Z.of_nat (length (orElse x d)) <= n)%Z.
Proof. unfold orElse. now destruct (truthy x). Qed.

Lemma Part000b_buildPrompt_length (title body diff out : jsstring) :
  Z.of_nat (length (Part000b.buildPrompt title body diff out))
  = (470 + Z.of_nat (length title) + Z.of_nat (length (orElse body (lit "(none)")))
     + Z.of_nat (length (orElse out (lit "(no output)")))
     + Z.of_nat (length (orElse diff (lit "(no diff)"))))%Z.
Proof.
  unfold Part000b.buildPrompt. cbn [join]. rewrite !length_app.
  repeat match goal with
  | |- context [length (lit ?s)] =>
      let n := eval vm_compute in (length (lit s)) in
      change (length (lit s)) with n
  end.
  change (length NL) with 1%nat. change (length QUOTE) with 1%nat.
  change (length (@nil N)) with 0%nat. lia.
Qed.

Lemma Part000b_prompt_bound (title body diff out : jsstring) :
  (Z.of_nat (length (Part000b.buildPrompt title body
             (Part000b.truncate diff Part000b.MAX_DIFF_CHARS)
             (Part000b.truncate out Part000b.MAX_TEST_CHARS)))
   <= 20508 + Z.of_nat (length title) + Z.of_nat (length body))%Z.
Proof.
  rewrite Part000b_buildPrompt_length.
  pose proof (Part000b_truncate_length diff Part000b.MAX_DIFF_CHARS ltac:(discriminate)) as Hd.
  pose proof (Part000b_truncate_length out Part000b.MAX_TEST_CHARS ltac:(discriminate)) as Ho.
  unfold Part000b.MAX_DIFF_CHARS in Hd at 2. unfold Part000b.MAX_TEST_CHARS in Ho at 2.
  pose proof (orElse_length _ (lit "(no diff)") _ Hd
                ltac:(change (length (lit "(no diff)")) with 9%nat; lia)).
  pose proof (orElse_length _ (lit "(no output)") _ Ho
                ltac:(change (length (lit "(no output)")) with 11%nat; lia)).
  assert (Z.of_nat (length (orElse body (lit "(none)")))
          <= Z.of_nat (length body) + 6)%Z.
  { unfold orElse. destruct (truthy body); [lia|].
    change (length (lit "(none)")) with 6%nat. lia. }
  lia.
Qed.

Lemma all_bind {A B} (P : Action -> Prop) (m : Script A) (k : A -> Script B)
    (vs : Vars) :
  Forall P (fst (m vs)) ->
  (forall a vs', snd (m vs) = Val a vs' -> Forall P (fst (k a vs'))) ->
  Forall P (fst (bind m k vs)).
Proof.
  intros Hm Hk. rewrite bind_result.
  destruct (snd (m vs)) as [a vs'|e vs'|c] eqn:E; cbn [fst]; try exact Hm.
  apply Forall_app. split; [exact Hm | now apply Hk].
Qed.

Lemma all_tryCatch {A} (P : Action -> Prop) (m : Script A) (h : Error -> Script A)
    (vs : Vars) :
  Forall P (fst (m vs)) ->
  (forall e vs', Forall P (fst (h e vs'))) ->
  Forall P (fst (tryCatch m h vs)).
Proof.
  intros Hm Hh. unfold tryCatch.
  destruct (m vs) as [t [a v|e v|c]]; cbn [fst] in *; try exact Hm.
  specialize (Hh e v). destruct (h e v). cbn [fst] in *.
  apply Forall_app. now split.
Qed.

Lemma bounded_readContext (w : World) (vs : Vars) :
  Forall (bounded w) (fst (readContext w vs)).
Proof.
  unfold readContext, bind, emit, exit, ret.
  repeat (destruct (negb _) || destruct (_ || _)); bounded_list.
Qed.

Lemma bounded_resolvePull (w : World) c (vs : Vars) :
  Forall (bounded w) (fst (resolvePull w c vs)).
Proof.
  unfold resolvePull, bind, emit, exit, ret, postComment.
  destruct (pulls_get w); cbv beta iota; [destruct (negb _)|]; bounded_list.
Qed.

Lemma bounded_run (w : World) cmd args dir vs :
  Forall (bounded w) (fst (run w cmd args dir vs)).
Proof. unfold run, bind, emit, ret, throw. destruct (execFile w cmd args dir); bounded_list. Qed.

Lemma bounded_runCapture (w : World) cmd args dir vs :
  Forall (bounded w) (fst (runCapture w cmd args dir vs)).
Proof.
  unfold runCapture, bind, emit, ret, throw.
  destruct (execFile w cmd args dir); bounded_list.
Qed.

Lemma bounded_materialize (w : World) c pr vs :
  Forall (bounded w) (fst (materialize w c pr vs)).
Proof.
  unfold materialize. cbv zeta.
  repeat (apply all_bind; [first [apply bounded_run | unfold emit; bounded_list]|intros]).
  constructor.
Qed.

Lemma bounded_loadPackage (w : World) c dir vs :
  Forall (bounded w) (fst (loadPackage w c dir vs)).
Proof.
  unfold loadPackage, bind, tryCatch, emit, postComment, ret, throw, exit.
  cbv zeta beta iota.
  destruct (read_package w _) as [pkg|]; [|bounded_list].
  cbv beta iota. destruct (_ || _); bounded_list.
Qed.

Lemma bounded_installAndTest (w : World) pkg dir vs :
  Forall (bounded w) (fst (installAndTest w pkg dir vs)).
Proof.
  unfold installAndTest, appendTestOutput.
  apply all_bind; [|intros].
  { apply all_bind; [apply bounded_runCapture|intros].
    apply all_bind; [constructor|intros]. constructor. }
  apply all_bind; [|intros].
  { destruct (usesPlaywright pkg); [|constructor].
    apply all_bind; [apply bounded_runCapture|intros].
    apply all_bind; [constructor|intros]. constructor. }
  apply all_bind; [apply bounded_runCapture|intros].
  apply all_bind; [constructor|intros]. constructor.
Qed.

Lemma bounded_Part000b_runTests (w : World) c pkg dir vs :
  Forall (bounded w) (fst (Part000b.runTests w c pkg dir vs)).
Proof.
  unfold Part000b.runTests.
  apply all_bind; [constructor|intros _ vs' _].
  apply all_tryCatch; [apply bounded_installAndTest|intros e v].
  unfold bind, getTestOutput, postComment, emit, exit. cbn [fst app].
  apply List.Forall_cons; [|constructor]. cbn [bounded].
  unfold testFailedMessage. rewrite !length_app.
  pose proof (Part000b_truncate_length
                (orElse (orDefault (err_output e) []) (orElse (testOutput v) (err_string e)))
                Part000b.MAX_TEST_CHARS ltac:(discriminate)) as H.
  unfold Part000b.MAX_TEST_CHARS in H at 2.
  change (length NL) with 1%nat. change (length TICKS) with 3%nat.
  change (length (lit "npm test failed. Output:")) with 24%nat. lia.
Qed.

Lemma bounded_Part000b_review (w : World) c pr diff vs :
  pulls_get w = Some pr ->
  Forall (bounded w) (fst (Part000b.review w c pr diff vs)).
Proof.
  intros Hp. pose proof (Part000b_review_spec w c pr diff vs) as E. cbv zeta in E.
  rewrite E. destruct (negb _); [bounded_list|].
  cbn [fst]. apply List.Forall_cons; [|bounded_list].
  exists pr. split; [exact Hp|]. apply Part000b_prompt_bound.
Qed.

Lemma bounded_Part000b_main (w : World) (vs : Vars) :
  Forall (bounded w) (fst (Part000b.main w vs)).
Proof.
  unfold Part000b.main.
  apply all_bind; [apply bounded_readContext | intros c vs1 _].
  destruct (negb _); [unfold bind, emit, exit; bounded_list|].
  apply all_bind; [apply bounded_resolvePull | intros pr vs2 Hp].
  apply resolvePull_Val in Hp. cbv zeta.
  apply all_bind; [unfold emit; bounded_list | intros _ vs3 _].
  destruct (Part000b.alreadyReviewed w _); [unfold bind, emit, exit; bounded_list|].
  apply all_bind; [apply bounded_materialize | intros dir vs4 _].
  apply all_bind; [apply bounded_runCapture | intros diff vs5 _].
  apply all_bind; [apply bounded_loadPackage | intros pkg vs6 _].
  apply all_bind; [apply bounded_Part000b_runTests | intros [] vs7 _].
  now apply bounded_Part000b_review.
Qed.

(** X10.  The second document of part_000 bounds what it sends: a comment
    that a run posts is at most 8050 code units long (the failure comment
    carries at most 8000 units of output, the truncation note and the
    fence), and a prompt at most 20508 units plus the title and the
    description of the pull request, however long the diff and the test
    output are. *)
Theorem Part000b_comments_and_prompts_are_bounded (w : World) :
  let t := fst (runScript (Part000b.main w)) in
  (forall b, In b (comments t) -> (Z.of_nat (length b) <= 8050)%Z)
  /\ (forall p, In p (completions t) ->
        exists pr, pulls_get w = Some pr /\
          (Z.of_nat (length p)
           <= 20508 + Z.of_nat (length (pr_title pr))
              + Z.of_nat (length (orDefault (pr_body pr) [])))%Z).
Proof.
  cbv zeta. rewrite runScript_fst.
  pose proof (bounded_Part000b_main w {| testOutput := [] |}) as H.
  rewrite List.Forall_forall in H.
  split; intros x Hx; apply in_flat_map in Hx as (a & Ha & Hx);
    specialize (H a Ha); destruct a; try destruct Hx as [<-|[]]; try destruct Hx;
    exact H.
Qed.

Lemma Part000b_comments_and_prompts_are_bounded_witness :
  (Z.of_nat (length (testFailedMessage (lit "1 failed" ++ NL))) <= 8050)%Z.
Proof.
  apply (proj1 (Part000b_comments_and_prompts_are_bounded failingTestsWorld)).
  vm_compute. left. reflexivity.
Defined.

(** ** The module body of the first document of part_000 *)

Lemma Part000a_runCapture_spec (w : World) cmd args dir vs :
  Part000aRun.runCapture w cmd args dir vs
  = ([ExecFile cmd args dir], Val (outputOf (execFile w cmd args dir)) vs).
Proof. unfold Part000aRun.runCapture. now destruct (execFile w cmd args dir). Qed.

(** X11.  The first document of part_000, lines 52-107 with runCapture at
    111-122: once the gate is open, the key is set and the pull request
    comes from the same repository, the run always gets to the review,
    whether the three git commands exit zero or not (a failing command
    contributes what it printed).  It starts exactly those three commands,
    in the workspace itself, reads the changed files, makes one completion
    request and posts one review with the marker of the head commit; exit
    code 0. *)
Theorem Part000a_review_survives_git_failure (w : World)
    (meta : Part000aRun.PullMeta) (pr : Pull) :
  hasContext w = true ->
  Part000a.matchesTrigger (ctx_comment (contextOf w)) = true ->
  truthyOpt (OPENAI_API_KEY w) = true ->
  pulls_get w = Some pr ->
  head_repo_full_name pr = base_repo_full_name pr ->
  let c := contextOf w in
  let workspace := orDefault (GITHUB_WORKSPACE w) (cwd w) in
  let git args := ExecFile GIT args workspace in
  let out args := outputOf (execFile w GIT args workspace) in
  let files := fileNames (out (nameOnlyArgs (base_sha pr) (head_sha pr))) in
  let contents :=
    trim (join NL (sections (fun content =>
                               Part000a.truncate content Part000a.MAX_FILE_CHARS)
                     w workspace files)) in
  let prompt :=
    Part000aRun.prompt (pr_title pr) (orDefault (pr_body pr) [])
      (Part000aRun.user_login meta) (Part000aRun.labelsOf meta)
      (out (diffArgs (base_sha pr) (head_sha pr))) contents in
  runScript (Part000aRun.main w meta)
  = (contextTrace w ++ pullTrace w
       ++ [git (Part000aRun.fetchArgs (base_sha pr));
           git (diffArgs (base_sha pr) (head_sha pr));
           git (nameOnlyArgs (base_sha pr) (head_sha pr))]
       ++ readTrace w workspace files
       ++ [ResponsesCreate (modelName w) prompt 1200;
           CreateReview (ctx_owner c) (ctx_repo c) (ctx_issue c)
             (Part000aRun.extractReviewText (responses_create w prompt)
                ++ NL ++ NL ++ markerOf (head_sha pr))],
     Exited 0).
Proof.
  intros Hc Ht Hk Hp Hs. cbv zeta. unfold runScript, Part000aRun.main.
  rewrite (bind_Val _ _ _ _ _ _ (readContext_ok w _ Hc)). rewrite Ht, Hk. cbn [negb].
  rewrite (bind_Val (emit _) _ _ [_] tt _ eq_refl).
  rewrite Hp. rewrite (bool_decide_eq_true_2 _ Hs). cbn [negb]. cbv zeta.
  rewrite (bind_Val _ _ _ _ _ _ (Part000a_runCapture_spec w _ _ _ _)).
  rewrite (bind_Val _ _ _ _ _ _ (Part000a_runCapture_spec w _ _ _ _)).
  rewrite (bind_Val _ _ _ _ _ _ (Part000a_runCapture_spec w _ _ _ _)).
  unfold Part000a.readFiles.
  rewrite (bind_Val _ _ _ _ _ _ (readFilesWith_spec _ w _ _ _)).
  unfold Part000aRun.generateReview, complete, bind, emit, ret. cbn [fst snd].
  unfold pullTrace. rewrite <- !app_assoc. reflexivity.
Qed.

Lemma Part000a_review_survives_git_failure_witness :
  snd (runScript (Part000aRun.main brokenGitWorld sampleMeta)) = Exited 0.
Proof.
  rewrite (Part000a_review_survives_git_failure brokenGitWorld sampleMeta samplePull);
    vm_compute; reflexivity.
Defined.

(** X12.  The first document of part_000 tests the completion key right
    after the gate (lines 39-50): with the gate open and the key unset, the
    run posts the comment about the key and exits with code 1 before it asks
    for the pull request or starts any command. *)
Theorem Part000a_missing_key_stops_before_the_pull_request (w : World)
    (meta : Part000aRun.PullMeta) :
  hasContext w = true ->
  Part000a.matchesTrigger (ctx_comment (contextOf w)) = true ->
  truthyOpt (OPENAI_API_KEY w) = false ->
  let c := contextOf w in
  runScript (Part000aRun.main w meta)
  = (contextTrace w
       ++ [CreateComment (ctx_owner c) (ctx_repo c) (ctx_issue c) noKeyMessage],
     Exited 1).
Proof.
  intros Hc Ht Hk. cbv zeta. unfold runScript, Part000aRun.main.
  rewrite (bind_Val _ _ _ _ _ _ (readContext_ok w _ Hc)). rewrite Ht, Hk. reflexivity.
Qed.

Lemma Part000a_missing_key_stops_before_the_pull_request_witness :
  snd (runScript (Part000aRun.main noKeyWorld sampleMeta)) = Exited 1.
Proof.
  rewrite (Part000a_missing_key_stops_before_the_pull_request noKeyWorld sampleMeta);
    vm_compute; reflexivity.
Defined.

(** X13.  The first document of part_000: a run leaves behind what a run
    of review-agent.mjs can (exit code 0 with one review, or with nothing
    posted, asked or started; exit code 1 with at most one comment), and it
    always ends by an exit code: no command and no file can make it end in
    an uncaught exception. *)
Theorem Part000a_run_outcomes (w : World) (meta : Part000aRun.PullMeta) :
  runOK (runScript (Part000aRun.main w meta))
  /\ exists code, snd (runScript (Part000aRun.main w meta)) = Exited code.
Proof.
  unfold runScript, Part000aRun.main.
  destruct (hasContext w) eqn:Hc.
  2:{ rewrite (bind_Exit _ _ _ _ _ (readContext_stop w _ Hc)).
      destruct (contextFailure_silent w) as (Q1 & Q2 & Q3 & Q4).
      unfold runOK. cbn [fst snd]. rewrite Q1, Q2, Q3.
      split; [repeat split; cbn; lia | now exists 1]. }
  rewrite (bind_Val _ _ _ _ _ _ (readContext_ok w _ Hc)).
  destruct (Part000a.matchesTrigger (ctx_comment (contextOf w))); cbn [negb].
  2:{ cbn. unfold runOK. cbn. split; [|now exists 0].
      split; [reflexivity|]. right. now repeat split. }
  destruct (truthyOpt (OPENAI_API_KEY w)); cbn [negb].
  2:{ cbn. unfold runOK. cbn. split; [|now exists 1]. repeat split. lia. }
  rewrite (bind_Val (emit _) _ _ [_] tt _ eq_refl).
  destruct (pulls_get w) as [pr|].
  2:{ cbn. unfold runOK. cbn. split; [|now exists 1]. repeat split. lia. }
  destruct (bool_decide (head_repo_full_name pr = base_repo_full_name pr)); cbn [negb].
  2:{ cbn. unfold runOK. cbn. split; [|now exists 1]. repeat split. lia. }
  cbv zeta.
  rewrite (bind_Val _ _ _ _ _ _ (Part000a_runCapture_spec w _ _ _ _)).
  rewrite (bind_Val _ _ _ _ _ _ (Part000a_runCapture_spec w _ _ _ _)).
  rewrite (bind_Val _ _ _ _ _ _ (Part000a_runCapture_spec w _ _ _ _)).
  unfold Part000a.readFiles.
  rewrite (bind_Val _ _ _ _ _ _ (readFilesWith_spec _ w _ _ _)).
  unfold Part000aRun.generateReview, complete, bind, emit, ret. cbn [fst snd].
  split; [|now exists 0].
  unfold runOK. cbn [fst snd]. split.
  - unfold comments. rewrite !flat_map_app, readTrace_unobserved by reflexivity.
    reflexivity.
  - left. unfold postedReviews.
    rewrite !flat_map_app, readTrace_unobserved by reflexivity. reflexivity.
Qed.

(** * File names, file contents and the gate of the first document *)

(** * White space *)

Lemma trimStart_split (s : jsstring) :
  exists sp, s = sp ++ trimStart s /\ forallb isSpace sp = true.
Proof.
  induction s as [|c s (sp & E & F)]; [now exists []|].
  simpl. destruct (isSpace c) eqn:Hc; [|now exists []].
  exists (c :: sp). simpl. rewrite Hc, F. split; [now f_equal | reflexivity].
Qed.

Lemma trimStart_head (s r : jsstring) (c : N) :
  trimStart s = c :: r -> isSpace c = false.
Proof.
  induction s as [|d s IH]; simpl; [discriminate|].
  destruct (isSpace d) eqn:Hd; [exact IH|]. now intros [= <- _].
Qed.

Lemma trimStart_fix (c : N) (s : jsstring) :
  isSpace c = false -> trimStart (c :: s) = c :: s.
Proof. simpl. now intros ->. Qed.

Lemma trimStart_spaces (s : jsstring) : forallb isSpace s = true -> trimStart s = [].
Proof.
  induction s as [|c s IH]; simpl; [reflexivity|].
  intros [Hc Hs]%andb_prop. rewrite Hc. now apply IH.
Qed.

Lemma trimStart_In (s : jsstring) (c : N) : In c (trimStart s) -> In c s.
Proof.
  destruct (trimStart_split s) as (sp & E & _). intros H. rewrite E.
  apply in_or_app. now right.
Qed.

Lemma trimStart_nonempty (s : jsstring) (c : N) :
  In c s -> isSpace c = false -> trimStart s <> [].
Proof.
  induction s as [|d s IH]; simpl; [easy|].
  intros [->|H] Hc; [now rewrite Hc|].
  destruct (isSpace d); [now apply IH | discriminate].
Qed.

Lemma trim_In (s : jsstring) (c : N) : In c (trim s) -> In c s.
Proof.
  unfold trim, trimEnd. intros H.
  apply in_rev in H. apply trimStart_In in H. apply in_rev in H.
  now apply trimStart_In.
Qed.

Lemma trim_spaces (s : jsstring) : forallb isSpace s = true -> trim s = [].
Proof. intros H. unfold trim. now rewrite (trimStart_spaces s H). Qed.

(** [trim] is idempotent. *)
Lemma trim_trim (s : jsstring) : trim (trim s) = trim s.
Proof.
  unfold trim, trimEnd.
  destruct (trimStart (rev (trimStart s))) as [|z B] eqn:EB; [reflexivity|].
  pose proof (trimStart_head _ _ _ EB) as Hz.
  destruct (trimStart_split (rev (trimStart s))) as (sp & E & _).
  rewrite EB in E. apply (f_equal (@rev N)) in E.
  rewrite rev_involutive, rev_app_distr in E.
  assert (trimStart (rev (z :: B)) = rev (z :: B)) as ->.
  { destruct (rev (z :: B)) as [|a R] eqn:ER.
    - reflexivity.
    - apply trimStart_fix. rewrite <- app_comm_cons in E.
      exact (trimStart_head _ _ _ E). }
  rewrite rev_involutive. now rewrite (trimStart_fix z B Hz).
Qed.

(** * Lines *)

Lemma splitLines_cons (c : N) (s : jsstring) :
  splitLines (c :: s)
  = if c =? 10 then [] :: splitLines s
    else match splitLines s with
         | [] => [[c]]
         | l :: ls => (c :: l) :: ls
         end.
Proof. reflexivity. Qed.

Lemma splitLines_In (s line : jsstring) (c : N) :
  In line (splitLines s) -> In c line -> In c s /\ c <> 10.
Proof.
  revert line; induction s as [|d s IH]; intros line.
  - simpl. intros [<-|[]] [].
  - rewrite splitLines_cons. destruct (N.eqb_spec d 10) as [->|Hd].
    + intros [<-|H] Hc; [destruct Hc|].
      destruct (IH _ H Hc). split; [now right | assumption].
    + destruct (splitLines s) as [|l ls] eqn:E.
      * intros [<-|[]] [<-|[]]. split; [now left | assumption].
      * intros [<-|H] Hc.
        -- destruct Hc as [<-|Hc]; [split; [now left | assumption]|].
           destruct (IH l (or_introl eq_refl) Hc). split; [now right | assumption].
        -- destruct (IH line (or_intror H) Hc). split; [now right | assumption].
Qed.

Lemma splitLines_nonempty (s : jsstring) : splitLines s <> [].
Proof.
  destruct s as [|c s]; [discriminate|]. rewrite splitLines_cons.
  destruct (c =? 10); [discriminate|]. now destruct (splitLines s).
Qed.

(** [s.split('\n').join('\n')] gives [s] back. *)
Lemma join_splitLines (s : jsstring) : join NL (splitLines s) = s.
Proof.
  induction s as [|c s IH]; [reflexivity|].
  rewrite splitLines_cons. pose proof (splitLines_nonempty s) as Hne.
  destruct (N.eqb_spec c 10) as [->|Hc].
  - destruct (splitLines s) as [|l ls] eqn:E; [easy|].
    change (join NL ([] :: l :: ls)) with (NL ++ join NL (l :: ls)).
    now rewrite IH.
  - destruct (splitLines s) as [|l ls] eqn:E; [easy|].
    destruct ls as [|l' ls'].
    + simpl in *. now rewrite IH.
    + change (join NL ((c :: l) :: l' :: ls')) with (c :: l ++ NL ++ join NL (l' :: ls')).
      change (join NL (l :: l' :: ls')) with (l ++ NL ++ join NL (l' :: ls')) in IH.
      now rewrite IH.
Qed.

(** X14.  The changed file names handed to readFiles,
    [text.split('\n').map((f) => f.trim()).filter(Boolean)] (review-agent.mjs
    line 81, part_000 lines 83-85): every name is non-empty, is left as it
    is by [trim] (no white space at either end), holds no line break and
    consists of code units of the command's output; an output that is all
    white space gives no name. *)
Theorem changed_file_names_are_clean (text : jsstring) :
  (forall name, In name (fileNames text) ->
     name <> [] /\ trim name = name /\ ~ In 10 name /\
     forall c, In c name -> In c text)
  /\ (forallb isSpace text = true -> fileNames text = []).
Proof.
  unfold fileNames. split.
  - intros name [H Ht]%filter_In. apply in_map_iff in H as (line & <- & Hl).
    split; [now destruct (trim line)|]. split; [apply trim_trim|].
    split.
    + intros H. apply trim_In in H. now destruct (splitLines_In _ _ _ Hl H).
    + intros c H. apply trim_In in H. now destruct (splitLines_In _ _ _ Hl H).
  - intros Hs.
    assert (forall line, In line (splitLines text) -> trim line = []) as Hl.
    { intros line Hl. apply trim_spaces. apply forallb_forall. intros c Hc.
      destruct (splitLines_In _ _ _ Hl Hc) as [Hin _].
      rewrite forallb_forall in Hs. now apply Hs. }
    induction (splitLines text) as [|l ls IH]; [reflexivity|].
    simpl. rewrite (Hl l (or_introl eq_refl)). simpl.
    apply IH. intros line H. apply Hl. now right.
Qed.

Lemma changed_file_names_are_clean_witness :
  trim (lit "src/App.jsx") = lit "src/App.jsx".
Proof.
  apply (proj1 (changed_file_names_are_clean
                  (lit "src/App.jsx " ++ NL ++ NL ++ lit "  README.md" ++ NL))).
  vm_compute. left. reflexivity.
Defined.

(** * What [readFiles] returns *)

Lemma sections_nil (render : jsstring -> jsstring) (w : World) (dir : jsstring)
    (files : list jsstring) :
  sections render w dir files = [] <-> forall f, In f files -> readable w dir f = None.
Proof.
  unfold sections. induction files as [|f files IH]; simpl.
  - split; [intros _ ? [] | reflexivity].
  - destruct (readable w dir f) as [content|] eqn:E.
    + split; [discriminate|]. intros H. specialize (H f (or_introl eq_refl)).
      congruence.
    + simpl. rewrite IH. split.
      * intros H g [<-|Hg]; [assumption | now apply H].
      * intros H g Hg. apply H. now right.
Qed.

Lemma trim_section_nonempty (rest : jsstring) : trim (NL ++ lit "--- " ++ rest) <> [].
Proof.
  unfold trim, trimEnd.
  change (trimStart (NL ++ lit "--- " ++ rest)) with (45 :: lit "-- " ++ rest).
  destruct (trimStart (rev (45 :: lit "-- " ++ rest))) as [|z B] eqn:E.
  - exfalso. revert E. apply (trimStart_nonempty _ 45); [|reflexivity].
    apply -> in_rev. now left.
  - simpl. intros H. symmetry in H. now apply app_cons_not_nil in H.
Qed.

(** X15.  readFiles, in both revisions that have it: the result is the
    empty string exactly when none of the files is readable (an empty name,
    a failing [stat], not a regular file, or a failing read), which is when
    the prompt shows [(none)] in place of file contents. *)
Theorem readFiles_is_empty_iff_nothing_is_readable (render : jsstring -> jsstring)
    (w : World) (files : list jsstring) (dir : jsstring) (vs : Vars) :
  snd (readFilesWith render w files dir vs) = Val [] vs
  <-> forall f, In f files -> readable w dir f = None.
Proof.
  rewrite readFilesWith_spec. cbn [snd]. rewrite <- (sections_nil render).
  split.
  - intros [= H]. destruct (sections render w dir files) as [|s ss] eqn:E;
      [reflexivity|]. exfalso.
    assert (exists f content, s = section f (render content)) as (f & content & ->).
    { unfold sections in E. clear H. induction files as [|f files IH]; [discriminate|].
      simpl in E. destruct (readable w dir f) as [content|].
      - injection E as <- _. now exists f, content.
      - exact (IH E). }
    unfold section in H.
    destruct ss as [|s' ss'].
    + simpl join in H. rewrite <- ?app_assoc in H.
      exact (trim_section_nonempty _ H).
    + change (join NL (?a :: s' :: ss')) with (a ++ NL ++ join NL (s' :: ss')) in H.
      rewrite <- ?app_assoc in H.
      exact (trim_section_nonempty _ H).
  - now intros ->.
Qed.

Lemma readFiles_is_empty_iff_nothing_is_readable_witness :
  snd (readFilesWith (fun content => content) unreadableWorld
         [lit "src/App.jsx"; lit "README.md"] (lit "/ws") {| testOutput := [] |})
  = Val [] {| testOutput := [] |}.
Proof.
  apply (proj2 (readFiles_is_empty_iff_nothing_is_readable _ unreadableWorld _ _ _)).
  intros f _. unfold readable. destruct (truthy f); reflexivity.
Defined.

(** * The gate of the first document of part_000 *)

Lemma Part000a_fence_start (s : jsstring) (k : nat) :
  fenceAt Part000a.fenceClass s = Some (S k) ->
  (S k <= length s)%nat /\
  forallb anyUnit (firstn (S k) s) = true /\
  exists c s', s = c :: s' /\ isBacktick c = true.
Proof.
  intros H. destruct (fenceAt_shape _ _ _ H) as (H1 & _ & _).
  split; [exact H1|]. split; [now apply forallb_forall|].
  unfold fenceAt in H. destruct (startsWith TICKS s) eqn:E; [|discriminate].
  apply startsWith_prefix in E. change TICKS with [96; 96; 96] in E.
  destruct s as [|a s]; [discriminate|]. injection E as -> _. now exists 96, s.
Qed.

Lemma Part000a_spaceRun_shape (s : jsstring) (k : nat) :
  Part000a.spaceRunAt s = Some (S k) ->
  (S k <= length s)%nat /\
  forallb isSpace (firstn (S k) s) = true /\
  exists c s', s = c :: s' /\ isSpace c = true.
Proof.
  unfold Part000a.spaceRunAt.
  destruct (runLength isSpace s) as [|n] eqn:E; [discriminate|].
  intros [= <-]. destruct (runLength_spec isSpace s) as [H1 H2].
  rewrite E in H1, H2. split; [exact H1|]. split; [exact H2|].
  destruct s as [|c s]; [discriminate E|]. exists c, s. split; [reflexivity|].
  simpl in E. now destruct (isSpace c).
Qed.

Lemma replaceGo_skip (matchAt : jsstring -> option nat) (by_ g s : jsstring) :
  replaceGo matchAt by_ (length g) (g ++ s) = replaceGo matchAt by_ 0 s.
Proof.
  induction g as [|c g IH]; [|exact IH].
  simpl. destruct s; reflexivity.
Qed.

Lemma runLength_gap (g r : jsstring) (x : N) :
  forallb isSpace g = true -> isSpace x = false ->
  runLength isSpace (g ++ x :: r) = length g.
Proof.
  intros Hg Hx. induction g as [|c g IH]; simpl; [now rewrite Hx|].
  simpl in Hg. apply andb_prop in Hg as [Hc Hg]. now rewrite Hc, IH.
Qed.

(** A run of white space before a unit that is none becomes one blank. *)
Lemma collapse_gap (g r : jsstring) (x : N) :
  isGap g = true -> isSpace x = false ->
  replaceGo Part000a.spaceRunAt (lit " ") 0 (g ++ x :: r)
  = lit " " ++ replaceGo Part000a.spaceRunAt (lit " ") 0 (x :: r).
Proof.
  unfold isGap. intros [Hn Hg]%andb_prop Hx.
  destruct g as [|c g]; [discriminate Hn|].
  change ((c :: g) ++ x :: r) with (c :: g ++ x :: r).
  rewrite (replaceGo_cons Part000a.spaceRunAt (lit " ") 0 c (g ++ x :: r)).
  unfold Part000a.spaceRunAt at 1.
  change (c :: g ++ x :: r) with ((c :: g) ++ x :: r).
  rewrite (runLength_gap (c :: g) r x Hg Hx). cbn [length]. cbv beta iota.
  now rewrite replaceGo_skip.
Qed.

Lemma collapse_word (W rest : jsstring) :
  forallb (fun c => negb (isSpace c)) W = true ->
  replaceGo Part000a.spaceRunAt (lit " ") 0 (W ++ rest)
  = W ++ replaceGo Part000a.spaceRunAt (lit " ") 0 rest.
Proof.
  apply (replaceGo_copy Part000a.spaceRunAt (lit " ") isSpace isSpace
           Part000a_spaceRun_shape).
Qed.

Lemma isBacktick_lower (c : N) : isBacktick c = true -> isBacktick (lowerUnit c) = true.
Proof. unfold isBacktick. intros H. apply N.eqb_eq in H. now subst c. Qed.

(** A word that is one of the trigger's in some letter case: it is not
    empty, and holds neither white space nor a backtick. *)
Lemma word_shape (W word : jsstring) :
  toLowerCase W = toLowerCase word ->
  forallb (fun c => negb (isSpace c)) (toLowerCase word) = true ->
  forallb (fun c => negb (isBacktick c)) (toLowerCase word) = true ->
  word <> [] ->
  forallb (fun c => negb (isSpace c)) W = true
  /\ forallb (fun c => negb (isBacktick c)) W = true
  /\ exists a W', W = a :: W' /\ isSpace a = false.
Proof.
  intros H Hs Hb Hn.
  assert (forallb (fun c => negb (isSpace c)) W = true) as Hs'.
  { apply lowered_forallb; [exact isSpace_lower|]. now rewrite H. }
  split; [exact Hs'|]. split.
  { apply lowered_forallb; [exact isBacktick_lower|]. now rewrite H. }
  destruct W as [|a W']; [destruct word; [easy | discriminate H]|].
  exists a, W'. split; [reflexivity|].
  simpl in Hs'. apply andb_prop in Hs' as [Ha _]. now apply negb_true_iff in Ha.
Qed.

Lemma gap_no_backtick (g : jsstring) :
  isGap g = true -> forallb (fun c => negb (isBacktick c)) g = true.
Proof.
  unfold isGap. intros [_ H]%andb_prop.
  apply (forallb_weaken isSpace); [|exact H].
  intros c Hc. unfold isBacktick. destruct (N.eqb_spec c 96) as [->|]; [discriminate Hc|].
  reflexivity.
Qed.

Lemma five_equal (a b c d e a' b' c' d' e' : jsstring) :
  List.map toLowerCase [a; b; c; d; e] = [a'; b'; c'; d'; e'] ->
  toLowerCase a = a' /\ toLowerCase b = b' /\ toLowerCase c = c'
  /\ toLowerCase d = d' /\ toLowerCase e = e'.
Proof. cbn [List.map]. intros [= -> -> -> -> ->]. repeat split. Qed.

(** X16.  matchesTrigger of the first document of part_000 (lines
    137-141) collapses white space inside the phrase: a comment without
    backticks opens the gate when it holds the five words of the trigger
    phrase, in any letter case, separated by arbitrary non-empty runs of
    white space (line breaks included), with any text before and after. *)
Theorem Part000a_gate_collapses_white_space (pre post : jsstring)
    (words gaps : list jsstring) :
  List.map toLowerCase words = List.map toLowerCase triggerWords ->
  length gaps = 4%nat ->
  forallb isGap gaps = true ->
  noBacktick pre = true -> noBacktick post = true ->
  Part000a.matchesTrigger (pre ++ interleave words gaps ++ post) = true.
Proof.
  intros Hw Hl Hg Hpre Hpost.
  destruct words as [|W1 [|W2 [|W3 [|W4 [|W5 [|]]]]]]; try discriminate Hw.
  destruct gaps as [|g1 [|g2 [|g3 [|g4 [|]]]]]; try discriminate Hl.
  change (List.map toLowerCase triggerWords)
    with [toLowerCase (lit "@review-agent:"); toLowerCase (lit "please");
          toLowerCase (lit "review"); toLowerCase (lit "this"); toLowerCase (lit "PR")]
    in Hw.
  destruct (five_equal _ _ _ _ _ _ _ _ _ _ Hw) as (H1 & H2 & H3 & H4 & H5). clear Hw.
  cbn [forallb] in Hg.
  apply andb_prop in Hg as [G1 [G2 [G3 [G4 _]%andb_prop]%andb_prop]%andb_prop].
  destruct (word_shape W1 _ H1 eq_refl eq_refl ltac:(discriminate))
    as (S1 & B1 & a1 & W1' & E1 & A1).
  destruct (word_shape W2 _ H2 eq_refl eq_refl ltac:(discriminate))
    as (S2 & B2 & a2 & W2' & E2 & A2).
  destruct (word_shape W3 _ H3 eq_refl eq_refl ltac:(discriminate))
    as (S3 & B3 & a3 & W3' & E3 & A3).
  destruct (word_shape W4 _ H4 eq_refl eq_refl ltac:(discriminate))
    as (S4 & B4 & a4 & W4' & E4 & A4).
  destruct (word_shape W5 _ H5 eq_refl eq_refl ltac:(discriminate))
    as (S5 & B5 & a5 & W5' & E5 & A5).
  cbn [interleave].
  unfold Part000a.matchesTrigger.
  assert (truthy (pre ++ (W1 ++ g1 ++ W2 ++ g2 ++ W3 ++ g3 ++ W4 ++ g4 ++ W5) ++ post)
          = true) as ->.
  { rewrite E1. now destruct pre. }
  cbn [negb]. cbv zeta. unfold replaceAll.
  assert (replaceGo (fenceAt Part000a.fenceClass) (lit " ") 0
            (pre ++ (W1 ++ g1 ++ W2 ++ g2 ++ W3 ++ g3 ++ W4 ++ g4 ++ W5) ++ post)
          = pre ++ (W1 ++ g1 ++ W2 ++ g2 ++ W3 ++ g3 ++ W4 ++ g4 ++ W5) ++ post) as ->.
  { pose proof (replaceGo_copy (fenceAt Part000a.fenceClass) (lit " ")
                  isBacktick anyUnit Part000a_fence_start
                  (pre ++ (W1 ++ g1 ++ W2 ++ g2 ++ W3 ++ g3 ++ W4 ++ g4 ++ W5) ++ post)
                  []) as C.
    rewrite !app_nil_r in C. apply C.
    change (forallb (fun c => negb (isBacktick c)) pre = true) in Hpre.
    change (forallb (fun c => negb (isBacktick c)) post = true) in Hpost.
    rewrite !forallb_app, Hpre, Hpost, B1, B2, B3, B4, B5.
    now rewrite !gap_no_backtick. }
  rewrite <- !app_assoc.
  assert (forallb (fun c => negb (isSpace c)) (a1 :: W1') = true) as S1' by now rewrite <- E1.
  rewrite E1.
  destruct (replaceGo_keeps Part000a.spaceRunAt (lit " ") isSpace isSpace
              Part000a_spaceRun_shape a1 W1'
              (g1 ++ W2 ++ g2 ++ W3 ++ g3 ++ W4 ++ g4 ++ W5 ++ post)
              A1 S1' pre 0%nat ltac:(lia)) as [pre1 ->].
  rewrite <- E1.
  rewrite E2 at 1. change ((a2 :: W2') ++ ?r) with (a2 :: W2' ++ r).
  rewrite (collapse_gap g1 _ a2 G1 A2).
  change (a2 :: W2' ++ ?r) with ((a2 :: W2') ++ r). rewrite <- E2.
  rewrite (collapse_word W2 _ S2).
  rewrite E3 at 1. change ((a3 :: W3') ++ ?r) with (a3 :: W3' ++ r).
  rewrite (collapse_gap g2 _ a3 G2 A3).
  change (a3 :: W3' ++ ?r) with ((a3 :: W3') ++ r). rewrite <- E3.
  rewrite (collapse_word W3 _ S3).
  rewrite E4 at 1. change ((a4 :: W4') ++ ?r) with (a4 :: W4' ++ r).
  rewrite (collapse_gap g3 _ a4 G3 A4).
  change (a4 :: W4' ++ ?r) with ((a4 :: W4') ++ r). rewrite <- E4.
  rewrite (collapse_word W4 _ S4).
  rewrite E5 at 1. change ((a5 :: W5') ++ ?r) with (a5 :: W5' ++ r).
  rewrite (collapse_gap g4 _ a5 G4 A5).
  change (a5 :: W5' ++ ?r) with ((a5 :: W5') ++ r). rewrite <- E5.
  rewrite (collapse_word W5 _ S5).
  set (tail := replaceGo Part000a.spaceRunAt (lit " ") 0 post).
  set (M := W1 ++ lit " " ++ W2 ++ lit " " ++ W3 ++ lit " " ++ W4 ++ lit " " ++ W5).
  assert (toLowerCase M = toLowerCase TRIGGER) as HM.
  { unfold M. rewrite !toLowerCase_app, H1, H2, H3, H4, H5. reflexivity. }
  replace (pre1 ++ W1 ++ lit " " ++ W2 ++ lit " " ++ W3 ++ lit " " ++ W4 ++ lit " "
             ++ W5 ++ tail) with (pre1 ++ M ++ tail)
    by (unfold M; now rewrite <- !app_assoc).
  destruct (occurrence_shape M HM) as (a & mid & z & EM & _ & Ha & Hz & _).
  rewrite EM.
  destruct (trim_keeps pre1 mid tail a z Ha Hz) as (pre3 & post3 & ->).
  rewrite <- EM, !toLowerCase_app, HM. apply includes_app.
Qed.

Lemma Part000a_gate_collapses_white_space_witness :
  Part000a.matchesTrigger
    (lit "> " ++ interleave
       [lit "@Review-Agent:"; lit "PLEASE"; lit "review"; lit "this"; lit "pr"]
       [lit "  "; NL; [9; 32]; NL ++ NL] ++ lit " thanks") = true.
Proof.
  apply Part000a_gate_collapses_white_space; vm_compute; reflexivity.
Defined.

(** * Answers without text *)

Lemma extractReviewText_noText (r : Response) :
  noText r = true -> extractReviewText r = FALLBACK.
Proof.
  unfold noText, extractReviewText.
  intros [H1 H2]%andb_prop. apply negb_true_iff in H1, H2.
  rewrite H1. cbv zeta. now rewrite H2.
Qed.

(** X17.  review-agent.mjs, lines 158-173 with extractReviewText at
    264-277: an answer that carries no text in either shape is read as the
    fallback text [No issues found. Tests passed.], which itself matches the
    clean-verdict pattern.  So in a run in which every check goes through,
    such a first answer makes the run ask a second time and post the second
    answer; when that one carries no text either, the review is the fallback
    text. *)
Theorem answer_without_text_is_asked_again (w : World) (pr : Pull) (pkg : Package) :
  reviewConditions w pr pkg ->
  let args := promptArgs w pr pkg in
  let second := responses_create w (ReviewAgent.buildRetryPrompt args) in
  noText (responses_create w (ReviewAgent.buildPrompt args)) = true ->
  let t := fst (runScript (ReviewAgent.main w)) in
  completions t = [ReviewAgent.buildPrompt args; ReviewAgent.buildRetryPrompt args]
  /\ postedReviews t
     = [extractReviewText second ++ NL ++ NL ++ markerOf (head_sha pr)]
  /\ (noText second = true ->
      postedReviews t = [FALLBACK ++ NL ++ NL ++ markerOf (head_sha pr)]).
Proof.
  intros (Hc & Ht & Hp & Hs & Hg & Hk & Hr & Hx & Hkey). cbv zeta. intros Hn.
  assert (fst (runScript (ReviewAgent.main w))
          = ReviewAgent_prefix w pr ++ FsReadFile (packagePath w) :: testTrace w pkg
              ++ [ResponsesCreate (modelName w)
                    (ReviewAgent.buildPrompt (promptArgs w pr pkg)) 1200;
                  ResponsesCreate (modelName w)
                    (ReviewAgent.buildRetryPrompt (promptArgs w pr pkg)) 1200;
                  CreateReview (ctx_owner (contextOf w)) (ctx_repo (contextOf w))
                    (ctx_issue (contextOf w))
                    (extractReviewText
                       (responses_create w
                          (ReviewAgent.buildRetryPrompt (promptArgs w pr pkg)))
                       ++ NL ++ NL ++ markerOf (head_sha pr))]) as ->.
  { rewrite runScript_fst.
    rewrite (ReviewAgent_main_prefix w pr _ Hc Ht Hp Hs Hg).
    rewrite (ReviewAgent_tail_tests w pr _ pkg Hk Hr), Hx. cbv zeta.
    pose proof (ReviewAgent_review_spec w (contextOf w) pr
                  (ReviewAgent.diff (promptArgs w pr pkg))
                  (ReviewAgent.changedFileContents (promptArgs w pr pkg))
                  {| testOutput := collectedOutput w pkg |}) as E.
    cbv zeta in E. cbn [promptArgs ReviewAgent.diff ReviewAgent.changedFileContents] in E.
    rewrite E. clear E. rewrite Hkey. cbn [negb fst snd].
    unfold promptArgs in Hn |- *. cbn [testOutput].
    rewrite (extractReviewText_noText _ Hn).
    change (testIgnoreCase NO_ISSUES FALLBACK) with true. cbv iota.
    reflexivity. }
  destruct (ReviewAgent_prefix_quiet w pr) as (Q1 & Q2 & Q3).
  unfold completions, postedReviews in *.
  rewrite !flat_map_app, Q2, Q3. cbn [flat_map app].
  rewrite !flat_map_app, !testTrace_unobserved by reflexivity.
  cbn [flat_map app]. repeat split.
  intros Hn2. now rewrite (extractReviewText_noText _ Hn2).
Qed.

Lemma answer_without_text_is_asked_again_witness :
  postedReviews (fst (runScript (ReviewAgent.main silentModelWorld)))
  = [FALLBACK ++ NL ++ NL ++ markerOf (head_sha samplePull)].
Proof.
  assert (reviewConditions silentModelWorld samplePull samplePackage) as H
    by (repeat split; vm_compute; reflexivity).
  refine (proj2 (proj2 (answer_without_text_is_asked_again
                          silentModelWorld samplePull samplePackage H _)) _);
    vm_compute; reflexivity.
Defined.

(** X18.  The run of the second document of part_000 in which every check
    goes through and the head commit has no review yet: after the test
    stage it makes one completion request, of at most 800 output tokens,
    whose prompt carries the diff cut to 12000 and the test output cut to
    8000 code units, posts one review with the marker of the head commit,
    and ends with exit code 0. *)
Theorem Part000b_passing_run_posts_one_review (w : World) (pr : Pull) (pkg : Package) :
  hasContext w = true ->
  includes (ctx_comment (contextOf w)) TRIGGER = true ->
  pulls_get w = Some pr ->
  head_repo_full_name pr = base_repo_full_name pr ->
  Part000b.alreadyReviewed w (markerOf (head_sha pr)) = false ->
  gitSucceeds w pr = true ->
  read_package w (packagePath w) = Some pkg ->
  realTestScript pkg = true ->
  testsPass w pkg = true ->
  truthyOpt (OPENAI_API_KEY w) = true ->
  let c := contextOf w in
  let diff :=
    outputOf (execFile w GIT (diffArgs (base_sha pr) (head_sha pr)) (workDirOf w)) in
  let prompt :=
    Part000b.buildPrompt (pr_title pr) (orDefault (pr_body pr) [])
      (Part000b.truncate diff Part000b.MAX_DIFF_CHARS)
      (Part000b.truncate (collectedOutput w pkg) Part000b.MAX_TEST_CHARS) in
  runScript (Part000b.main w)
  = (Part000b_prefix w pr ++ FsReadFile (packagePath w) :: testTrace w pkg
       ++ [ResponsesCreate (modelName w) prompt 800;
           CreateReview (ctx_owner c) (ctx_repo c) (ctx_issue c)
             (extractReviewText (responses_create w prompt) ++ NL ++ NL
                ++ markerOf (head_sha pr))],
     Exited 0).
Proof.
  intros Hc Ht Hp Hs Ha Hg Hk Hr Hx Hkey. cbv zeta. unfold runScript.
  rewrite (Part000b_main_prefix w pr _ Hc Ht Hp Hs Ha Hg).
  unfold Part000b_tail. cbv zeta.
  rewrite (bind_Val _ _ _ _ _ _ (loadPackage_ok w _ _ _ pkg Hk Hr)).
  pose proof (Part000b_runTests_spec w (contextOf w) pkg {| testOutput := [] |}) as E.
  rewrite Hx in E. rewrite (bind_Val _ _ _ _ _ _ E).
  pose proof (Part000b_review_spec w (contextOf w) pr
                (outputOf (execFile w GIT (diffArgs (base_sha pr) (head_sha pr))
                             (workDirOf w)))
                {| testOutput := collectedOutput w pkg |}) as R.
  cbv zeta in R. rewrite R, Hkey. cbn [negb fst snd testOutput app].
  reflexivity.
Qed.

Lemma Part000b_passing_run_posts_one_review_witness :
  snd (runScript (Part000b.main sampleWorld)) = Exited 0.
Proof.
  rewrite (Part000b_passing_run_posts_one_review sampleWorld samplePull samplePackage);
    vm_compute; reflexivity.
Defined.

(** * A pull request that the host does not know *)

Lemma resolvePull_none (w : World) (c : Context) (vs : Vars) :
  pulls_get w = None ->
  resolvePull w c vs
  = ([PullsGet (ctx_owner c) (ctx_repo c) (ctx_issue c);
      ConsoleError (lit "PR not found.")], Exit 1).
Proof. unfold resolvePull. now intros ->. Qed.

(** X19.  review-agent.mjs (lines 45-50) and the second document of
    part_000 (lines 256-261): when the host API returns no pull request for
    the issue, the run writes [PR not found.] to the console and exits with
    code 1 right after that call; unlike the other guards it posts no
    comment. *)
Theorem missing_pull_request_is_only_logged (w : World) :
  hasContext w = true ->
  pulls_get w = None ->
  let stop :=
    (contextTrace w ++ pullTrace w ++ [ConsoleError (lit "PR not found.")], Exited 1) in
  (ReviewAgent.matchesTrigger (ctx_comment (contextOf w)) = true ->
   runScript (ReviewAgent.main w) = stop)
  /\ (includes (ctx_comment (contextOf w)) TRIGGER = true ->
      runScript (Part000b.main w) = stop).
Proof.
  intros Hc Hp. cbv zeta. split; intros Ht.
  - unfold runScript, ReviewAgent.main.
    rewrite (bind_Val _ _ _ _ _ _ (readContext_ok w _ Hc)). rewrite Ht. cbn [negb].
    now rewrite (bind_Exit _ _ _ _ _ (resolvePull_none w _ _ Hp)).
  - unfold runScript, Part000b.main.
    rewrite (bind_Val _ _ _ _ _ _ (readContext_ok w _ Hc)). rewrite Ht. cbn [negb].
    now rewrite (bind_Exit _ _ _ _ _ (resolvePull_none w _ _ Hp)).
Qed.

Lemma missing_pull_request_is_only_logged_witness :
  comments (fst (runScript (ReviewAgent.main noPullWorld))) = []
  /\ snd (runScript (Part000b.main noPullWorld)) = Exited 1.
Proof.
  destruct (missing_pull_request_is_only_logged noPullWorld eq_refl eq_refl) as [A B].
  rewrite (A eq_refl), (B eq_refl). split; reflexivity.
Defined.
